(** * Furniture Hub backend: orders, stock and M-Pesa payment reconciliation

    A shallow embedding of the order / stock / payment workflow:

    - [services/mpesaService.js]   : [formatPhoneNumber], [initiateSTKPush],
                                     [generateAccessToken], [processCallback]
    - [models/Product.js]          : [updateStock]
    - [models/Order.js]            : [updateStatus], [markAsPaid], [cancelOrder]
    - [utils/helpers.js]           : [calculateDeliveryFee]
    - [controllers/orderController.js]   : [createOrder], [updateOrderStatus],
                                           [cancelOrder]
    - [controllers/paymentController.js] : [initiatePayment], [mpesaCallback]

    Conventions of the embedding.

    - JavaScript numbers that carry money, stock and quantities are integers
      of [Z]; a [Date] is the integer reading of the clock.
    - Text on which the code works character by character (phone numbers,
      city names) is a list of UTF-16 code units ([ustring]), so that
      [String.prototype.length] is [length]; text that is only stored,
      compared or concatenated is a [string].
    - The document database is passed explicitly: a handler takes the
      collections and returns the collections it leaves behind together with
      what it answers.  A handler runs from its first to its last statement
      without another request in between, and the database itself does not
      fail.  [save()] and [create()] of Mongoose validate the document
      before the [pre('save')] hooks of the schema run, and validate every
      path of it, loaded or modified; of these checks the casts to
      [Number], the [min] validators, the validator of [salePrice] and the
      [required] of [orderNumber] bear on the fields carried here.  The
      orders of the collection are taken to satisfy their schema, every
      write of them going through [save()].
    - Every [new Date()] and every answer of the payment gateway is an
      argument of the function that asks for it.
    - A thrown exception is the left summand of a sum. *)

From Stdlib Require Import ZArith NArith Lia String Ascii List Bool.
From stdpp Require Import base option list gmap strings pretty.

Local Open Scope Z_scope.

(** ** JavaScript values *)

(** UTF-16 code units of a JavaScript string. *)
Definition ustring := list N.

Definition units (s : string) : ustring :=
  List.map N_of_ascii (list_ascii_of_string s).

(** [s.startsWith(p)] *)
Fixpoint startsWith (p s : ustring) : bool :=
  match p, s with
  | [], _ => true
  | _ :: _, [] => false
  | a :: p', b :: s' => N.eqb a b && startsWith p' s'
  end.

(** The class [\s] of a regular expression: WhiteSpace and LineTerminator of
    ECMAScript. *)
Definition is_space (c : N) : bool :=
  (N.leb 9 c && N.leb c 13) || N.eqb c 32 || N.eqb c 160 || N.eqb c 5760
  || (N.leb 8192 c && N.leb c 8202) || N.eqb c 8232 || N.eqb c 8233
  || N.eqb c 8239 || N.eqb c 8287 || N.eqb c 12288 || N.eqb c 65279.

(** The class [\d]. *)
Definition is_digit (c : N) : bool := N.leb 48 c && N.leb c 57.

(** [s.trim()] *)
Fixpoint trimStart (s : ustring) : ustring :=
  match s with
  | c :: s' => if is_space c then trimStart s' else s
  | [] => []
  end.

Definition trim (s : ustring) : ustring :=
  rev (trimStart (rev (trimStart s))).

(** [a || b] on optional strings: [undefined] and the empty string are
    falsy. *)
Definition or_str (a : option string) (b : option string) : option string :=
  match a with
  | Some s => if String.eqb s "" then b else a
  | None => b
  end.

(** ** Exceptions *)

Module Axios.

(** The body of an HTTP error answer of the gateway, as far as the code
    reads it ([error.response.data]). *)
Record data := {
  errorMessage : option string;
  ResponseDescription : option string
}.

(** What [axios.get] and [axios.post] throw: the answer of the server is
    there when the server answered outside 2xx, and missing on a timeout
    or a refused connection. *)
Record error := {
  message : string;
  response : option data
}.

End Axios.

(** What the code throws and catches.  [ErrorResponse] is the class of
    [middleware/errorHandler]: a message and an HTTP status. *)
Inductive exn :=
| Error (message : string)
| ErrorResponse (message : string) (statusCode : Z)
| AxiosError (e : Axios.error).

Definition message (e : exn) : string :=
  match e with
  | Error m | ErrorResponse m _ => m
  | AxiosError e => Axios.message e
  end.

(** [error.response?.data] *)
Definition response_data (e : exn) : option Axios.data :=
  match e with
  | AxiosError e => Axios.response e
  | _ => None
  end.

(** What a handler answers: [res.status(code).json(body)] or [next(error)]. *)
Inductive reply (A : Type) :=
| Json (status : Z) (body : A)
| Next (e : exn).
Arguments Json {A} status body.
Arguments Next {A} e.

(** ** services/mpesaService.js: phone numbers *)

Module Phone.

(** The characters removed by [phone.replace(/[\s\-\+]/g, '')]. *)
Definition removed (c : N) : bool :=
  is_space c || N.eqb c 45 || N.eqb c 43.

Definition clean (phone : ustring) : ustring :=
  List.filter (fun c => negb (removed c)) phone.

(** The value of [cleaned] when the length is tested. *)
Definition normalize (phone : ustring) : ustring :=
  let cleaned := clean phone in
  let cleaned :=
    if startsWith (units "0") cleaned
    then units "254" ++ drop 1 cleaned else cleaned in
  if negb (startsWith (units "254") cleaned)
  then units "254" ++ cleaned else cleaned.

Definition formatPhoneNumber (phone : ustring) : exn + ustring :=
  let cleaned := normalize phone in
  if negb (Nat.eqb (length cleaned) 12)
  then inl (Error "Invalid phone number format")
  else inr cleaned.

End Phone.

(** ** models/Product.js *)

Module Product.

Record t := {
  name : string;
  price : Z;
  salePrice : option Z;
  stock : Z;
  images : list string
}.

Definition set_stock (s : Z) (p : t) : t :=
  {| name := name p; price := price p; salePrice := salePrice p;
     stock := s; images := images p |}.

(** The validators of [price] ([min: 0]) and of [salePrice] ([min: 0] and
    [!value || value < this.price]; a sale price that is not there is not
    validated). *)
Definition prices_valid (p : t) : bool :=
  (0 <=? price p)
  && match salePrice p with
     | None => true
     | Some s => (0 <=? s) && ((s =? 0) || (s <? price p))
     end.

(** [save()] of a loaded product: Mongoose validates every path of the
    document, the ones that were loaded as well as the modified [stock]
    ([min: 0]), and throws a [ValidationError], an [Error] whose message goes
    on with the paths that failed.  The paths that are not carried in [t]
    are taken to pass. *)
Definition save (p : t) : exn + t :=
  if prices_valid p && (0 <=? stock p)
  then inr p
  else inl (Error "Product validation failed").

Definition updateStock (quantity : Z) (p : t) : exn + t :=
  let p := set_stock (stock p - quantity) p in
  let p := if stock p <? 0 then set_stock 0 p else p in
  save p.

End Product.

(** ** utils/helpers.js *)

(** [toLowerCase] on one code unit, exact wherever the image is an ASCII
    letter (the capitals A-Z and U+212A, the Kelvin sign); the other code
    units are kept, which never makes a city equal to one of the ASCII keys
    of [deliveryRates] nor changes what [trim] removes. *)
Definition toLowerCase_unit (c : N) : N :=
  if N.leb 65 c && N.leb c 90 then (c + 32)%N
  else if N.eqb c 8490 then 107%N
  else c.

Definition toLowerCase (s : ustring) : ustring := List.map toLowerCase_unit s.

(** The own keys of the object literal [deliveryRates]. *)
Definition deliveryRates : list (string * Z) :=
  [ ("nairobi", 0); ("mombasa", 1000); ("kisumu", 1500); ("nakuru", 800);
    ("eldoret", 1200); ("thika", 500); ("default", 1000) ].

Fixpoint rate_of (rates : list (string * Z)) (key : ustring) : option Z :=
  match rates with
  | [] => None
  | (k, v) :: rates' =>
      if bool_decide (units k = key) then Some v else rate_of rates' key
  end.

(** [deliveryRates[normalizedCity] || deliveryRates.default].  A rate of 0 is
    falsy, so the default is charged.  [None] is the answer that is not a
    number: the all-lowercase properties every object inherits,
    [constructor] and [__proto__], are truthy objects. *)
Definition calculateDeliveryFee (city : ustring) : option Z :=
  let normalizedCity := trim (toLowerCase city) in
  if bool_decide (normalizedCity = units "constructor")
     || bool_decide (normalizedCity = units "__proto__")
  then None
  else
    match rate_of deliveryRates normalizedCity with
    | Some r => if r =? 0 then Some 1000 else Some r
    | None => Some 1000
    end.

(** ** models/Order.js *)

Module Payment.
Inductive status := pending | paid | failed | refunded.
Inductive method := mpesa | card | cod.

#[global] Instance status_eq_dec : EqDecision status.
Proof. solve_decision. Defined.
End Payment.

Module Order.

Inductive order_status :=
| pending | confirmed | processing | shipped | delivered | cancelled.

#[global] Instance order_status_eq_dec : EqDecision order_status.
Proof. solve_decision. Defined.

Definition status_name (s : order_status) : string :=
  match s with
  | pending => "pending" | confirmed => "confirmed"
  | processing => "processing" | shipped => "shipped"
  | delivered => "delivered" | cancelled => "cancelled"
  end.

Record item := {
  product : string;
  name : string;
  price : Z;
  quantity : Z;
  image : string
}.

Record history_entry := {
  status : order_status;
  timestamp : Z;
  note : string;
  updatedBy : option string
}.

Record payment_details := {
  mpesaReceiptNumber : option string;
  transactionId : option string;
  phoneNumber : option ustring;
  paidAt : option Z
}.

(** A key of an object literal that is spread over the stored details:
    left out, or written with a value that may be [undefined]. *)
Inductive key (A : Type) :=
| Absent
| Present (v : option A).
Arguments Absent {A}.
Arguments Present {A} v.

Definition spread {A} (old : option A) (k : key A) : option A :=
  match k with
  | Absent => old
  | Present v => v
  end.

(** The argument of [markAsPaid], as far as the schema keeps its keys. *)
Record receipt := {
  receipt_mpesaReceiptNumber : key string;
  receipt_transactionId : key string;
  receipt_phoneNumber : key ustring
}.

(** The customer's contact fields other than the city take no part in the
    operations below and are left out. *)
Record t := {
  _id : string;
  orderNumber : string;
  user : string;
  city : ustring;
  items : list item;
  subtotal : Z;
  deliveryFee : Z;
  total : Z;
  paymentMethod : Payment.method;
  paymentStatus : Payment.status;
  paymentDetails : payment_details;
  orderStatus : order_status;
  statusHistory : list history_entry;
  cancelReason : option string
}.

Definition set_paymentStatus (v : Payment.status) (o : t) : t :=
  {| _id := _id o; orderNumber := orderNumber o; user := user o;
     city := city o; items := items o; subtotal := subtotal o;
     deliveryFee := deliveryFee o; total := total o;
     paymentMethod := paymentMethod o; paymentStatus := v;
     paymentDetails := paymentDetails o; orderStatus := orderStatus o;
     statusHistory := statusHistory o; cancelReason := cancelReason o |}.

Definition set_paymentDetails (v : payment_details) (o : t) : t :=
  {| _id := _id o; orderNumber := orderNumber o; user := user o;
     city := city o; items := items o; subtotal := subtotal o;
     deliveryFee := deliveryFee o; total := total o;
     paymentMethod := paymentMethod o; paymentStatus := paymentStatus o;
     paymentDetails := v; orderStatus := orderStatus o;
     statusHistory := statusHistory o; cancelReason := cancelReason o |}.

Definition set_orderStatus (v : order_status) (o : t) : t :=
  {| _id := _id o; orderNumber := orderNumber o; user := user o;
     city := city o; items := items o; subtotal := subtotal o;
     deliveryFee := deliveryFee o; total := total o;
     paymentMethod := paymentMethod o; paymentStatus := paymentStatus o;
     paymentDetails := paymentDetails o; orderStatus := v;
     statusHistory := statusHistory o; cancelReason := cancelReason o |}.

Definition push_statusHistory (e : history_entry) (o : t) : t :=
  {| _id := _id o; orderNumber := orderNumber o; user := user o;
     city := city o; items := items o; subtotal := subtotal o;
     deliveryFee := deliveryFee o; total := total o;
     paymentMethod := paymentMethod o; paymentStatus := paymentStatus o;
     paymentDetails := paymentDetails o; orderStatus := orderStatus o;
     statusHistory := statusHistory o ++ [e];
     cancelReason := cancelReason o |}.

Definition set_cancelReason (v : option string) (o : t) : t :=
  {| _id := _id o; orderNumber := orderNumber o; user := user o;
     city := city o; items := items o; subtotal := subtotal o;
     deliveryFee := deliveryFee o; total := total o;
     paymentMethod := paymentMethod o; paymentStatus := paymentStatus o;
     paymentDetails := paymentDetails o; orderStatus := orderStatus o;
     statusHistory := statusHistory o; cancelReason := v |}.

(** The virtuals. *)
Definition isCompleted (o : t) : bool :=
  bool_decide (orderStatus o = delivered).

Definition canBeCancelled (o : t) : bool :=
  bool_decide (orderStatus o ∈ [pending; confirmed]).

(** [updateStatus(newStatus, note, updatedBy)]; [now] is [new Date()].
    [note || `Status changed to ${newStatus}`] *)
Definition updateStatus (now : Z) (newStatus : order_status)
    (note : option string) (updatedBy : option string) (o : t) : t :=
  let o := set_orderStatus newStatus o in
  push_statusHistory
    {| status := newStatus;
       timestamp := now;
       note := default ("Status changed to " +:+ status_name newStatus)
                 (or_str note None);
       updatedBy := updatedBy |} o.

(** [markAsPaid(paymentDetails)]; [now] is the [new Date()] stored in
    [paidAt], [now'] the one read by [updateStatus]. *)
Definition markAsPaid (now now' : Z) (r : receipt) (o : t) : t :=
  let o := set_paymentStatus Payment.paid o in
  let d := paymentDetails o in
  let o :=
    set_paymentDetails
      {| mpesaReceiptNumber :=
           spread (mpesaReceiptNumber d) (receipt_mpesaReceiptNumber r);
         transactionId := spread (transactionId d) (receipt_transactionId r);
         phoneNumber := spread (phoneNumber d) (receipt_phoneNumber r);
         paidAt := Some now |} o in
  if bool_decide (orderStatus o = pending)
  then updateStatus now' confirmed
         (Some "Payment received and order confirmed") None o
  else o.

(** [cancelOrder(reason, cancelledBy)] *)
Definition cancelOrder (now : Z) (reason : string) (cancelledBy : string)
    (o : t) : exn + t :=
  if negb (canBeCancelled o)
  then inl (Error "Order cannot be cancelled at this stage")
  else
    let o := set_orderStatus cancelled o in
    let o := set_cancelReason (Some reason) o in
    inr (push_statusHistory
           {| status := cancelled; timestamp := now; note := reason;
              updatedBy := Some cancelledBy |} o).

(** What the environment supplies when a document is created: the
    identifier, the number the first pre-save hook builds from the date and
    the count of the day's orders, and the clock. *)
Record fresh := {
  fresh_id : string;
  fresh_orderNumber : string;
  fresh_now : Z
}.

(** The document handed to [Order.create], with its [orderNumber] when it
    has one.  [None] in [draft_deliveryFee] and [draft_total] is a value
    that fails the cast to [Number]. *)
Record draft := {
  draft_orderNumber : option string;
  draft_user : string;
  draft_city : ustring;
  draft_items : list item;
  draft_subtotal : Z;
  draft_deliveryFee : option Z;
  draft_total : option Z;
  draft_paymentMethod : Payment.method
}.

Definition valid_item (i : item) : bool :=
  (0 <=? price i) && (1 <=? quantity i).

(** [Order.create]: the validation of the document, then the two pre-save
    hooks of a new document, then the insertion.  The validation comes
    first, so that the [required] of [orderNumber] is judged on the document
    as it was handed over, before the first hook writes the generated number
    over it: a document without an order number (or with an empty one) is
    refused.  A failed cast and a failed [min] validator refuse it as well.
    The [ValidationError] is an [Error] whose message goes on with the paths
    that failed.  The paths that are not carried in [draft] are taken to
    pass. *)
Definition create (f : fresh) (d : draft) : exn + t :=
  match draft_orderNumber d, draft_deliveryFee d, draft_total d with
  | Some number, Some fee, Some total =>
      if negb (String.eqb number "")
         && forallb valid_item (draft_items d)
         && (0 <=? draft_subtotal d) && (0 <=? fee) && (0 <=? total)
      then
        inr {| _id := fresh_id f;
               orderNumber := fresh_orderNumber f;
               user := draft_user d;
               city := draft_city d;
               items := draft_items d;
               subtotal := draft_subtotal d;
               deliveryFee := fee;
               total := total;
               paymentMethod := draft_paymentMethod d;
               paymentStatus := Payment.pending;
               paymentDetails :=
                 {| mpesaReceiptNumber := None; transactionId := None;
                    phoneNumber := None; paidAt := None |};
               orderStatus := pending;
               statusHistory :=
                 [ {| status := pending; timestamp := fresh_now f;
                      note := "Order created"; updatedBy := None |} ];
               cancelReason := None |}
      else inl (Error "Order validation failed")
  | _, _, _ => inl (Error "Order validation failed")
  end.

End Order.

(** ** services/mpesaService.js: the gateway *)

Module Mpesa.

(** The 2xx answer to the push request, as far as the code reads it. *)
Record push_body := {
  ResponseCode : string;
  CheckoutRequestID : option string;
  MerchantRequestID : option string;
  CustomerMessage : option string;
  ResponseDescription : option string
}.

(** The answers of the gateway to the two requests of one initiation: the
    [access_token] of the OAuth answer and the body of the push answer, or
    what axios throws instead. *)
Record gateway := {
  oauth : Axios.error + option string;
  stkPush : Axios.error + push_body
}.

Definition generateAccessToken (answer : Axios.error + option string)
    : exn + option string :=
  match answer with
  | inr access_token => inr access_token
  | inl _ => inl (ErrorResponse "Failed to generate M-Pesa access token" 500)
  end.

Record push_result := {
  success : bool;
  push_message : string;
  checkoutRequestId : option string;
  merchantRequestId : option string;
  customerMessage : option string
}.

(** The [try] block of [initiateSTKPush].  The password and the payload
    are built without a throw and are left out; the phone number is
    formatted after the token is there and before the request is sent. *)
Definition push_attempt (g : gateway) (phone : ustring) (amount : Z)
    (accountReference : string) : exn + push_result :=
  if bool_decide (phone = []) || (amount =? 0)
     || String.eqb accountReference ""
  then inl (Error "Phone, amount, and account reference are required")
  else if amount <? 1
  then inl (Error "Amount must be at least 1 KES")
  else
    match generateAccessToken (oauth g) with
    | inl e => inl e
    | inr _ =>
        match Phone.formatPhoneNumber phone with
        | inl e => inl e
        | inr _ =>
            match stkPush g with
            | inl e => inl (AxiosError e)
            | inr body =>
                if String.eqb (ResponseCode body) "0"
                then inr {| success := true;
                            push_message := "STK Push sent successfully";
                            checkoutRequestId := CheckoutRequestID body;
                            merchantRequestId := MerchantRequestID body;
                            customerMessage := CustomerMessage body |}
                else inl (Error (default "STK Push failed"
                                   (or_str (ResponseDescription body) None)))
            end
        end
    end.

(** [error.response?.data?.errorMessage ||
     error.response?.data?.ResponseDescription || error.message] *)
Definition errorMessage_of (error : exn) : string :=
  default (message error)
    (or_str (response_data error ≫= Axios.errorMessage)
            (or_str (response_data error ≫= Axios.ResponseDescription) None)).

(** [initiateSTKPush]: the [try] block and its [catch]. *)
Definition initiateSTKPush (g : gateway) (phone : ustring) (amount : Z)
    (accountReference : string) : exn + push_result :=
  match push_attempt g phone amount accountReference with
  | inr r => inr r
  | inl error =>
      inl (ErrorResponse
             ("M-Pesa payment failed: " +:+ errorMessage_of error) 400)
  end.

(** A value of the callback's metadata: a string or a number. *)
Inductive value :=
| VString (s : string)
| VNumber (n : Z).

Record metadata_item := {
  Name : string;
  Value : option value
}.

(** [stkCallback]; [CallbackMetadata] stands for [CallbackMetadata.Item],
    whose absence at either level makes [processCallback] throw. *)
Record stk_callback := {
  cb_MerchantRequestID : option string;
  cb_CheckoutRequestID : option string;
  ResultCode : option Z;
  ResultDesc : option string;
  CallbackMetadata : option (list metadata_item)
}.

Record body := { stkCallback : option stk_callback }.
Record callback_data := { Body : option body }.

Record callback_result := {
  result_merchantRequestId : option string;
  result_checkoutRequestId : option string;
  resultCode : option Z;
  resultDesc : option string;
  result_success : bool;
  amount : option value;
  mpesaReceiptNumber : option value;
  transactionDate : option value;
  phoneNumber : option value
}.

(** [callbackMetadata.find(item => item.Name === name)?.Value] *)
Definition find_value (name : string) (l : list metadata_item)
    : option value :=
  List.find (fun item => String.eqb (Name item) name) l ≫= Value.

(** [processCallback]: every throw inside the [try] becomes the
    [ErrorResponse] of the [catch]. *)
Definition processCallback (callbackData : callback_data)
    : exn + callback_result :=
  let thrown := inl (ErrorResponse "Failed to process M-Pesa callback" 500) in
  match Body callbackData ≫= stkCallback with
  | None => thrown
  | Some cb =>
      if bool_decide (ResultCode cb = Some 0)
      then
        match CallbackMetadata cb with
        | None => thrown
        | Some callbackMetadata =>
            inr {| result_merchantRequestId := cb_MerchantRequestID cb;
                   result_checkoutRequestId := cb_CheckoutRequestID cb;
                   resultCode := ResultCode cb;
                   resultDesc := ResultDesc cb;
                   result_success := true;
                   amount := find_value "Amount" callbackMetadata;
                   mpesaReceiptNumber :=
                     find_value "MpesaReceiptNumber" callbackMetadata;
                   transactionDate :=
                     find_value "TransactionDate" callbackMetadata;
                   phoneNumber := find_value "PhoneNumber" callbackMetadata |}
        end
      else
        inr {| result_merchantRequestId := cb_MerchantRequestID cb;
               result_checkoutRequestId := cb_CheckoutRequestID cb;
               resultCode := ResultCode cb;
               resultDesc := ResultDesc cb;
               result_success := false;
               amount := None; mpesaReceiptNumber := None;
               transactionDate := None; phoneNumber := None |}
  end.

End Mpesa.

(** ** The collections *)

Record db := {
  products : gmap string Product.t;
  orders : gmap string Order.t
}.

(** [req.user] *)
Record actor := {
  id : string;
  role : string
}.

(** ** controllers/orderController.js *)

Module OrderController.

(** An element of [req.body.items]. *)
Record line := {
  product : string;
  quantity : Z
}.

(** [req.body] of [createOrder]; an [items] that is missing answers as an
    empty one does. *)
Record create_body := {
  customer_city : ustring;
  items : list line;
  paymentMethod : option Payment.method
}.

(** [product.salePrice || product.price] *)
Definition price_of (p : Product.t) : Z :=
  match Product.salePrice p with
  | Some s => if s =? 0 then Product.price p else s
  | None => Product.price p
  end.

(** [product.images[0]?.url || ''] *)
Definition image_of (p : Product.t) : string :=
  default "" (or_str (head (Product.images p)) None).

(** The loop of [createOrder] over [items], with the three variables it
    updates: the product collection, [orderItems] and [subtotal].  A
    [return next(...)], or a throw of [updateStock], leaves the loop with
    the collection as it is at that moment. *)
Fixpoint reserve (items : list line) (ps : gmap string Product.t)
    (orderItems : list Order.item) (subtotal : Z)
    : gmap string Product.t * (exn + list Order.item * Z) :=
  match items with
  | [] => (ps, inr (orderItems, subtotal))
  | item :: items' =>
      match ps !! product item with
      | None =>
          (ps, inl (ErrorResponse
                      ("Product " +:+ product item +:+ " not found") 404))
      | Some p =>
          if Product.stock p <? quantity item
          then (ps, inl (ErrorResponse
                           ("Insufficient stock for " +:+ Product.name p) 400))
          else
            let price := price_of p in
            let itemSubtotal := price * quantity item in
            let orderItems :=
              orderItems ++ [ {| Order.product := product item;
                                 Order.name := Product.name p;
                                 Order.price := price;
                                 Order.quantity := quantity item;
                                 Order.image := image_of p |} ] in
            let subtotal := subtotal + itemSubtotal in
            match Product.updateStock (quantity item) p with
            | inl e => (ps, inl e)
            | inr p' =>
                reserve items' (<[product item := p']> ps) orderItems subtotal
            end
      end
  end.

(** The argument of [Order.create] in [createOrder], built from what the
    loop has left in [orderItems] and [subtotal]: [deliveryFee] is what
    [calculateDeliveryFee] returns, [total] is [subtotal + deliveryFee] (not
    a number when the fee is not one), and no [orderNumber] is given. *)
Definition document (user : actor) (body : create_body)
    (orderItems : list Order.item) (subtotal : Z) : Order.draft :=
  let deliveryFee := calculateDeliveryFee (customer_city body) in
  let total := (fun fee => subtotal + fee) <$> deliveryFee in
  {| Order.draft_orderNumber := None;
     Order.draft_user := id user;
     Order.draft_city := customer_city body;
     Order.draft_items := orderItems;
     Order.draft_subtotal := subtotal;
     Order.draft_deliveryFee := deliveryFee;
     Order.draft_total := total;
     Order.draft_paymentMethod := default Payment.mpesa (paymentMethod body) |}.

(** [createOrder]; what [Order.create] or [updateStock] throws goes to
    [next] through [asyncHandler].  Clearing the cart and sending the
    confirmation mail (which swallows its own failures) touch neither
    collection. *)
Definition createOrder (f : Order.fresh) (user : actor) (body : create_body)
    (d : db) : db * reply Order.t :=
  if bool_decide (items body = [])
  then (d, Next (ErrorResponse "Order must contain at least one item" 400))
  else
    match reserve (items body) (products d) [] 0 with
    | (ps, inl e) => ({| products := ps; orders := orders d |}, Next e)
    | (ps, inr (orderItems, subtotal)) =>
        match Order.create f (document user body orderItems subtotal) with
        | inl e => ({| products := ps; orders := orders d |}, Next e)
        | inr order =>
            ({| products := ps;
                orders := <[Order._id order := order]> (orders d) |},
             Json 201 order)
        end
    end.

(** [req.body] of [updateOrderStatus]. *)
Record status_body := {
  status : option Order.order_status;
  note : option string
}.

Definition updateOrderStatus (now : Z) (user : actor) (order_id : string)
    (body : status_body) (d : db) : db * reply Order.t :=
  match status body with
  | None => (d, Next (ErrorResponse "Status is required" 400))
  | Some status =>
      match orders d !! order_id with
      | None => (d, Next (ErrorResponse "Order not found" 404))
      | Some order =>
          let order :=
            Order.updateStatus now status (note body) (Some (id user)) order in
          ({| products := products d;
              orders := <[order_id := order]> (orders d) |},
           Json 200 order)
      end
  end.

(** [Product.findByIdAndUpdate(id, { $inc: { stock: n } })]: nothing
    happens when no product has the identifier. *)
Definition inc_stock (product_id : string) (n : Z)
    (ps : gmap string Product.t) : gmap string Product.t :=
  alter (fun p => Product.set_stock (Product.stock p + n) p) product_id ps.

(** The loop that restores the stock of a cancelled order. *)
Definition restore (its : list Order.item) (ps : gmap string Product.t)
    : gmap string Product.t :=
  fold_left
    (fun ps it => inc_stock (Order.product it) (Order.quantity it) ps)
    its ps.

(** [cancelOrder]; [reason] is [req.body.reason]. *)
Definition cancelOrder (now : Z) (user : actor) (order_id : string)
    (reason : option string) (d : db) : db * reply Order.t :=
  match orders d !! order_id with
  | None => (d, Next (ErrorResponse "Order not found" 404))
  | Some order =>
      if negb (String.eqb (Order.user order) (id user))
         && negb (String.eqb (role user) "admin")
      then (d, Next (ErrorResponse "Not authorized to cancel this order" 403))
      else
        match Order.cancelOrder now
                (default "Cancelled by customer" (or_str reason None))
                (id user) order with
        | inl error => (d, Next (ErrorResponse (message error) 400))
        | inr order =>
            ({| products := restore (Order.items order) (products d);
                orders := <[order_id := order]> (orders d) |},
             Json 200 order)
        end
  end.

End OrderController.

(** ** controllers/paymentController.js *)

Module PaymentController.

(** [req.body] of [initiatePayment]. *)
Record push_body := {
  phone : option ustring;
  amount : option Z;
  orderId : option string
}.

Record push_data := {
  checkoutRequestId : option string;
  merchantRequestId : option string
}.

Definition initiatePayment (g : Mpesa.gateway) (user : actor)
    (body : push_body) (d : db) : db * reply push_data :=
  match phone body, amount body, orderId body with
  | Some phone, Some amount, Some orderId =>
      if bool_decide (phone = []) || (amount =? 0) || String.eqb orderId ""
      then (d, Next (ErrorResponse
                       "Phone, amount, and order ID are required" 400))
      else
        match orders d !! orderId with
        | None => (d, Next (ErrorResponse "Order not found" 404))
        | Some order =>
            if negb (String.eqb (Order.user order) (id user))
            then (d, Next (ErrorResponse "Not authorized" 403))
            else if bool_decide (Order.paymentStatus order = Payment.paid)
            then (d, Next (ErrorResponse "Order is already paid" 400))
            else if Z.abs (amount - Order.total order) >? 1
            then (d, Next (ErrorResponse
                             "Payment amount does not match order total" 400))
            else
              match Mpesa.initiateSTKPush g phone amount
                      (Order.orderNumber order) with
              | inl error => (d, Next error)
              | inr result =>
                  let pd := Order.paymentDetails order in
                  let order :=
                    Order.set_paymentDetails
                      {| Order.mpesaReceiptNumber :=
                           Order.mpesaReceiptNumber pd;
                         Order.transactionId :=
                           Mpesa.checkoutRequestId result;
                         Order.phoneNumber := Some phone;
                         Order.paidAt := Order.paidAt pd |} order in
                  ({| products := products d;
                      orders := <[orderId := order]> (orders d) |},
                   Json 200
                     {| checkoutRequestId := Mpesa.checkoutRequestId result;
                        merchantRequestId := Mpesa.merchantRequestId result |})
              end
        end
  | _, _, _ =>
      (d, Next (ErrorResponse "Phone, amount, and order ID are required" 400))
  end.

(** The acknowledgement sent to the gateway. *)
Record ack := {
  ResultCode : Z;
  ResultDesc : string
}.

Definition Accepted : reply ack :=
  Json 200 {| ResultCode := 0; ResultDesc := "Accepted" |}.

(** [Order.findOne({ 'paymentDetails.transactionId': q })]: the first
    order of the collection with that transaction identifier.  A [q] that
    is [undefined] is sent as [null] and selects an order without the
    field. *)
Definition findOne (q : option string) (os : gmap string Order.t)
    : option (string * Order.t) :=
  List.find
    (fun kv => bool_decide (Order.transactionId (Order.paymentDetails kv.2) = q))
    (map_to_list os).

(** Mongoose's cast of a metadata value to the [String] of the schema. *)
Definition cast_string (v : Mpesa.value) : string :=
  match v with
  | Mpesa.VString s => s
  | Mpesa.VNumber n => pretty n
  end.

(** [mpesaCallback]; [now] and [now'] are the two clock readings of
    [markAsPaid].  [failureReason] is not a path of the schema, so what is
    saved of a failed payment is the payment status. *)
Definition mpesaCallback (now now' : Z) (body : Mpesa.callback_data)
    (d : db) : db * reply ack :=
  match Mpesa.processCallback body with
  | inl error => (d, Accepted)
  | inr result =>
      match findOne (Mpesa.result_checkoutRequestId result) (orders d) with
      | None => (d, Accepted)
      | Some (order_id, order) =>
          let order :=
            if Mpesa.result_success result
            then
              Order.markAsPaid now now'
                {| Order.receipt_mpesaReceiptNumber :=
                     Order.Present
                       (cast_string <$> Mpesa.mpesaReceiptNumber result);
                   Order.receipt_transactionId :=
                     Order.Present (Mpesa.result_checkoutRequestId result);
                   Order.receipt_phoneNumber :=
                     Order.Present
                       (units ∘ cast_string <$> Mpesa.phoneNumber result) |}
                order
            else Order.set_paymentStatus Payment.failed order in
          ({| products := products d;
              orders := <[order_id := order]> (orders d) |},
           Accepted)
      end
  end.

End PaymentController.

(** ** The routes that write to a stored order *)

(** A request to one of the routes of [routes/orderRoutes.js] and
    [routes/paymentRoutes.js] that write to the order collection, with what
    the environment will hand to its handler: identifiers, clock readings
    and gateway answers. *)
Inductive request :=
| CreateOrder (f : Order.fresh) (user : actor)
    (body : OrderController.create_body)
| UpdateOrderStatus (now : Z) (user : actor) (order_id : string)
    (body : OrderController.status_body)
| CancelOrder (now : Z) (user : actor) (order_id : string)
    (reason : option string)
| InitiatePayment (g : Mpesa.gateway) (user : actor)
    (body : PaymentController.push_body)
| MpesaCallback (now now' : Z) (body : Mpesa.callback_data).

(** The collections after the request has been handled. *)
Definition handle (d : db) (r : request) : db :=
  match r with
  | CreateOrder f user body => (OrderController.createOrder f user body d).1
  | UpdateOrderStatus now user order_id body =>
      (OrderController.updateOrderStatus now user order_id body d).1
  | CancelOrder now user order_id reason =>
      (OrderController.cancelOrder now user order_id reason d).1
  | InitiatePayment g user body =>
      (PaymentController.initiatePayment g user body d).1
  | MpesaCallback now now' body =>
      (PaymentController.mpesaCallback now now' body d).1
  end.

(** The request asks for an order, which would get the identifier [j]. *)
Definition creates (j : string) (r : request) : Prop :=
  match r with
  | CreateOrder f _ _ => Order.fresh_id f = j
  | _ => False
  end.

(** ** Quantities of the statements *)



(** The units of product [pid] on the lines of an order. *)
Definition units_of (pid : string) (its : list Order.item) : Z :=
  foldr
    (fun it n =>
       if String.eqb (Order.product it) pid then Order.quantity it + n else n)
    0 its.

(** [sum(items[i].price * items[i].quantity)] *)
Definition sum_items (its : list Order.item) : Z :=
  foldr (fun it n => Order.price it * Order.quantity it + n) 0 its.

(** The product collection after the lines [done] have been taken from it,
    one after the other. *)
Definition taken (done : list OrderController.line)
    (ps : gmap string Product.t) : gmap string Product.t :=
  fold_left
    (fun ps l =>
       alter
         (fun p =>
            Product.set_stock (Product.stock p - OrderController.quantity l) p)
         (OrderController.product l) ps)
    done ps.

(** ** Sample data *)

Module Sample.

Definition chair : Product.t :=
  {| Product.name := "Chair"; Product.price := 4500;
     Product.salePrice := None; Product.stock := 5;
     Product.images := ["chair.jpg"] |}.

Definition desk : Product.t :=
  {| Product.name := "Desk"; Product.price := 12000;
     Product.salePrice := Some 9900; Product.stock := 1;
     Product.images := [] |}.

(** A bed as [updateProduct] leaves it when the price is lowered below the
    sale price it has: update validators judge the paths of the update
    only. *)
Definition repriced : Product.t :=
  {| Product.name := "Bed"; Product.price := 30000;
     Product.salePrice := Some 35000; Product.stock := 2;
     Product.images := [] |}.

Definition shop : db :=
  {| products := <["p1" := chair]> (<["p2" := desk]> ∅); orders := ∅ |}.

Definition alice : actor := {| id := "u1"; role := "user" |}.
Definition admin : actor := {| id := "u9"; role := "admin" |}.

Definition first : Order.fresh :=
  {| Order.fresh_id := "o1";
     Order.fresh_orderNumber := "ORD-20240101-0001";
     Order.fresh_now := 100 |}.


Definition line (p : string) (q : Z) : OrderController.line :=
  {| OrderController.product := p; OrderController.quantity := q |}.

(** Two chairs and three desks: one desk only is in stock. *)
Definition too_many_desks : OrderController.create_body :=
  {| OrderController.customer_city := units "Mombasa";
     OrderController.items := [line "p1" 2; line "p2" 3];
     OrderController.paymentMethod := None |}.

(** One chair and three more chairs, delivered to Kisumu. *)
Definition chairs : OrderController.create_body :=
  {| OrderController.customer_city := units "Kisumu";
     OrderController.items := [line "p1" 1; line "p1" 3];
     OrderController.paymentMethod := Some Payment.mpesa |}.

(** An order of [alice] for [chairs], as it stands in the collection. *)
Definition order1 : Order.t :=
  {| Order._id := "o1";
     Order.orderNumber := "ORD-20240101-0001";
     Order.user := "u1";
     Order.city := units "Kisumu";
     Order.items :=
       [ {| Order.product := "p1"; Order.name := "Chair";
            Order.price := 4500; Order.quantity := 1;
            Order.image := "chair.jpg" |};
         {| Order.product := "p1"; Order.name := "Chair";
            Order.price := 4500; Order.quantity := 3;
            Order.image := "chair.jpg" |} ];
     Order.subtotal := 18000;
     Order.deliveryFee := 1500;
     Order.total := 19500;
     Order.paymentMethod := Payment.mpesa;
     Order.paymentStatus := Payment.pending;
     Order.paymentDetails :=
       {| Order.mpesaReceiptNumber := None; Order.transactionId := None;
          Order.phoneNumber := None; Order.paidAt := None |};
     Order.orderStatus := Order.pending;
     Order.statusHistory :=
       [ {| Order.status := Order.pending; Order.timestamp := 100;
            Order.note := "Order created"; Order.updatedBy := None |} ];
     Order.cancelReason := None |}.

(** The shop with that order in its collection and the four chairs off
    the stock. *)
Definition shop1 : db :=
  {| products :=
       <["p1" := Product.set_stock 1 chair]> (<["p2" := desk]> ∅);
     orders := <["o1" := order1]> ∅ |}.

(** The receipt of a callback. *)
Definition receipt1 : Order.receipt :=
  {| Order.receipt_mpesaReceiptNumber := Order.Present (Some "QGH7XK2L9P");
     Order.receipt_transactionId := Order.Present (Some "ws_CO_1");
     Order.receipt_phoneNumber := Order.Present (Some (units "254712345678")) |}.

(** A gateway that accepts the push and answers with the given checkout
    identifier. *)
Definition accepting (checkout : string) : Mpesa.gateway :=
  {| Mpesa.oauth := inr (Some "token");
     Mpesa.stkPush :=
       inr {| Mpesa.ResponseCode := "0";
              Mpesa.CheckoutRequestID := Some checkout;
              Mpesa.MerchantRequestID := Some "29115-34620561-1";
              Mpesa.CustomerMessage :=
                Some "Success. Request accepted for processing";
              Mpesa.ResponseDescription :=
                Some "Success. Request accepted for processing" |} |}.

(** A gateway that answers the push with a business failure. *)
Definition refusing : Mpesa.gateway :=
  {| Mpesa.oauth := inr (Some "token");
     Mpesa.stkPush :=
       inr {| Mpesa.ResponseCode := "1";
              Mpesa.CheckoutRequestID := None;
              Mpesa.MerchantRequestID := None;
              Mpesa.CustomerMessage := None;
              Mpesa.ResponseDescription :=
                Some "The balance is insufficient for the transaction" |} |}.

(** A gateway whose push request times out. *)
Definition unreachable : Mpesa.gateway :=
  {| Mpesa.oauth := inr (Some "token");
     Mpesa.stkPush :=
       inl {| Axios.message := "timeout of 30000ms exceeded";
              Axios.response := None |} |}.

(** [alice] pays her order. *)
Definition pay : PaymentController.push_body :=
  {| PaymentController.phone := Some (units "0712345678");
     PaymentController.amount := Some 19500;
     PaymentController.orderId := Some "o1" |}.

(** The callback of a payment that went through. *)
Definition paid_callback (checkout : string) : Mpesa.callback_data :=
  {| Mpesa.Body := Some {| Mpesa.stkCallback := Some
       {| Mpesa.cb_MerchantRequestID := Some "29115-34620561-1";
          Mpesa.cb_CheckoutRequestID := Some checkout;
          Mpesa.ResultCode := Some 0;
          Mpesa.ResultDesc :=
            Some "The service request is processed successfully.";
          Mpesa.CallbackMetadata := Some
            [ {| Mpesa.Name := "Amount";
                 Mpesa.Value := Some (Mpesa.VNumber 19500) |};
              {| Mpesa.Name := "MpesaReceiptNumber";
                 Mpesa.Value := Some (Mpesa.VString "QGH7XK2L9P") |};
              {| Mpesa.Name := "TransactionDate";
                 Mpesa.Value := Some (Mpesa.VNumber 20240101123000) |};
              {| Mpesa.Name := "PhoneNumber";
                 Mpesa.Value := Some (Mpesa.VNumber 254712345678) |} ] |} |} |}.

(** A callback that says success and carries no metadata. *)
Definition broken_callback : Mpesa.callback_data :=
  {| Mpesa.Body := Some {| Mpesa.stkCallback := Some
       {| Mpesa.cb_MerchantRequestID := None;
          Mpesa.cb_CheckoutRequestID := Some "ws_CO_1";
          Mpesa.ResultCode := Some 0;
          Mpesa.ResultDesc := None;
          Mpesa.CallbackMetadata := None |} |} |}.

End Sample.

(** ** services/mpesaService.js and controllers/paymentController.js:
       polling the gateway *)

#[global] Instance value_eq_dec : EqDecision Mpesa.value.
Proof. solve_decision. Defined.

Module Polling.

(** The two properties the code reads of [response.data]; each is
    [undefined] when the value has no such property, as for an empty body,
    which axios hands over as the empty string. *)
Record query_body := {
  ResultCode : option Mpesa.value;
  ResultDesc : option string
}.

(** [response.data] of a 2xx answer to the status query: the JSON value
    [null], of which no property can be read, or any other value. *)
Inductive answer :=
| Null
| Data (data : query_body).

(** The answers of the gateway to the two requests of one query. *)
Record gateway := {
  oauth : Axios.error + option string;
  stkQuery : Axios.error + answer
}.

Record query_result := {
  resultCode : option Mpesa.value;
  resultDesc : option string;
  status : string
}.

(** [querySTKPushStatus]: everything thrown inside the [try] (by axios, or
    by reading a property of [null]) becomes the [ErrorResponse] of the
    [catch].  [response.data.ResultCode === '0'] compares with the
    string. *)
Definition querySTKPushStatus (g : gateway) (checkoutRequestId : string)
    : exn + query_result :=
  let thrown := inl (ErrorResponse "Failed to query payment status" 500) in
  match Mpesa.generateAccessToken (oauth g) with
  | inl _ => thrown
  | inr _ =>
      match stkQuery g with
      | inl _ => thrown
      | inr Null => thrown
      | inr (Data data) =>
          inr {| resultCode := ResultCode data;
                 resultDesc := ResultDesc data;
                 status :=
                   if bool_decide (ResultCode data = Some (Mpesa.VString "0"))
                   then "success" else "failed" |}
      end
  end.

(** The [data] of the two 200 answers of [checkPaymentStatus]. *)
Inductive status_data :=
| Paid (mpesaReceiptNumber : option string) (paidAt : option Z)
| Queried (status : string) (resultCode : option Mpesa.value)
    (resultDesc : option string).

(** [checkPaymentStatus]; it reads the order collection and writes
    nothing. *)
Definition checkPaymentStatus (g : gateway) (user : actor)
    (checkoutRequestId : string) (d : db) : reply status_data :=
  if String.eqb checkoutRequestId ""
  then Next (ErrorResponse "Checkout Request ID is required" 400)
  else
    match PaymentController.findOne (Some checkoutRequestId) (orders d) with
    | None => Next (ErrorResponse "Order not found" 404)
    | Some (_, order) =>
        if negb (String.eqb (Order.user order) (id user))
        then Next (ErrorResponse "Not authorized" 403)
        else if bool_decide (Order.paymentStatus order = Payment.paid)
        then Json 200
               (Paid (Order.mpesaReceiptNumber (Order.paymentDetails order))
                     (Order.paidAt (Order.paymentDetails order)))
        else
          match querySTKPushStatus g checkoutRequestId with
          | inl error => Next error
          | inr result =>
              Json 200 (Queried (status result) (resultCode result)
                          (resultDesc result))
          end
    end.

End Polling.

(** ** services/mpesaService.js: the timestamp of [generatePassword] *)

(** [iso.replace(/[^0-9]/g, '').slice(0, 14)], where [iso] is what
    [new Date().toISOString()] has returned. *)
Definition timestamp_of (iso : ustring) : ustring :=
  take 14 (List.filter is_digit iso).

(** ** routes/paymentRoutes.js and utils/validation.js: phone patterns *)

Module Validation.

(** [[17]\d{8}$] on what is left of the text. *)
Definition national (s : ustring) : bool :=
  match s with
  | c :: ds =>
      (N.eqb c 49 || N.eqb c 55) && Nat.eqb (length ds) 8
      && forallb is_digit ds
  | [] => false
  end.

(** A regular expression [^(p1|p2|...)rest$]: some alternative is a prefix
    of the text and the rest of the pattern matches what follows it. *)
Definition after_one_of (alternatives : list ustring) (s : ustring) : bool :=
  existsb (fun p => startsWith p s && national (drop (length p) s))
    alternatives.

(** The pattern of [validateSTKPush] and [validateOrder]:
    [/^(\+254|254|0)?[17]\d{8}$/]. *)
Definition route_pattern (phone : ustring) : bool :=
  after_one_of [units "+254"; units "254"; units "0"; []] phone.

(** [isValidKenyanPhone]: [/^(\+254|254|0)[17]\d{8}$/] on the text without
    whitespace and hyphens. *)
Definition isValidKenyanPhone (phone : ustring) : bool :=
  after_one_of [units "+254"; units "254"; units "0"]
    (List.filter (fun c => negb (is_space c || N.eqb c 45)) phone).

(** [validateMpesaPhone(phone).valid]; the [catch] is for a [phone] that is
    not a string. *)
Definition validateMpesaPhone (phone : ustring) : bool :=
  isValidKenyanPhone (Phone.clean phone).

End Validation.

(** ** models/Product.js: the virtuals *)

Module Catalog.

(** The validator of [salePrice]: [!value || value < this.price]. *)
Definition salePrice_valid (p : Product.t) : bool :=
  match Product.salePrice p with
  | None => true
  | Some s => (s =? 0) || (s <? Product.price p)
  end.

(** [isOnSale], as a truth value: [this.salePrice && this.salePrice <
    this.price]. *)
Definition isOnSale (p : Product.t) : bool :=
  match Product.salePrice p with
  | None => false
  | Some s => negb (s =? 0) && (s <? Product.price p)
  end.

Definition inStock (p : Product.t) : bool := Product.stock p >? 0.

(** [finalPrice] *)
Definition finalPrice (p : Product.t) : Z :=
  match Product.salePrice p with
  | Some s =>
      if negb (s =? 0) && (s <? Product.price p) then s else Product.price p
  | None => Product.price p
  end.

End Catalog.

(** ** How a stored order changes *)

(** One write of a handler to an order it has found: [updateStatus],
    [cancelOrder], the payment details of an accepted push, [markAsPaid],
    and the failed payment of a callback. *)
Inductive order_step : Order.t → Order.t → Prop :=
| step_status now s note by_ o :
    order_step o (Order.updateStatus now s note by_ o)
| step_cancel now reason by_ o o' :
    Order.cancelOrder now reason by_ o = inr o' → order_step o o'
| step_push checkout phone o :
    Order.paymentStatus o ≠ Payment.paid →
    order_step o
      (Order.set_paymentDetails
         {| Order.mpesaReceiptNumber :=
              Order.mpesaReceiptNumber (Order.paymentDetails o);
            Order.transactionId := checkout;
            Order.phoneNumber := Some phone;
            Order.paidAt := Order.paidAt (Order.paymentDetails o) |} o)
| step_paid now now' r o : order_step o (Order.markAsPaid now now' r o)
| step_failed o : order_step o (Order.set_paymentStatus Payment.failed o).

(** The order has come out of [Order.create]. *)
Definition created (o : Order.t) : Prop :=
  ∃ f document, Order.create f document = inr o.

(** The units of product [pid] on the lines of a request. *)
Definition units_ordered (pid : string) (ls : list OrderController.line) : Z :=
  foldr
    (fun l n =>
       if String.eqb (OrderController.product l) pid
       then OrderController.quantity l + n else n)
    0 ls.

(** ** More sample data *)

Module Scenario.

(** The shop after [alice] has asked to pay her order and the gateway has
    accepted the push. *)
Definition pushed : db :=
  (PaymentController.initiatePayment (Sample.accepting "ws_CO_1")
     Sample.alice Sample.pay Sample.shop1).1.

(** The shop after the gateway has called back to say she has paid. *)
Definition settled : db :=
  (PaymentController.mpesaCallback 600 601 (Sample.paid_callback "ws_CO_1")
     pushed).1.

(** The callback of a payment the customer has cancelled on the phone. *)
Definition cancelled_callback (checkout : string) : Mpesa.callback_data :=
  {| Mpesa.Body := Some {| Mpesa.stkCallback := Some
       {| Mpesa.cb_MerchantRequestID := Some "29115-34620561-1";
          Mpesa.cb_CheckoutRequestID := Some checkout;
          Mpesa.ResultCode := Some 1032;
          Mpesa.ResultDesc := Some "Request cancelled by user";
          Mpesa.CallbackMetadata := None |} |} |}.

(** A gateway that answers the status query with the given result code. *)
Definition answering (code : Mpesa.value) : Polling.gateway :=
  {| Polling.oauth := inr (Some "token");
     Polling.stkQuery :=
       inr (Polling.Data
              {| Polling.ResultCode := Some code;
                 Polling.ResultDesc := Some "The service request is processed successfully." |}) |}.

(** A gateway that answers the status query with an empty body. *)
Definition bodiless : Polling.gateway :=
  {| Polling.oauth := inr (Some "token");
     Polling.stkQuery :=
       inr (Polling.Data {| Polling.ResultCode := None;
                            Polling.ResultDesc := None |}) |}.

(** A gateway whose status query times out. *)
Definition silent : Polling.gateway :=
  {| Polling.oauth := inr (Some "token");
     Polling.stkQuery :=
       inl {| Axios.message := "timeout of 30000ms exceeded";
              Axios.response := None |} |}.

End Scenario.

(** ** utils/helpers.js: a phone number for display *)

(** [s.substring(a, b)] for [a ≤ b]. *)
Definition substring (a b : nat) (s : ustring) : ustring :=
  take (b - a) (drop a s).

(** [formatPhoneDisplay]; [/\D/g] removes what is not a digit, and
    [substring(a)] is [drop a]. *)
Definition formatPhoneDisplay (phone : ustring) : ustring :=
  let cleaned := List.filter is_digit phone in
  if startsWith (units "254") cleaned
  then units "+254 " ++ substring 3 6 cleaned ++ units " "
       ++ substring 6 9 cleaned ++ units " " ++ drop 9 cleaned
  else if startsWith (units "0") cleaned
  then substring 0 4 cleaned ++ units " " ++ substring 4 7 cleaned
       ++ units " " ++ drop 7 cleaned
  else cleaned.

(** ** models/Cart.js *)

Module Cart.

Record item := {
  _id : string;
  product : string;
  quantity : Z;
  addedAt : Z
}.

Record t := {
  user : string;
  items : list item;
  lastModified : Z
}.

Definition set_quantity (q : Z) (i : item) : item :=
  {| _id := _id i; product := product i; quantity := q;
     addedAt := addedAt i |}.

Definition set_items (its : list item) (c : t) : t :=
  {| user := user c; items := its; lastModified := lastModified c |}.

(** The virtual [totalItems]:
    [items.reduce((total, item) => total + item.quantity, 0)]. *)
Definition totalItems (c : t) : Z :=
  fold_left (fun total item => total + quantity item) (items c) 0.

(** The second pre-save hook.  The loop runs from the last item to the
    first with the array [uniqueItems], to which it adds in front, and the
    set [productIds]. *)
Definition keep_latest (its : list item) : list item :=
  (fold_left
     (fun (acc : list item * gset string) it =>
        let (uniqueItems, productIds) := acc in
        if bool_decide (product it ∈ productIds)
        then (uniqueItems, productIds)
        else (it :: uniqueItems, {[product it]} ∪ productIds))
     (rev its) ([], ∅)).1.

(** The validator of [items.quantity]: [min: 1]. *)
Definition valid_item (i : item) : bool := 1 <=? quantity i.

(** [save()]: validation of every item, which Mongoose runs before the
    pre-save hooks, then the two hooks; [now] is [Date.now()]. *)
Definition save (now : Z) (c : t) : exn + t :=
  if forallb valid_item (items c)
  then inr {| user := user c; items := keep_latest (items c);
              lastModified := now |}
  else inl (Error "Cart validation failed: items.quantity: Quantity cannot be less than 1").

(** [existingItem.quantity += quantity] on the first item of the product,
    when there is one. *)
Fixpoint add_to_existing (productId : string) (q : Z) (its : list item)
    : option (list item) :=
  match its with
  | [] => None
  | it :: rest =>
      if String.eqb (product it) productId
      then Some (set_quantity (quantity it + q) it :: rest)
      else cons it <$> add_to_existing productId q rest
  end.

(** [addItem(productId, quantity)]; [fresh_id] is the identifier a pushed
    item gets and [now] its [addedAt]. *)
Definition addItem (fresh_id : string) (now saved : Z) (productId : string)
    (q : Z) (c : t) : exn + t :=
  match add_to_existing productId q (items c) with
  | Some its => save saved (set_items its c)
  | None =>
      save saved
        (set_items
           (items c ++ [ {| _id := fresh_id; product := productId;
                            quantity := q; addedAt := now |} ]) c)
  end.

(** [removeItem(productId)] *)
Definition removeItem (saved : Z) (productId : string) (c : t) : exn + t :=
  save saved
    (set_items
       (List.filter (fun it => negb (String.eqb (product it) productId))
          (items c)) c).

(** [item.quantity = quantity] on the first item of the product. *)
Fixpoint set_existing (productId : string) (q : Z) (its : list item)
    : option (list item) :=
  match its with
  | [] => None
  | it :: rest =>
      if String.eqb (product it) productId
      then Some (set_quantity q it :: rest)
      else cons it <$> set_existing productId q rest
  end.

(** [updateItemQuantity(productId, quantity)] *)
Definition updateItemQuantity (saved : Z) (productId : string) (q : Z)
    (c : t) : exn + t :=
  match set_existing productId q (items c) with
  | None => inl (Error "Item not found in cart")
  | Some its =>
      if q <=? 0 then removeItem saved productId c
      else save saved (set_items its c)
  end.

(** [clearCart()] *)
Definition clearCart (saved : Z) (c : t) : exn + t :=
  save saved (set_items [] c).

Record totals := {
  subtotal : Z;
  totals_totalItems : Z;
  totals_items : nat
}.

(** [calculateTotals()]; [ps] is the product collection that [populate]
    reads, and an item whose product is gone is skipped. *)
Definition calculateTotals (ps : gmap string Product.t) (c : t) : totals :=
  let sums :=
    fold_left
      (fun (acc : Z * Z) it =>
         match ps !! product it with
         | Some p =>
             (acc.1 + OrderController.price_of p * quantity it,
              acc.2 + quantity it)
         | None => acc
         end)
      (items c) (0, 0) in
  {| subtotal := sums.1; totals_totalItems := sums.2;
     totals_items := length (items c) |}.

(** The [reason] of an invalid item of [validateCart]. *)
Inductive reason :=
| Gone
| Only (availableStock : Z)
| OutOfStock.

(** The branch [validateCart] takes for one item: [None] is the last one,
    where the item is valid. *)
Definition judge (ps : gmap string Product.t) (it : item) : option reason :=
  match ps !! product it with
  | None => Some Gone
  | Some p =>
      if Product.stock p <? quantity it then Some (Only (Product.stock p))
      else if Product.stock p =? 0 then Some OutOfStock
      else None
  end.

Record validation := {
  isValid : bool;
  invalidItems : list (reason * item);
  validItems : list item
}.

(** [validateCart()] *)
Definition validateCart (ps : gmap string Product.t) (c : t) : validation :=
  let lists :=
    fold_left
      (fun (acc : list (reason * item) * list item) it =>
         match judge ps it with
         | Some why => (acc.1 ++ [(why, it)], acc.2)
         | None => (acc.1, acc.2 ++ [it])
         end)
      (items c) ([], []) in
  {| isValid := Nat.eqb (length lists.1) 0;
     invalidItems := lists.1;
     validItems := lists.2 |}.

(** The lines of the order a customer places for what is in the cart. *)
Definition lines (c : t) : list OrderController.line :=
  (fun it => {| OrderController.product := product it;
                OrderController.quantity := quantity it |}) <$> items c.

End Cart.

Module Basket.

Definition item (id_ p : string) (q : Z) : Cart.item :=
  {| Cart._id := id_; Cart.product := p; Cart.quantity := q;
     Cart.addedAt := 50 |}.

(** A cart of [alice], as it was saved: two chairs and one desk. *)
Definition saved : Cart.t :=
  {| Cart.user := "u1";
     Cart.items := [item "i1" "p1" 2; item "i2" "p2" 1];
     Cart.lastModified := 60 |}.

(** A cart with one bed. *)
Definition bed : Cart.t :=
  {| Cart.user := "u1"; Cart.items := [item "i4" "p3" 1];
     Cart.lastModified := 60 |}.

(** Items as they can stand in memory before [save]: the chair twice. *)
Definition doubled : list Cart.item :=
  [item "i1" "p1" 2; item "i2" "p2" 1; item "i3" "p1" 5].

End Basket.

(** * Properties *)

(** ** Stock *)

Lemma updateStock_valid (p : Product.t) (q : Z) :
  Product.prices_valid p = true →
  Product.updateStock q p
  = inr (Product.set_stock (Z.max 0 (Product.stock p - q)) p).
Proof.
  intros Hp. unfold Product.updateStock, Product.save.
  destruct p as [n pr sp st im]; simpl.
  destruct (st - q <? 0) eqn:E; simpl.
  - unfold Product.prices_valid in *. simpl in *. rewrite Hp. simpl.
    rewrite Z.max_l by lia. reflexivity.
  - unfold Product.prices_valid in *. simpl in *. rewrite Hp. simpl.
    destruct (Z.leb_spec 0 (st - q)); [|lia].
    rewrite Z.max_r by lia. reflexivity.
Qed.

Lemma updateStock_invalid (p : Product.t) (q : Z) :
  Product.prices_valid p = false →
  Product.updateStock q p = inl (Error "Product validation failed").
Proof.
  intros Hp. unfold Product.updateStock, Product.save.
  destruct p as [n pr sp st im]; simpl.
  destruct (st - q <? 0); simpl;
    unfold Product.prices_valid in *; simpl in *; by rewrite Hp.
Qed.

Lemma updateStock_available (p : Product.t) (q : Z) :
  Product.prices_valid p = true →
  (Product.stock p <? q) = false →
  Product.updateStock q p = inr (Product.set_stock (Product.stock p - q) p).
Proof.
  intros Hp H. rewrite updateStock_valid by done. f_equal. f_equal. lia.
Qed.

(** One turn of the loop of [createOrder] on a product that exists. *)
Lemma reserve_step item items ps oi st p :
  ps !! OrderController.product item = Some p →
  OrderController.reserve (item :: items) ps oi st =
  if Product.stock p <? OrderController.quantity item
  then (ps, inl (ErrorResponse
                   ("Insufficient stock for " +:+ Product.name p) 400))
  else if Product.prices_valid p
  then
    OrderController.reserve items
      (<[OrderController.product item :=
           Product.set_stock (Product.stock p - OrderController.quantity item) p]> ps)
      (oi ++ [ {| Order.product := OrderController.product item;
                  Order.name := Product.name p;
                  Order.price := OrderController.price_of p;
                  Order.quantity := OrderController.quantity item;
                  Order.image := OrderController.image_of p |} ])
      (st + OrderController.price_of p * OrderController.quantity item)
  else (ps, inl (Error "Product validation failed")).
Proof.
  intros Hp. cbn [OrderController.reserve]. rewrite Hp.
  destruct (Product.stock p <? OrderController.quantity item) eqn:E; [done|].
  destruct (Product.prices_valid p) eqn:Hv.
  - by rewrite updateStock_available.
  - by rewrite updateStock_invalid.
Qed.

Lemma reserve_missing item items ps oi st :
  ps !! OrderController.product item = None →
  OrderController.reserve (item :: items) ps oi st =
  (ps, inl (ErrorResponse
              ("Product " +:+ OrderController.product item +:+ " not found")
              404)).
Proof. intros Hp. cbn [OrderController.reserve]. by rewrite Hp. Qed.

(** C10, as the code has it.  [updateStock] clamps at zero, and fails where
    [save()] does.  For a product whose stored price and sale price pass the
    validators of the schema, whatever the quantity, the call returns the
    product with its stock set to [max 0 (stock - quantity)] and nothing else
    changed; a quantity above the stock gives a stock of zero and no error.
    For a product whose stored price or sale price does not pass them, the
    call throws the validation error of [save()] and returns no product.  In
    the loop of [createOrder] the insufficiency error comes from the
    comparison [stock < quantity] made before the call, and from nothing
    else: when the comparison passes and the product is valid the loop goes
    on with the stock decreased, and when the product is not valid the loop
    ends with the validation error and the collection as it was. *)
Theorem updateStock_clamps_and_fails_where_save_does
    (p : Product.t) (q : Z) :
  (Product.prices_valid p = true →
   Product.updateStock q p
   = inr (Product.set_stock (Z.max 0 (Product.stock p - q)) p)
   ∧ (Product.stock p < q →
      ∃ p', Product.updateStock q p = inr p' ∧ Product.stock p' = 0))
  ∧ (Product.prices_valid p = false →
     ∃ text, Product.updateStock q p = inl (Error text))
  ∧ (∀ id rest ps oi st,
       let item := {| OrderController.product := id;
                      OrderController.quantity := q |} in
       ps !! id = Some p →
       (Product.stock p < q →
        OrderController.reserve (item :: rest) ps oi st
        = (ps, inl (ErrorResponse
                      ("Insufficient stock for " +:+ Product.name p) 400)))
       ∧ (q ≤ Product.stock p → Product.prices_valid p = true →
          ∃ oi' st',
            OrderController.reserve (item :: rest) ps oi st
            = OrderController.reserve rest
                (<[id := Product.set_stock (Product.stock p - q) p]> ps)
                oi' st')
       ∧ (q ≤ Product.stock p → Product.prices_valid p = false →
          ∃ text,
            OrderController.reserve (item :: rest) ps oi st
            = (ps, inl (Error text)))).
Proof.
  split; [|split].
  - intros Hp. split; [by apply updateStock_valid|].
    intros Hlt. eexists. split; [by apply updateStock_valid|].
    simpl. lia.
  - intros Hp. eexists. by apply updateStock_invalid.
  - intros id rest ps oi st item Hp.
    rewrite (reserve_step item rest ps oi st p Hp). simpl.
    split; [|split].
    + intros Hlt. destruct (Z.ltb_spec (Product.stock p) q); [done|lia].
    + intros Hle Hv. destruct (Z.ltb_spec (Product.stock p) q); [lia|].
      rewrite Hv. by eexists _, _.
    + intros Hle Hv. destruct (Z.ltb_spec (Product.stock p) q); [lia|].
      rewrite Hv. by eexists.
Qed.

Lemma updateStock_clamps_witness :
  Product.updateStock 7 Sample.chair = inr (Product.set_stock 0 Sample.chair)
  ∧ (∃ p', Product.updateStock 7 Sample.chair = inr p' ∧ Product.stock p' = 0)
  ∧ (∃ text, Product.updateStock 1 Sample.repriced = inl (Error text))
  ∧ ∃ text,
      OrderController.reserve [Sample.line "p3" 1]
        (<["p3" := Sample.repriced]> ∅) [] 0
      = (<["p3" := Sample.repriced]> ∅, inl (Error text)).
Proof.
  destruct (updateStock_clamps_and_fails_where_save_does Sample.chair 7)
    as (Hvalid & _ & _).
  destruct (Hvalid eq_refl) as [H1 H2].
  destruct (updateStock_clamps_and_fails_where_save_does Sample.repriced 1)
    as (_ & Hinvalid & Hloop).
  split; [exact H1|]. split; [apply H2; simpl; lia|].
  split; [exact (Hinvalid eq_refl)|].
  destruct (Hloop "p3" [] (<["p3" := Sample.repriced]> ∅) [] 0
              ltac:(apply lookup_insert_eq))
    as (_ & _ & Hrefused).
  apply Hrefused; [simpl; lia|reflexivity].
Defined.

(** C10 as stated fails: a bed whose price was lowered to 30000 while its
    sale price of 35000 stayed has two units in stock; [updateStock(1)]
    throws and returns no product. *)
Lemma updateStock_throws_on_a_stored_sale_price :
  Product.stock Sample.repriced = 2
  ∧ (∃ text, Product.updateStock 1 Sample.repriced = inl (Error text))
  ∧ ¬ (∃ p', Product.updateStock 1 Sample.repriced = inr p'
             ∧ Product.stock p' = Z.max 0 (Product.stock Sample.repriced - 1)).
Proof.
  split; [reflexivity|]. split; [by eexists|].
  intros (p' & H & _). discriminate H.
Qed.

(** ** Phone numbers *)

Lemma startsWith_app (p s : ustring) : startsWith p (p ++ s) = true.
Proof.
  induction p as [|a p IH]; [done|].
  simpl. by rewrite N.eqb_refl, IH.
Qed.

Lemma normalize_cases (phone : ustring) :
  let cleaned := Phone.clean phone in
  Phone.normalize phone =
  if startsWith (units "0") cleaned then units "254" ++ drop 1 cleaned
  else if startsWith (units "254") cleaned then cleaned
  else units "254" ++ cleaned.
Proof.
  intros cleaned. unfold Phone.normalize. fold cleaned.
  destruct (startsWith (units "0") cleaned).
  - by rewrite startsWith_app.
  - by destruct (startsWith (units "254") cleaned).
Qed.

Lemma normalize_prefix (phone : ustring) :
  startsWith (units "254") (Phone.normalize phone) = true.
Proof.
  rewrite normalize_cases. cbv zeta.
  destruct (startsWith (units "0") (Phone.clean phone));
    [apply startsWith_app|].
  destruct (startsWith (units "254") (Phone.clean phone)) eqn:E;
    [exact E|apply startsWith_app].
Qed.

Lemma clean_keeps_none_removed (phone : ustring) :
  forallb (fun c => negb (Phone.removed c)) (Phone.clean phone) = true.
Proof.
  unfold Phone.clean. induction phone as [|c phone IH]; [done|].
  simpl. destruct (Phone.removed c) eqn:E; simpl; [exact IH|].
  by rewrite E, IH.
Qed.

Lemma clean_digits (phone : ustring) :
  forallb (fun c => is_digit c || Phone.removed c) phone = true →
  forallb is_digit (Phone.clean phone) = true.
Proof.
  unfold Phone.clean. induction phone as [|c phone IH]; [done|].
  simpl. intros [Hc Hrest]%andb_true_iff.
  destruct (Phone.removed c) eqn:E; simpl; [by apply IH|].
  rewrite orb_false_r in Hc. by rewrite Hc, IH.
Qed.

Lemma forallb_drop {A} (f : A → bool) (n : nat) (l : list A) :
  forallb f l = true → forallb f (drop n l) = true.
Proof.
  revert n. induction l as [|a l IH]; intros [|n]; simpl; try done.
  intros [_ H]%andb_true_iff. by apply IH.
Qed.

Lemma normalize_digits (phone : ustring) :
  forallb (fun c => is_digit c || Phone.removed c) phone = true →
  forallb is_digit (Phone.normalize phone) = true.
Proof.
  intros H%clean_digits. rewrite normalize_cases. cbv zeta.
  destruct (startsWith (units "0") (Phone.clean phone)).
  - rewrite forallb_app. by rewrite (forallb_drop _ 1 _ H).
  - destruct (startsWith (units "254") (Phone.clean phone)); [done|].
    by rewrite forallb_app, H.
Qed.

Lemma normalize_none_removed (phone : ustring) :
  forallb (fun c => negb (Phone.removed c)) (Phone.normalize phone) = true.
Proof.
  pose proof (clean_keeps_none_removed phone) as H.
  rewrite normalize_cases. cbv zeta.
  destruct (startsWith (units "0") (Phone.clean phone)).
  - rewrite forallb_app. by rewrite (forallb_drop _ 1 _ H).
  - destruct (startsWith (units "254") (Phone.clean phone)); [done|].
    by rewrite forallb_app, H.
Qed.

(** C8, as the code has it.  Whitespace, hyphens and plus signs are removed
    (none is left in the result); a leading 0 is replaced with 254; what
    does not start with 254 then gets 254 in front.  The call returns that text when it has exactly 12 code
    units and throws [Invalid phone number format] otherwise; only the length
    is tested.  The text returned starts with 254, and it is made of digits
    when the input holds nothing but digits and removed characters.
    ["0712345678"] and ["+254 712 345 678"] give ["254712345678"], and so
    does ["712345678"], whose normal form has 12 code units. *)
Theorem formatPhoneNumber_twelve_units_or_throws (phone : ustring) :
  (Phone.normalize phone =
     let cleaned := List.filter (fun c => negb (Phone.removed c)) phone in
     if startsWith (units "0") cleaned then units "254" ++ drop 1 cleaned
     else if startsWith (units "254") cleaned then cleaned
     else units "254" ++ cleaned)
  ∧ forallb (fun c => negb (Phone.removed c)) (Phone.normalize phone) = true
  ∧ (length (Phone.normalize phone) = 12%nat →
     Phone.formatPhoneNumber phone = inr (Phone.normalize phone)
     ∧ startsWith (units "254") (Phone.normalize phone) = true
     ∧ (forallb (fun c => is_digit c || Phone.removed c) phone = true →
        forallb is_digit (Phone.normalize phone) = true))
  ∧ (length (Phone.normalize phone) ≠ 12%nat →
     Phone.formatPhoneNumber phone = inl (Error "Invalid phone number format"))
  ∧ Phone.formatPhoneNumber (units "0712345678") = inr (units "254712345678")
  ∧ Phone.formatPhoneNumber (units "+254 712 345 678")
    = inr (units "254712345678")
  ∧ Phone.formatPhoneNumber (units "712345678") = inr (units "254712345678").
Proof.
  split; [apply normalize_cases|].
  split; [apply normalize_none_removed|].
  split; [|split; [|by repeat split]].
  - intros Hlen. unfold Phone.formatPhoneNumber. cbv zeta.
    rewrite Hlen. simpl. split; [done|].
    split; [apply normalize_prefix|apply normalize_digits].
  - intros Hlen. unfold Phone.formatPhoneNumber. cbv zeta.
    by destruct (Nat.eqb_spec (length (Phone.normalize phone)) 12).
Qed.

Lemma formatPhoneNumber_witness :
  Phone.formatPhoneNumber (units "0712-345 678") = inr (units "254712345678")
  ∧ forallb is_digit (Phone.normalize (units "0712-345 678")) = true
  ∧ Phone.formatPhoneNumber (units "0712") = inl (Error "Invalid phone number format").
Proof.
  destruct (formatPhoneNumber_twelve_units_or_throws (units "0712-345 678"))
    as (_ & _ & Hok & _).
  destruct (Hok eq_refl) as (Hfmt & _ & Hdigits).
  destruct (formatPhoneNumber_twelve_units_or_throws (units "0712"))
    as (_ & _ & _ & Hthrow & _).
  split; [exact Hfmt|]. split; [exact (Hdigits eq_refl)|].
  apply Hthrow. vm_compute. lia.
Defined.

(** C8 as stated fails: a text of 12 code units that starts with 254 is
    returned as it is, digits or not. *)
Lemma formatPhoneNumber_returns_letters :
  Phone.formatPhoneNumber (units "254abcdefghi") = inr (units "254abcdefghi")
  ∧ forallb is_digit (units "254abcdefghi") = false.
Proof. split; reflexivity. Qed.

(** ** The order methods *)

Lemma markAsPaid_leaves_pending (o : Order.t) (r : Order.receipt) (t t' : Z) :
  Order.orderStatus (Order.markAsPaid t t' r o) ≠ Order.pending.
Proof.
  unfold Order.markAsPaid. cbv zeta. simpl.
  case_bool_decide as E; simpl; [discriminate|exact E].
Qed.

Lemma spread_twice {A} (old : option A) (k : Order.key A) :
  Order.spread (Order.spread old k) k = Order.spread old k.
Proof. by destruct k. Qed.

(** C2, as the code has it.  [markAsPaid] tests nothing before it writes.  A
    second call with the same receipt appends nothing to [statusHistory]
    (the first call has left [orderStatus] different from pending), keeps
    [paymentStatus] at paid and changes one field of the order only:
    [paymentDetails.paidAt], which becomes the clock reading of the second
    call. *)
Theorem markAsPaid_repeat_rewrites_paidAt
    (o : Order.t) (r : Order.receipt) (t1 t1' t2 t2' : Z) :
  let o1 := Order.markAsPaid t1 t1' r o in
  let o2 := Order.markAsPaid t2 t2' r o1 in
  Order.statusHistory o2 = Order.statusHistory o1
  ∧ length (Order.statusHistory o2) = length (Order.statusHistory o1)
  ∧ Order.paymentStatus o1 = Payment.paid
  ∧ Order.paymentStatus o2 = Payment.paid
  ∧ Order.paidAt (Order.paymentDetails o2) = Some t2
  ∧ o2 = Order.set_paymentDetails
           {| Order.mpesaReceiptNumber :=
                Order.mpesaReceiptNumber (Order.paymentDetails o1);
              Order.transactionId :=
                Order.transactionId (Order.paymentDetails o1);
              Order.phoneNumber := Order.phoneNumber (Order.paymentDetails o1);
              Order.paidAt := Some t2 |} o1.
Proof.
  intros o1 o2.
  assert (Hst : Order.orderStatus o1 ≠ Order.pending)
    by apply markAsPaid_leaves_pending.
  assert (Hpaid : Order.paymentStatus o1 = Payment.paid).
  { unfold o1, Order.markAsPaid. cbv zeta. by case_bool_decide. }
  assert (Hd : ∀ d, Order.paymentDetails o1 = d →
            Order.spread (Order.mpesaReceiptNumber d)
              (Order.receipt_mpesaReceiptNumber r) = Order.mpesaReceiptNumber d
            ∧ Order.spread (Order.transactionId d)
                (Order.receipt_transactionId r) = Order.transactionId d
            ∧ Order.spread (Order.phoneNumber d)
                (Order.receipt_phoneNumber r) = Order.phoneNumber d).
  { intros d <-. unfold o1, Order.markAsPaid. cbv zeta.
    case_bool_decide; simpl; by rewrite !spread_twice. }
  destruct (Hd _ eq_refl) as (H1 & H2 & H3).
  assert (Heq : o2 = Order.set_paymentDetails
           {| Order.mpesaReceiptNumber :=
                Order.mpesaReceiptNumber (Order.paymentDetails o1);
              Order.transactionId :=
                Order.transactionId (Order.paymentDetails o1);
              Order.phoneNumber := Order.phoneNumber (Order.paymentDetails o1);
              Order.paidAt := Some t2 |} o1).
  { unfold o2, Order.markAsPaid at 1. cbv zeta. simpl.
    rewrite bool_decide_eq_false_2 by exact Hst.
    rewrite H1, H2, H3. destruct o1; simpl in *. by subst. }
  rewrite Heq. by repeat split.
Qed.

(** C2 as stated fails: the second call, one tick later, changes the
    order. *)
Lemma markAsPaid_repeat_is_not_a_no_op :
  let o1 := Order.markAsPaid 1 1 Sample.receipt1 Sample.order1 in
  let o2 := Order.markAsPaid 2 2 Sample.receipt1 o1 in
  Order.paymentStatus o1 = Payment.paid
  ∧ Order.paidAt (Order.paymentDetails o1) = Some 1
  ∧ Order.paidAt (Order.paymentDetails o2) = Some 2
  ∧ o2 ≠ o1.
Proof.
  cbv zeta. repeat split. intros H.
  apply (f_equal (fun o => Order.paidAt (Order.paymentDetails o))) in H.
  vm_compute in H. discriminate.
Qed.

Lemma updateStatus_fields now s note by_ (o : Order.t) :
  let o' := Order.updateStatus now s note by_ o in
  Order.orderStatus o' = s
  ∧ Order.statusHistory o' =
      Order.statusHistory o ++
      [ {| Order.status := s; Order.timestamp := now;
           Order.note := default ("Status changed to " +:+ Order.status_name s)
                           (or_str note None);
           Order.updatedBy := by_ |} ].
Proof. done. Qed.

(** C3, as the code has it.  [updateStatus] writes whatever status it is
    given, cancelled included, whatever the status of the order, cancelled
    included, and appends one history entry; through [updateOrderStatus] the
    request is refused only when no status is sent (400) or no order has the
    identifier (404), and then nothing is written.  The stock is never
    touched on this path. *)
Theorem updateOrderStatus_writes_any_status
    (now : Z) (user : actor) (order_id : string)
    (body : OrderController.status_body) (d : db) :
  match OrderController.status body, orders d !! order_id with
  | None, _ =>
      OrderController.updateOrderStatus now user order_id body d
      = (d, Next (ErrorResponse "Status is required" 400))
  | Some _, None =>
      OrderController.updateOrderStatus now user order_id body d
      = (d, Next (ErrorResponse "Order not found" 404))
  | Some s, Some o =>
      ∃ o',
        OrderController.updateOrderStatus now user order_id body d
        = ({| products := products d;
              orders := <[order_id := o']> (orders d) |}, Json 200 o')
        ∧ o' = Order.updateStatus now s (OrderController.note body)
                 (Some (id user)) o
        ∧ Order.orderStatus o' = s
        ∧ length (Order.statusHistory o') = S (length (Order.statusHistory o))
        ∧ last (Order.statusHistory o')
          = Some {| Order.status := s; Order.timestamp := now;
                    Order.note :=
                      default ("Status changed to " +:+ Order.status_name s)
                        (or_str (OrderController.note body) None);
                    Order.updatedBy := Some (id user) |}
  end.
Proof.
  unfold OrderController.updateOrderStatus.
  destruct (OrderController.status body) as [s|]; [|done].
  destruct (orders d !! order_id) as [o|]; [|done].
  eexists. split; [reflexivity|]. split; [reflexivity|].
  destruct (updateStatus_fields now s (OrderController.note body)
              (Some (id user)) o) as [Hs Hh].
  split; [exact Hs|]. rewrite Hh. split.
  - rewrite length_app. simpl. lia.
  - by rewrite last_snoc.
Qed.

(** C3 as stated fails: an administrator cancels a pending order through
    [updateOrderStatus], no stock comes back, and the cancelled order is then
    set to pending again. *)
Lemma updateOrderStatus_into_and_out_of_cancelled :
  let body s :=
    {| OrderController.status := Some s; OrderController.note := None |} in
  let r1 :=
    OrderController.updateOrderStatus 200 Sample.admin "o1"
      (body Order.cancelled) Sample.shop1 in
  let r2 :=
    OrderController.updateOrderStatus 300 Sample.admin "o1"
      (body Order.pending) r1.1 in
  Order.orderStatus <$> (orders Sample.shop1 !! "o1") = Some Order.pending
  ∧ (∃ o, r1.2 = Json 200 o ∧ Order.orderStatus o = Order.cancelled)
  ∧ Order.orderStatus <$> (orders r1.1 !! "o1") = Some Order.cancelled
  ∧ products r1.1 = products Sample.shop1
  ∧ (∃ o, r2.2 = Json 200 o ∧ Order.orderStatus o = Order.pending)
  ∧ Order.orderStatus <$> (orders r2.1 !! "o1") = Some Order.pending.
Proof.
  cbv zeta. split; [reflexivity|]. split; [by eexists|].
  split; [reflexivity|]. split; [reflexivity|]. split; [by eexists|].
  reflexivity.
Qed.

(** ** Cancellation *)

Lemma inc_stock_lookup (a pid : string) (n : Z) (ps : gmap string Product.t) :
  OrderController.inc_stock a n ps !! pid =
  (fun p => Product.set_stock
              (Product.stock p + if String.eqb a pid then n else 0) p)
  <$> ps !! pid.
Proof.
  unfold OrderController.inc_stock. rewrite lookup_alter.
  destruct (String.eqb_spec a pid) as [->|Hne].
  - by rewrite decide_True.
  - rewrite decide_False by done.
    destruct (ps !! pid) as [[]|]; simpl; [|done].
    unfold Product.set_stock; simpl. do 2 f_equal. lia.
Qed.

Lemma restore_lookup (its : list Order.item) (ps : gmap string Product.t)
    (pid : string) :
  OrderController.restore its ps !! pid =
  (fun p => Product.set_stock (Product.stock p + units_of pid its) p)
  <$> ps !! pid.
Proof.
  unfold OrderController.restore.
  revert ps. induction its as [|it its IH]; intros ps; simpl.
  - destruct (ps !! pid) as [[]|]; simpl; [|done].
    unfold Product.set_stock; simpl. do 2 f_equal. lia.
  - rewrite IH, inc_stock_lookup.
    destruct (ps !! pid) as [p|]; simpl; [|done].
    unfold Product.set_stock; simpl. do 2 f_equal.
    destruct (String.eqb (Order.product it) pid); lia.
Qed.

Lemma canBeCancelled_iff (o : Order.t) :
  Order.canBeCancelled o = true
  ↔ Order.orderStatus o = Order.pending ∨ Order.orderStatus o = Order.confirmed.
Proof.
  unfold Order.canBeCancelled. rewrite bool_decide_eq_true.
  rewrite !elem_of_cons, elem_of_nil. tauto.
Qed.

Lemma authorized_passes (user : actor) (o : Order.t) :
  Order.user o = id user ∨ role user = "admin" →
  negb (String.eqb (Order.user o) (id user))
  && negb (String.eqb (role user) "admin") = false.
Proof.
  intros [->| ->].
  - by rewrite String.eqb_refl.
  - by rewrite String.eqb_refl, andb_false_r.
Qed.

(** C6.  For an order that exists, and a caller who owns it or is an
    administrator: unless [orderStatus] is pending or confirmed,
    [cancelOrder] answers the error [Order cannot be cancelled at this stage]
    (400) and leaves both collections as they were; otherwise it stores the
    order with [orderStatus = cancelled], the reason and one more history
    entry, and every product gets back the quantities of the lines that name
    it, a product on one line exactly that line's quantity.  A second
    cancellation is refused and changes nothing, so the stock is returned
    once. *)
Theorem cancelOrder_contract
    (now : Z) (user : actor) (order_id : string) (reason : option string)
    (d : db) (o : Order.t) :
  orders d !! order_id = Some o →
  Order.user o = id user ∨ role user = "admin" →
  let refused :=
    Next (ErrorResponse "Order cannot be cancelled at this stage" 400) in
  let why := default "Cancelled by customer" (or_str reason None) in
  (¬ (Order.orderStatus o = Order.pending
      ∨ Order.orderStatus o = Order.confirmed) →
   OrderController.cancelOrder now user order_id reason d = (d, refused))
  ∧ (Order.orderStatus o = Order.pending
     ∨ Order.orderStatus o = Order.confirmed →
     ∃ d' o',
       OrderController.cancelOrder now user order_id reason d
       = (d', Json 200 o')
       ∧ orders d' = <[order_id := o']> (orders d)
       ∧ Order.orderStatus o' = Order.cancelled
       ∧ Order.cancelReason o' = Some why
       ∧ Order.statusHistory o' =
           Order.statusHistory o ++
           [ {| Order.status := Order.cancelled; Order.timestamp := now;
                Order.note := why; Order.updatedBy := Some (id user) |} ]
       ∧ Order.items o' = Order.items o
       ∧ (∀ pid,
            products d' !! pid =
            (fun p => Product.set_stock
                        (Product.stock p + units_of pid (Order.items o)) p)
            <$> products d !! pid)
       ∧ (∀ now2 reason2,
            OrderController.cancelOrder now2 user order_id reason2 d'
            = (d', refused))).
Proof.
  intros Ho Hauth refused why.
  pose proof (canBeCancelled_iff o) as Hcan.
  unfold OrderController.cancelOrder. rewrite Ho.
  rewrite (authorized_passes user o Hauth).
  unfold Order.cancelOrder. split.
  - intros Hno. destruct (Order.canBeCancelled o); [|done].
    exfalso. apply Hno, Hcan. done.
  - intros Hyes. apply Hcan in Hyes. rewrite Hyes. simpl.
    eexists _, _. split; [reflexivity|]. simpl.
    repeat (split; [reflexivity|]).
    split; [intros pid; apply restore_lookup|].
    intros now2 reason2. rewrite lookup_insert_eq. simpl.
    by rewrite (authorized_passes user o Hauth).
Qed.

(** The sample of the specification: cancelling a pending order whose two
    lines (1 and 3 chairs) name the same product returns 4 chairs; an
    order that has been shipped is refused. *)
Lemma cancelOrder_contract_witness :
  (∃ d' o',
     OrderController.cancelOrder 500 Sample.alice "o1" None Sample.shop1
     = (d', Json 200 o')
     ∧ Order.orderStatus o' = Order.cancelled
     ∧ Product.stock <$> (products Sample.shop1 !! "p1") = Some 1
     ∧ Product.stock <$> (products d' !! "p1") = Some 5
     ∧ Product.stock <$> (products d' !! "p2") = Some 1)
  ∧ (let shipped :=
       (OrderController.updateOrderStatus 400 Sample.admin "o1"
          {| OrderController.status := Some Order.shipped;
             OrderController.note := None |} Sample.shop1).1 in
     OrderController.cancelOrder 500 Sample.alice "o1" None shipped
     = (shipped,
        Next (ErrorResponse "Order cannot be cancelled at this stage" 400))).
Proof.
  split.
  - destruct (cancelOrder_contract 500 Sample.alice "o1" None Sample.shop1
                Sample.order1 eq_refl (or_introl eq_refl)) as [_ Hyes].
    destruct (Hyes (or_introl eq_refl))
      as (d' & o' & Hrun & _ & Hst & _ & _ & _ & Hstock & _).
    exists d', o'. split; [exact Hrun|]. split; [exact Hst|].
    split; [reflexivity|]. rewrite !Hstock. split; reflexivity.
  - intros shipped.
    assert (Ho : ∃ o, orders shipped !! "o1" = Some o
                      ∧ Order.user o = id Sample.alice
                      ∧ Order.orderStatus o = Order.shipped)
      by (eexists; repeat split; reflexivity).
    destruct Ho as (o & Ho & Hu & Hs).
    destruct (cancelOrder_contract 500 Sample.alice "o1" None shipped o Ho
                (or_introl Hu)) as [Hno _].
    apply Hno. rewrite Hs. intros [?|?]; discriminate.
Defined.

(** ** Order creation *)

Lemma alter_found {A} (f : A → A) (k : string) (m : gmap string A) (x : A) :
  m !! k = Some x → alter f k m = <[k := f x]> m.
Proof.
  intros Hk. apply map_eq. intros j.
  rewrite lookup_alter, lookup_insert.
  destruct (decide (k = j)) as [<-|]; [by rewrite Hk|done].
Qed.

Lemma taken_cons l done ps p :
  ps !! OrderController.product l = Some p →
  taken (l :: done) ps
  = taken done
      (<[OrderController.product l :=
           Product.set_stock (Product.stock p - OrderController.quantity l) p]> ps).
Proof. intros Hp. unfold taken. simpl. by rewrite (alter_found _ _ _ p Hp). Qed.

(** [Order.create] refuses the document of [createOrder], which has no
    order number. *)
Lemma create_document f user body orderItems subtotal :
  Order.create f (OrderController.document user body orderItems subtotal)
  = inl (Error "Order validation failed").
Proof. reflexivity. Qed.

(** Where the loop of [createOrder] stops, and with what. *)
Lemma reserve_stops items : ∀ ps oi st ps' e,
  OrderController.reserve items ps oi st = (ps', inl e) →
  ∃ done item rest,
    items = done ++ item :: rest
    ∧ ps' = taken done ps
    ∧ ((ps' !! OrderController.product item = None
        ∧ e = ErrorResponse
                ("Product " +:+ OrderController.product item +:+ " not found")
                404)
       ∨ (∃ p, ps' !! OrderController.product item = Some p
               ∧ Product.stock p < OrderController.quantity item
               ∧ e = ErrorResponse
                       ("Insufficient stock for " +:+ Product.name p) 400)
       ∨ (∃ p, ps' !! OrderController.product item = Some p
               ∧ OrderController.quantity item ≤ Product.stock p
               ∧ Product.prices_valid p = false
               ∧ e = Error "Product validation failed")).
Proof.
  induction items as [|item items IH]; intros ps oi st ps' e H.
  - discriminate.
  - destruct (ps !! OrderController.product item) as [p|] eqn:Hp.
    + rewrite (reserve_step _ _ _ _ _ _ Hp) in H.
      destruct (Z.ltb_spec (Product.stock p) (OrderController.quantity item)).
      * injection H as <- <-. exists [], item, items.
        split; [done|]. split; [done|]. right. left. by exists p.
      * destruct (Product.prices_valid p) eqn:Hv.
        -- apply IH in H as (done & bad & rest & -> & -> & Hbad).
           exists (item :: done), bad, rest. split; [done|].
           rewrite (taken_cons _ _ _ _ Hp). by split.
        -- injection H as <- <-. exists [], item, items.
           split; [done|]. split; [done|]. right. right. by exists p.
    + rewrite (reserve_missing _ _ _ _ _ Hp) in H.
      injection H as <- <-. exists [], item, items.
      split; [done|]. split; [done|]. by left.
Qed.

(** What the loop of [createOrder] has built when it reaches the end. *)
Lemma reserve_ends items : ∀ ps oi st ps' oi' st',
  OrderController.reserve items ps oi st = (ps', inr (oi', st')) →
  ps' = taken items ps
  ∧ ∃ new, oi' = oi ++ new
           ∧ st' = st + sum_items new
           ∧ Order.product <$> new = OrderController.product <$> items
           ∧ Order.quantity <$> new = OrderController.quantity <$> items.
Proof.
  induction items as [|item items IH]; intros ps oi st ps' oi' st' H.
  - injection H as <- <- <-. split; [done|]. exists [].
    rewrite app_nil_r. simpl. repeat split. lia.
  - destruct (ps !! OrderController.product item) as [p|] eqn:Hp.
    + rewrite (reserve_step _ _ _ _ _ _ Hp) in H.
      destruct (Z.ltb_spec (Product.stock p) (OrderController.quantity item));
        [discriminate|].
      destruct (Product.prices_valid p); [|discriminate].
      apply IH in H as (-> & new & -> & -> & Hprod & Hqty).
      split; [by rewrite (taken_cons _ _ _ _ Hp)|].
      eexists (_ :: new). rewrite <- app_assoc. split; [reflexivity|].
      rewrite !fmap_cons, Hprod, Hqty. simpl. repeat split. lia.
    + rewrite (reserve_missing _ _ _ _ _ Hp) in H. discriminate.
Qed.

(** The loop over [done ++ rest] is the loop over [done] followed, when it
    reaches the end, by the loop over [rest]. *)
Lemma reserve_app done rest : ∀ ps oi st,
  OrderController.reserve (done ++ rest) ps oi st =
  match OrderController.reserve done ps oi st with
  | (ps', inr (oi', st')) => OrderController.reserve rest ps' oi' st'
  | (ps', inl e) => (ps', inl e)
  end.
Proof.
  induction done as [|item done IH]; intros ps oi st; [done|].
  rewrite <- app_comm_cons.
  destruct (ps !! OrderController.product item) as [p|] eqn:Hp.
  - rewrite !(reserve_step _ _ _ _ _ _ Hp).
    destruct (Product.stock p <? OrderController.quantity item); [done|].
    destruct (Product.prices_valid p); [apply IH|done].
  - by rewrite !(reserve_missing _ _ _ _ _ Hp).
Qed.

(** C1, as the code has it.  [createOrder] takes the lines one after the
    other.  At the first line whose product is missing, or whose quantity
    exceeds the stock read at that moment, it fails, naming the product
    (404 with the identifier, 400 with the name); no order is stored and the
    stock of that line and of the lines after it is not touched.  The
    decrements made for the lines before it stay: the product collection is
    the one in which exactly those lines have been taken, so nothing has
    changed only when the first line is the one that fails.  Every
    [ErrorResponse] that a non-empty order gets from [createOrder] arises
    this way. *)
Theorem createOrder_stops_at_first_unavailable_line
    (f : Order.fresh) (user : actor) (body : OrderController.create_body)
    (d : db) :
  (∀ done item rest ps built,
     OrderController.items body = done ++ item :: rest →
     OrderController.reserve done (products d) [] 0 = (ps, inr built) →
     match ps !! OrderController.product item with
     | None => True
     | Some p => Product.stock p < OrderController.quantity item
     end →
     OrderController.createOrder f user body d
     = ({| products := ps; orders := orders d |},
        Next
          match ps !! OrderController.product item with
          | None =>
              ErrorResponse
                ("Product " +:+ OrderController.product item +:+ " not found")
                404
          | Some p =>
              ErrorResponse ("Insufficient stock for " +:+ Product.name p) 400
          end)
     ∧ ps = taken done (products d)
     ∧ (done = [] → ps = products d))
  ∧ (∀ d' text code,
       OrderController.items body ≠ [] →
       OrderController.createOrder f user body d
       = (d', Next (ErrorResponse text code)) →
       ∃ done item rest,
         OrderController.items body = done ++ item :: rest
         ∧ d' = {| products := taken done (products d); orders := orders d |}
         ∧ ((products d' !! OrderController.product item = None
             ∧ text
               = "Product " +:+ OrderController.product item +:+ " not found"
             ∧ code = 404)
            ∨ (∃ p, products d' !! OrderController.product item = Some p
                    ∧ Product.stock p < OrderController.quantity item
                    ∧ text = "Insufficient stock for " +:+ Product.name p
                    ∧ code = 400))).
Proof.
  split.
  - intros done item rest ps [oi st] Hsplit Hdone Hbad.
    pose proof (reserve_ends _ _ _ _ _ _ _ Hdone) as [Htaken _].
    unfold OrderController.createOrder.
    rewrite bool_decide_eq_false_2
      by (rewrite Hsplit; by destruct done).
    rewrite Hsplit, reserve_app, Hdone.
    split; [|split; [exact Htaken|by intros ->]].
    destruct (ps !! OrderController.product item) as [p|] eqn:Hp.
    + rewrite (reserve_step _ _ _ _ _ _ Hp).
      by destruct (Z.ltb_spec (Product.stock p)
                     (OrderController.quantity item)); [|lia].
    + by rewrite (reserve_missing _ _ _ _ _ Hp).
  - intros d' text code Hne H. unfold OrderController.createOrder in H.
    rewrite bool_decide_eq_false_2 in H by exact Hne.
    destruct (OrderController.reserve (OrderController.items body)
                (products d) [] 0) as [ps [e|[oi st]]] eqn:Hloop.
    + injection H as Hd He. subst d' e.
      apply reserve_stops in Hloop
        as (done & item & rest & Hsplit & -> & Hbad).
      exists done, item, rest. split; [exact Hsplit|]. split; [done|].
      simpl.
      destruct Hbad as [[Hp He]|[(p & Hp & Hlt & He)|(p & _ & _ & _ & He)]].
      * left. by injection He as -> ->.
      * right. exists p. by injection He as -> ->.
      * discriminate He.
    + rewrite create_document in H. discriminate H.
Qed.

Lemma createOrder_stops_witness :
  OrderController.createOrder Sample.first Sample.alice Sample.too_many_desks
    Sample.shop
  = ({| products :=
          <["p1" := Product.set_stock 3 Sample.chair]> (products Sample.shop);
        orders := orders Sample.shop |},
     Next (ErrorResponse "Insufficient stock for Desk" 400))
  ∧ ∃ done item rest,
      OrderController.items Sample.too_many_desks = done ++ item :: rest
      ∧ ∃ p, <["p1" := Product.set_stock 3 Sample.chair]>
               (products Sample.shop) !! OrderController.product item = Some p
             ∧ Product.stock p < OrderController.quantity item.
Proof.
  pose proof (createOrder_stops_at_first_unavailable_line
                Sample.first Sample.alice Sample.too_many_desks Sample.shop)
    as [Hstops Hfrom].
  assert (Hrun := Hstops [Sample.line "p1" 2] (Sample.line "p2" 3) []
                    (<["p1" := Product.set_stock 3 Sample.chair]>
                       (products Sample.shop)) _
                    eq_refl eq_refl ltac:(vm_compute; reflexivity)).
  destruct Hrun as [Hrun _]. split; [exact Hrun|].
  destruct (Hfrom _ _ _ ltac:(discriminate) Hrun)
    as (done & item & rest & Hsplit & _ & [(_ & _ & Hcode)|Hbad]).
  - discriminate Hcode.
  - exists done, item, rest. split; [exact Hsplit|].
    destruct Hbad as (p & Hp & Hlt & _). by exists p.
Defined.

(** C1 as stated fails: two chairs and three desks are ordered, one desk is
    in stock; the request is refused for the desks and the two chairs stay
    taken from the stock. *)
Lemma createOrder_keeps_earlier_decrement :
  let r :=
    OrderController.createOrder Sample.first Sample.alice
      Sample.too_many_desks Sample.shop in
  r.2 = Next (ErrorResponse "Insufficient stock for Desk" 400)
  ∧ orders r.1 = orders Sample.shop
  ∧ Product.stock <$> (products Sample.shop !! "p1") = Some 5
  ∧ Product.stock <$> (products r.1 !! "p1") = Some 3
  ∧ products r.1 ≠ products Sample.shop.
Proof.
  cbv zeta. repeat split. intros H.
  apply (f_equal (fun ps => Product.stock <$> ps !! "p1")) in H.
  vm_compute in H. discriminate.
Qed.

(** ** Totals *)


Lemma findOne_lookup q (os : gmap string Order.t) k o :
  PaymentController.findOne q os = Some (k, o) → os !! k = Some o.
Proof.
  unfold PaymentController.findOne. intros [Hin _]%find_some.
  by apply elem_of_map_to_list, list_elem_of_In.
Qed.


Lemma create_id f dr o : Order.create f dr = inr o → Order._id o = Order.fresh_id f.
Proof.
  unfold Order.create. destruct (Order.draft_orderNumber dr); [|done].
  destruct (Order.draft_deliveryFee dr); [|done].
  destruct (Order.draft_total dr); [|done].
  destruct (_ && _); [|done]. by intros [= <-].
Qed.

(** [createOrder] leaves the order collection as it is. *)
Lemma createOrder_orders f user body d :
  orders (OrderController.createOrder f user body d).1 = orders d.
Proof.
  unfold OrderController.createOrder.
  destruct (bool_decide _); [done|].
  destruct (OrderController.reserve _ _ _ _) as [ps [e|[oi st]]]; [done|].
  by rewrite create_document.
Qed.





(** ** Payment initiation *)

Lemma push_attempt_reaches_gateway g phone amount accountReference
    token formatted :
  phone ≠ [] → 1 ≤ amount → accountReference ≠ "" →
  Mpesa.oauth g = inr token →
  Phone.formatPhoneNumber phone = inr formatted →
  Mpesa.push_attempt g phone amount accountReference =
  match Mpesa.stkPush g with
  | inl e => inl (AxiosError e)
  | inr body =>
      if String.eqb (Mpesa.ResponseCode body) "0"
      then inr {| Mpesa.success := true;
                  Mpesa.push_message := "STK Push sent successfully";
                  Mpesa.checkoutRequestId := Mpesa.CheckoutRequestID body;
                  Mpesa.merchantRequestId := Mpesa.MerchantRequestID body;
                  Mpesa.customerMessage := Mpesa.CustomerMessage body |}
      else inl (Error (default "STK Push failed"
                         (or_str (Mpesa.ResponseDescription body) None)))
  end.
Proof.
  intros Hphone Hamount Href Htoken Hfmt. unfold Mpesa.push_attempt.
  rewrite bool_decide_eq_false_2 by exact Hphone.
  destruct (Z.eqb_spec amount 0) as [->|_]; [lia|].
  destruct (String.eqb_spec accountReference "") as [->|_]; [done|].
  destruct (Z.ltb_spec amount 1); [lia|]. simpl.
  by rewrite Htoken, Hfmt.
Qed.

(** A failure of the token request leaves [generateAccessToken] as a 500 and
    [initiateSTKPush] as a 400. *)
Lemma initiateSTKPush_rewraps_token_failure g phone amount accountReference e :
  phone ≠ [] → 1 ≤ amount → accountReference ≠ "" →
  Mpesa.oauth g = inl e →
  Mpesa.generateAccessToken (Mpesa.oauth g)
  = inl (ErrorResponse "Failed to generate M-Pesa access token" 500)
  ∧ Mpesa.initiateSTKPush g phone amount accountReference
    = inl (ErrorResponse
             "M-Pesa payment failed: Failed to generate M-Pesa access token"
             400).
Proof.
  intros Hphone Hamount Href Htoken.
  unfold Mpesa.initiateSTKPush, Mpesa.push_attempt.
  rewrite bool_decide_eq_false_2 by exact Hphone.
  destruct (Z.eqb_spec amount 0) as [->|_]; [lia|].
  destruct (String.eqb_spec accountReference "") as [->|_]; [done|].
  destruct (Z.ltb_spec amount 1); [lia|]. simpl.
  by rewrite Htoken.
Qed.

(** C5, as the code has it.  Once the token is there and the phone number is
    formatted, a push that the gateway answers with a code other than "0"
    and a push whose request fails in transport both leave [initiateSTKPush]
    as the same [ErrorResponse] with status 400, whose message is
    [M-Pesa payment failed: ] followed by the gateway's description in the
    first case, and in the second by the [errorMessage] or
    [ResponseDescription] of the answer when the server gave one and by the
    message of the transport error (a timeout, a refused connection)
    otherwise.  The two cases differ by the text of the message only. *)
Theorem initiateSTKPush_failures_share_status_400
    (g : Mpesa.gateway) (phone : ustring) (amount : Z)
    (accountReference : string) (token : option string)
    (formatted : ustring) :
  phone ≠ [] → 1 ≤ amount → accountReference ≠ "" →
  Mpesa.oauth g = inr token →
  Phone.formatPhoneNumber phone = inr formatted →
  (∀ body, Mpesa.stkPush g = inr body → Mpesa.ResponseCode body ≠ "0" →
     Mpesa.initiateSTKPush g phone amount accountReference
     = inl (ErrorResponse
              ("M-Pesa payment failed: " +:+
               default "STK Push failed"
                 (or_str (Mpesa.ResponseDescription body) None)) 400))
  ∧ (∀ e, Mpesa.stkPush g = inl e →
       Mpesa.initiateSTKPush g phone amount accountReference
       = inl (ErrorResponse
                ("M-Pesa payment failed: " +:+
                 default (Axios.message e)
                   (or_str (Axios.response e ≫= Axios.errorMessage)
                      (or_str (Axios.response e ≫= Axios.ResponseDescription)
                         None))) 400)
       ∧ (Axios.response e = None →
          Mpesa.initiateSTKPush g phone amount accountReference
          = inl (ErrorResponse
                   ("M-Pesa payment failed: " +:+ Axios.message e) 400))).
Proof.
  intros Hphone Hamount Href Htoken Hfmt.
  unfold Mpesa.initiateSTKPush.
  rewrite (push_attempt_reaches_gateway _ _ _ _ _ _
             Hphone Hamount Href Htoken Hfmt).
  split.
  - intros body -> Hcode.
    destruct (String.eqb_spec (Mpesa.ResponseCode body) "0"); done.
  - intros e ->. split; [done|].
    intros Hnone. unfold Mpesa.errorMessage_of. simpl. by rewrite Hnone.
Qed.

Lemma initiateSTKPush_failures_witness :
  Mpesa.initiateSTKPush Sample.refusing (units "0712345678") 19500
    "ORD-20240101-0001"
  = inl (ErrorResponse
           "M-Pesa payment failed: The balance is insufficient for the transaction"
           400)
  ∧ Mpesa.initiateSTKPush Sample.unreachable (units "0712345678") 19500
      "ORD-20240101-0001"
    = inl (ErrorResponse
             "M-Pesa payment failed: timeout of 30000ms exceeded" 400).
Proof.
  split.
  - pose proof (initiateSTKPush_failures_share_status_400 Sample.refusing
                  (units "0712345678") 19500 "ORD-20240101-0001"
                  (Some "token") (units "254712345678")
                  ltac:(discriminate) ltac:(lia) ltac:(discriminate)
                  eq_refl eq_refl) as [Hbusiness _].
    apply (Hbusiness _ eq_refl). discriminate.
  - pose proof (initiateSTKPush_failures_share_status_400 Sample.unreachable
                  (units "0712345678") 19500 "ORD-20240101-0001"
                  (Some "token") (units "254712345678")
                  ltac:(discriminate) ltac:(lia) ltac:(discriminate)
                  eq_refl eq_refl) as [_ Htransport].
    destruct (Htransport _ eq_refl) as [_ Hnone]. apply Hnone. reflexivity.
Defined.

(** C5 as stated fails: the push request times out, and what the caller gets
    has status 400 and the class of a business failure. *)
Lemma initiateSTKPush_timeout_has_status_400 :
  ∃ text,
    Mpesa.initiateSTKPush Sample.unreachable (units "0712345678") 19500
      "ORD-20240101-0001"
    = inl (ErrorResponse text 400)
    ∧ (PaymentController.initiatePayment Sample.unreachable Sample.alice
         Sample.pay Sample.shop1).2
      = Next (ErrorResponse text 400).
Proof. eexists. split; reflexivity. Qed.

(** C4, as the code has it.  [initiatePayment] does not look at
    [paymentDetails.transactionId].  For an order of the caller that is not
    paid, with an amount within 1 of the total, the push is sent whether an
    earlier attempt is outstanding or not: when the gateway accepts it, the
    answer is 200 and the stored order has the new checkout identifier in
    place of the old one and the phone of the request, everything else as
    before; when [initiateSTKPush] throws, its error is forwarded and
    nothing is written. *)
Theorem initiatePayment_overwrites_transactionId
    (g : Mpesa.gateway) (user : actor) (phone : ustring) (amount : Z)
    (order_id : string) (d : db) (o : Order.t) :
  orders d !! order_id = Some o →
  Order.user o = id user →
  Order.paymentStatus o ≠ Payment.paid →
  Z.abs (amount - Order.total o) ≤ 1 →
  phone ≠ [] → amount ≠ 0 → order_id ≠ "" →
  let body := {| PaymentController.phone := Some phone;
                 PaymentController.amount := Some amount;
                 PaymentController.orderId := Some order_id |} in
  (∀ result,
     Mpesa.initiateSTKPush g phone amount (Order.orderNumber o) = inr result →
     ∃ o',
       PaymentController.initiatePayment g user body d
       = ({| products := products d;
             orders := <[order_id := o']> (orders d) |},
          Json 200
            {| PaymentController.checkoutRequestId :=
                 Mpesa.checkoutRequestId result;
               PaymentController.merchantRequestId :=
                 Mpesa.merchantRequestId result |})
       ∧ Order.transactionId (Order.paymentDetails o')
         = Mpesa.checkoutRequestId result
       ∧ o' = Order.set_paymentDetails
                {| Order.mpesaReceiptNumber :=
                     Order.mpesaReceiptNumber (Order.paymentDetails o);
                   Order.transactionId := Mpesa.checkoutRequestId result;
                   Order.phoneNumber := Some phone;
                   Order.paidAt := Order.paidAt (Order.paymentDetails o) |} o)
  ∧ (∀ error,
       Mpesa.initiateSTKPush g phone amount (Order.orderNumber o) = inl error →
       PaymentController.initiatePayment g user body d = (d, Next error)).
Proof.
  intros Ho Huser Hpaid Hamount Hphone Hzero Hid body.
  unfold PaymentController.initiatePayment. simpl.
  rewrite bool_decide_eq_false_2 by exact Hphone.
  destruct (Z.eqb_spec amount 0) as [|_]; [done|].
  destruct (String.eqb_spec order_id "") as [|_]; [done|].
  simpl. rewrite Ho, Huser, String.eqb_refl. simpl.
  rewrite bool_decide_eq_false_2 by exact Hpaid.
  destruct (Z.gtb_spec (Z.abs (amount - Order.total o)) 1); [lia|].
  split.
  - intros result ->. eexists. split; [reflexivity|]. by split.
  - by intros error ->.
Qed.

Lemma initiatePayment_overwrites_witness :
  ∃ o',
    PaymentController.initiatePayment (Sample.accepting "ws_CO_1")
      Sample.alice Sample.pay Sample.shop1
    = ({| products := products Sample.shop1;
          orders := <["o1" := o']> (orders Sample.shop1) |},
       Json 200
         {| PaymentController.checkoutRequestId := Some "ws_CO_1";
            PaymentController.merchantRequestId :=
              Some "29115-34620561-1" |})
    ∧ Order.transactionId (Order.paymentDetails o') = Some "ws_CO_1".
Proof.
  pose proof (initiatePayment_overwrites_transactionId
                (Sample.accepting "ws_CO_1") Sample.alice
                (units "0712345678") 19500 "o1" Sample.shop1 Sample.order1
                eq_refl eq_refl ltac:(discriminate) ltac:(simpl; lia)
                ltac:(discriminate) ltac:(lia) ltac:(discriminate))
    as [Haccepted _].
  destruct (Haccepted _ eq_refl) as (o' & Hrun & Hid & _).
  exists o'. split; [exact Hrun|exact Hid].
Defined.

(** C4 as stated fails: a second push is started while the first has no
    outcome yet; it is accepted, its identifier replaces the first one, and
    when the callback of the first push arrives, saying the customer has
    paid, no order is found for it. *)
Lemma initiatePayment_accepts_a_second_push :
  let r1 :=
    PaymentController.initiatePayment (Sample.accepting "ws_CO_1")
      Sample.alice Sample.pay Sample.shop1 in
  let r2 :=
    PaymentController.initiatePayment (Sample.accepting "ws_CO_2")
      Sample.alice Sample.pay r1.1 in
  let r3 :=
    PaymentController.mpesaCallback 600 601 (Sample.paid_callback "ws_CO_1")
      r2.1 in
  (Order.transactionId ∘ Order.paymentDetails) <$> (orders r1.1 !! "o1")
  = Some (Some "ws_CO_1")
  ∧ Order.paymentStatus <$> (orders r1.1 !! "o1") = Some Payment.pending
  ∧ r2.2 = Json 200
             {| PaymentController.checkoutRequestId := Some "ws_CO_2";
                PaymentController.merchantRequestId :=
                  Some "29115-34620561-1" |}
  ∧ (Order.transactionId ∘ Order.paymentDetails) <$> (orders r2.1 !! "o1")
    = Some (Some "ws_CO_2")
  ∧ r3.1 = r2.1
  ∧ Order.paymentStatus <$> (orders r3.1 !! "o1") = Some Payment.pending.
Proof. cbv zeta. repeat split; vm_compute; reflexivity. Qed.

(** ** The callback of the gateway *)

(** C7.  [mpesaCallback] answers 200 with
    [{ResultCode: 0, ResultDesc: "Accepted"}] to every request: when
    [processCallback] throws, when no order has the checkout identifier, and
    after a payment has been recorded as paid or failed.  In the first two
    cases both collections are left as they were; products are never
    touched. *)
Theorem mpesaCallback_always_accepted
    (now now' : Z) (body : Mpesa.callback_data) (d : db) :
  (PaymentController.mpesaCallback now now' body d).2
  = Json 200 {| PaymentController.ResultCode := 0;
                PaymentController.ResultDesc := "Accepted" |}
  ∧ products (PaymentController.mpesaCallback now now' body d).1 = products d
  ∧ (∀ error, Mpesa.processCallback body = inl error →
       (PaymentController.mpesaCallback now now' body d).1 = d)
  ∧ (∀ result, Mpesa.processCallback body = inr result →
       PaymentController.findOne (Mpesa.result_checkoutRequestId result)
         (orders d) = None →
       (PaymentController.mpesaCallback now now' body d).1 = d).
Proof.
  unfold PaymentController.mpesaCallback.
  destruct (Mpesa.processCallback body) as [e|result].
  - split; [done|]. split; [done|]. split; [done|]. intros ? [=].
  - destruct (PaymentController.findOne _ _) as [[k o]|] eqn:Hfind.
    + split; [done|]. split; [done|]. split; [intros ? [=]|].
      intros ? [= <-] Hnone. rewrite Hnone in Hfind. discriminate.
    + split; [done|]. split; [done|]. split; [intros ? [=]|]. done.
Qed.

Lemma mpesaCallback_accepted_witness :
  (PaymentController.mpesaCallback 600 601 Sample.broken_callback
     Sample.shop1)
  = (Sample.shop1, PaymentController.Accepted)
  ∧ (PaymentController.mpesaCallback 600 601 (Sample.paid_callback "ws_CO_9")
       Sample.shop1)
    = (Sample.shop1, PaymentController.Accepted).
Proof.
  split.
  - pose proof (mpesaCallback_always_accepted 600 601 Sample.broken_callback
                  Sample.shop1) as (Hack & _ & Hthrown & _).
    specialize (Hthrown _ eq_refl).
    destruct (PaymentController.mpesaCallback _ _ _ _) as [d r].
    simpl in *. by subst.
  - pose proof (mpesaCallback_always_accepted 600 601
                  (Sample.paid_callback "ws_CO_9") Sample.shop1)
      as (Hack & _ & _ & Hnone).
    specialize (Hnone _ eq_refl eq_refl).
    destruct (PaymentController.mpesaCallback _ _ _ _) as [d r].
    simpl in *. by subst.
Defined.

(** * Further properties *)

(** ** Phone numbers, once more *)

Lemma startsWith_split (p s : ustring) :
  startsWith p s = true → s = p ++ drop (length p) s.
Proof.
  revert s. induction p as [|a p IH]; intros [|b s]; simpl; try done.
  intros [Hab Hrest]%andb_true_iff. apply N.eqb_eq in Hab as ->.
  f_equal. by apply IH.
Qed.

Lemma digit_not_removed (c : N) : is_digit c = true → Phone.removed c = false.
Proof.
  unfold is_digit, Phone.removed, is_space.
  intros [Hlo Hhi]%andb_true_iff.
  apply N.leb_le in Hlo. apply N.leb_le in Hhi.
  repeat (apply orb_false_intro);
    try (apply N.eqb_neq; lia);
    apply andb_false_iff; (left + right); apply N.leb_gt; lia.
Qed.

Lemma clean_fixes (s : ustring) :
  forallb (fun c => negb (Phone.removed c)) s = true → Phone.clean s = s.
Proof. apply List.forallb_filter_id. Qed.

Lemma clean_fixes_digits (s : ustring) :
  forallb is_digit s = true → Phone.clean s = s.
Proof.
  intros H. apply clean_fixes. induction s as [|c s IH]; [done|].
  simpl in *. apply andb_true_iff in H as [Hc Hs].
  by rewrite (digit_not_removed c Hc), IH.
Qed.

(** A number that [formatPhoneNumber] has returned goes through
    [formatPhoneNumber] unchanged. *)
Theorem formatPhoneNumber_fixes_its_results (phone r : ustring) :
  Phone.formatPhoneNumber phone = inr r →
  Phone.formatPhoneNumber r = inr r.
Proof.
  unfold Phone.formatPhoneNumber at 1. cbv zeta.
  destruct (Nat.eqb_spec (length (Phone.normalize phone)) 12) as [Hlen|];
    [|done].
  intros [= <-].
  pose proof (normalize_prefix phone) as Hpre.
  pose proof (normalize_none_removed phone) as Hclean.
  set (n := Phone.normalize phone) in *.
  apply startsWith_split in Hpre.
  assert (Hn : Phone.normalize n = n).
  { unfold Phone.normalize. rewrite (clean_fixes n Hclean).
    rewrite Hpre. reflexivity. }
  unfold Phone.formatPhoneNumber. cbv zeta. by rewrite Hn, Hlen.
Qed.

Lemma formatPhoneNumber_fixes_witness :
  Phone.formatPhoneNumber (units "254712345678") = inr (units "254712345678").
Proof.
  apply (formatPhoneNumber_fixes_its_results (units "0712 345-678")).
  reflexivity.
Defined.

Lemma national_shape (s : ustring) :
  Validation.national s = true →
  ∃ c ds, s = c :: ds ∧ (c = 49%N ∨ c = 55%N) ∧ length ds = 8%nat
          ∧ forallb is_digit ds = true.
Proof.
  destruct s as [|c ds]; [done|]. simpl.
  intros [[Hc Hlen]%andb_true_iff Hds]%andb_true_iff.
  exists c, ds. split; [done|]. split.
  - apply orb_true_iff in Hc as [?%N.eqb_eq|?%N.eqb_eq]; auto.
  - split; [by apply Nat.eqb_eq|done].
Qed.

Lemma format_national (p : ustring) (c : N) (ds : ustring) :
  p ∈ [units "+254"; units "254"; units "0"; []] →
  c = 49%N ∨ c = 55%N → length ds = 8%nat → forallb is_digit ds = true →
  Phone.formatPhoneNumber (p ++ c :: ds) = inr (units "254" ++ c :: ds).
Proof.
  intros Hp Hc Hlen Hds.
  assert (Hkeep : Phone.clean (c :: ds) = c :: ds).
  { apply clean_fixes_digits. simpl. rewrite Hds.
    by destruct Hc as [-> | ->]. }
  assert (Hnorm : Phone.normalize (p ++ c :: ds) = units "254" ++ c :: ds).
  { unfold Phone.normalize.
    assert (Hcases : Phone.clean (p ++ c :: ds) = units "254" ++ c :: ds
                     ∨ Phone.clean (p ++ c :: ds) = units "0" ++ c :: ds
                     ∨ Phone.clean (p ++ c :: ds) = c :: ds).
    { unfold Phone.clean in *. rewrite List.filter_app, Hkeep.
      repeat (apply elem_of_cons in Hp as [->|Hp]); auto.
      by apply elem_of_nil in Hp. }
    destruct Hcases as [-> | [-> | ->]]; [done|done|].
    by destruct Hc as [-> | ->]. }
  unfold Phone.formatPhoneNumber. cbv zeta. rewrite Hnorm.
  rewrite length_app. simpl. by rewrite Hlen.
Qed.

(** A phone number that the pattern of the payment and order routes lets
    through, [/^(\+254|254|0)?[17]\d{8}$/], is never refused by
    [formatPhoneNumber]: the result is 254 followed by the nine national
    digits of the input. *)
Theorem route_pattern_phone_is_formatted (phone : ustring) :
  Validation.route_pattern phone = true →
  ∃ c ds,
    (c = 49%N ∨ c = 55%N) ∧ length ds = 8%nat ∧ forallb is_digit ds = true
    ∧ phone ∈ [units "+254" ++ c :: ds; units "254" ++ c :: ds;
               units "0" ++ c :: ds; c :: ds]
    ∧ Phone.formatPhoneNumber phone = inr (units "254" ++ c :: ds).
Proof.
  unfold Validation.route_pattern, Validation.after_one_of.
  intros (p & Hp & [Hpre Hnat]%andb_true_iff)%existsb_exists.
  apply list_elem_of_In in Hp.
  apply startsWith_split in Hpre.
  apply national_shape in Hnat as (c & ds & Hrest & Hc & Hlen & Hds).
  rewrite Hrest in Hpre. exists c, ds.
  split; [done|]. split; [done|]. split; [done|]. split.
  - rewrite Hpre. clear -Hp.
    rewrite !elem_of_cons in Hp |- *. rewrite elem_of_nil in Hp.
    destruct Hp as [-> | [-> | [-> | [-> | []]]]]; auto.
  - rewrite Hpre. by apply format_national.
Qed.

Lemma route_pattern_phone_witness :
  ∃ c ds,
    units "+254712345678" ∈ [units "+254" ++ c :: ds; units "254" ++ c :: ds;
                            units "0" ++ c :: ds; c :: ds]
    ∧ Phone.formatPhoneNumber (units "+254712345678")
      = inr (units "254" ++ c :: ds).
Proof.
  destruct (route_pattern_phone_is_formatted (units "+254712345678") eq_refl)
    as (c & ds & _ & _ & _ & Hshape & Hfmt).
  by exists c, ds.
Defined.

(** What [validateMpesaPhone] calls valid is never refused by
    [formatPhoneNumber] either, and is formatted to 254 followed by nine
    digits of which the first is 1 or 7. *)
Theorem validateMpesaPhone_phone_is_formatted (phone : ustring) :
  Validation.validateMpesaPhone phone = true →
  ∃ c ds,
    (c = 49%N ∨ c = 55%N) ∧ length ds = 8%nat ∧ forallb is_digit ds = true
    ∧ Phone.formatPhoneNumber phone = inr (units "254" ++ c :: ds).
Proof.
  unfold Validation.validateMpesaPhone, Validation.isValidKenyanPhone,
    Validation.after_one_of.
  assert (Hagain : List.filter (fun c => negb (is_space c || N.eqb c 45))
                     (Phone.clean phone) = Phone.clean phone).
  { apply List.forallb_filter_id.
    pose proof (clean_keeps_none_removed phone) as H.
    induction (Phone.clean phone) as [|c s IH]; [done|].
    simpl in *. apply andb_true_iff in H as [Hc Hs].
    rewrite IH by done. unfold Phone.removed in Hc.
    by destruct (is_space c || N.eqb c 45). }
  rewrite Hagain.
  intros (p & Hp & [Hpre Hnat]%andb_true_iff)%existsb_exists.
  apply list_elem_of_In in Hp.
  apply startsWith_split in Hpre.
  apply national_shape in Hnat as (c & ds & Hrest & Hc & Hlen & Hds).
  rewrite Hrest in Hpre. exists c, ds.
  split; [done|]. split; [done|]. split; [done|].
  assert (Hfmt : Phone.formatPhoneNumber (Phone.clean phone)
                 = inr (units "254" ++ c :: ds)).
  { rewrite Hpre. apply format_national; [|done..].
    rewrite !elem_of_cons in Hp |- *. rewrite elem_of_nil in Hp. tauto. }
  revert Hfmt. unfold Phone.formatPhoneNumber, Phone.normalize.
  by rewrite (clean_fixes _ (clean_keeps_none_removed phone)).
Qed.

Lemma validateMpesaPhone_phone_witness :
  ∃ c ds,
    Phone.formatPhoneNumber (units "0712-345 678")
    = inr (units "254" ++ c :: ds).
Proof.
  destruct (validateMpesaPhone_phone_is_formatted (units "0712-345 678")
              eq_refl) as (c & ds & _ & _ & _ & Hfmt).
  by exists c, ds.
Defined.

(** ** The timestamp of a gateway request *)

Lemma filter_digits_keeps (s : ustring) :
  forallb is_digit s = true → List.filter is_digit s = s.
Proof. apply List.forallb_filter_id. Qed.

(** For a clock that [toISOString] prints as [YYYY-MM-DDTHH:mm:ss.sssZ],
    the timestamp of [generatePassword] is the 14 digits [YYYYMMDDHHmmss] of
    that text: the milliseconds are cut off and nothing else is. *)
Theorem timestamp_of_iso_text (y mo dd hh mi ss ms : ustring) :
  length y = 4%nat → length mo = 2%nat → length dd = 2%nat →
  length hh = 2%nat → length mi = 2%nat → length ss = 2%nat →
  forallb is_digit (y ++ mo ++ dd ++ hh ++ mi ++ ss ++ ms) = true →
  let iso := y ++ units "-" ++ mo ++ units "-" ++ dd ++ units "T"
             ++ hh ++ units ":" ++ mi ++ units ":" ++ ss ++ units "."
             ++ ms ++ units "Z" in
  timestamp_of iso = y ++ mo ++ dd ++ hh ++ mi ++ ss
  ∧ length (timestamp_of iso) = 14%nat
  ∧ forallb is_digit (timestamp_of iso) = true.
Proof.
  intros Hy Hmo Hdd Hhh Hmi Hss Hdigits iso.
  assert (Hts : timestamp_of iso = y ++ mo ++ dd ++ hh ++ mi ++ ss).
  { unfold timestamp_of, iso.
    rewrite !forallb_app, !andb_true_iff in Hdigits.
    destruct Hdigits as (Dy & Dmo & Ddd & Dhh & Dmi & Dss & Dms).
    rewrite !List.filter_app.
    rewrite (filter_digits_keeps y Dy), (filter_digits_keeps mo Dmo),
      (filter_digits_keeps dd Ddd), (filter_digits_keeps hh Dhh),
      (filter_digits_keeps mi Dmi), (filter_digits_keeps ss Dss),
      (filter_digits_keeps ms Dms).
    change (List.filter is_digit (units "-")) with (@nil N).
    change (List.filter is_digit (units "T")) with (@nil N).
    change (List.filter is_digit (units ":")) with (@nil N).
    change (List.filter is_digit (units ".")) with (@nil N).
    change (List.filter is_digit (units "Z")) with (@nil N).
    rewrite !app_nil_l, app_nil_r.
    replace (y ++ mo ++ dd ++ hh ++ mi ++ ss ++ ms)
      with ((y ++ mo ++ dd ++ hh ++ mi ++ ss) ++ ms)
      by (by rewrite <- !app_assoc).
    apply take_app_length'. rewrite !length_app. lia. }
  rewrite Hts. split; [done|]. split.
  - rewrite !length_app. lia.
  - rewrite !forallb_app, !andb_true_iff in Hdigits.
    rewrite !forallb_app, !andb_true_iff. tauto.
Qed.

Lemma timestamp_of_iso_witness :
  timestamp_of (units "2024-01-31T09:05:07.123Z") = units "20240131090507".
Proof.
  pose proof (timestamp_of_iso_text (units "2024") (units "01") (units "31")
                (units "09") (units "05") (units "07") (units "123")
                eq_refl eq_refl eq_refl eq_refl eq_refl eq_refl eq_refl)
    as [H _].
  exact H.
Defined.

(** ** Delivery fees and prices *)



(** The price [createOrder] charges, [salePrice || price], is the virtual
    [finalPrice] of the product whenever the sale price satisfies its
    validator (absent, 0, or below the price).  With a sale price that is
    not below the price, [createOrder] charges the sale price and
    [finalPrice] is the price, so the order is never charged less than
    [finalPrice]. *)
Theorem price_of_against_finalPrice (p : Product.t) :
  (Catalog.salePrice_valid p = true →
   OrderController.price_of p = Catalog.finalPrice p)
  ∧ (Catalog.salePrice_valid p = false →
     ∃ s, Product.salePrice p = Some s ∧ Product.price p ≤ s
          ∧ OrderController.price_of p = s
          ∧ Catalog.finalPrice p = Product.price p)
  ∧ Catalog.finalPrice p ≤ OrderController.price_of p
  ∧ (Catalog.isOnSale p = true ↔ Catalog.finalPrice p ≠ Product.price p).
Proof.
  unfold Catalog.salePrice_valid, OrderController.price_of,
    Catalog.finalPrice, Catalog.isOnSale.
  destruct (Product.salePrice p) as [s|].
  - destruct (Z.eqb_spec s 0), (Z.ltb_spec s (Product.price p)); simpl;
      repeat split; try done; try lia; try (intros; exists s; split; [done|lia]).
  - repeat split; try done; lia.
Qed.

Lemma price_of_against_finalPrice_witness :
  OrderController.price_of Sample.desk = Catalog.finalPrice Sample.desk
  ∧ Catalog.finalPrice Sample.desk = 9900.
Proof.
  destruct (price_of_against_finalPrice Sample.desk) as (Hvalid & _).
  split; [exact (Hvalid eq_refl)|reflexivity].
Defined.

(** ** The gateway: callbacks, pushes and queries *)





(** [initiateSTKPush] succeeds in one case only: phone and account
    reference are not empty, the amount is at least 1, the token request is
    answered, the phone number has 12 code units once normalized, and the
    gateway answers the push with the response code "0".  The result then
    carries the identifiers of that answer. *)
Theorem initiateSTKPush_succeeds_iff
    (g : Mpesa.gateway) (phone : ustring) (amount : Z)
    (accountReference : string) (r : Mpesa.push_result) :
  Mpesa.initiateSTKPush g phone amount accountReference = inr r
  ↔ phone ≠ [] ∧ 1 ≤ amount ∧ accountReference ≠ ""
    ∧ (∃ token, Mpesa.oauth g = inr token)
    ∧ length (Phone.normalize phone) = 12%nat
    ∧ ∃ body,
        Mpesa.stkPush g = inr body ∧ Mpesa.ResponseCode body = "0"
        ∧ r = {| Mpesa.success := true;
                 Mpesa.push_message := "STK Push sent successfully";
                 Mpesa.checkoutRequestId := Mpesa.CheckoutRequestID body;
                 Mpesa.merchantRequestId := Mpesa.MerchantRequestID body;
                 Mpesa.customerMessage := Mpesa.CustomerMessage body |}.
Proof.
  split.
  - unfold Mpesa.initiateSTKPush, Mpesa.push_attempt,
      Mpesa.generateAccessToken, Phone.formatPhoneNumber.
    case_bool_decide as Hphone; [done|].
    destruct (Z.eqb_spec amount 0); [done|].
    destruct (String.eqb_spec accountReference ""); [done|]. simpl.
    destruct (Z.ltb_spec amount 1); [done|].
    destruct (Mpesa.oauth g) as [|token]; [done|]. cbv zeta.
    destruct (Nat.eqb_spec (length (Phone.normalize phone)) 12); [|done].
    simpl. destruct (Mpesa.stkPush g) as [|body]; [done|].
    destruct (String.eqb_spec (Mpesa.ResponseCode body) "0"); [|done].
    intros [= <-]. repeat split; eauto.
  - intros (Hphone & Hamount & Href & [token Htoken] & Hlen
            & body & Hpush & Hcode & ->).
    unfold Mpesa.initiateSTKPush.
    rewrite (push_attempt_reaches_gateway g phone amount accountReference
               token (Phone.normalize phone) Hphone Hamount Href Htoken).
    + by rewrite Hpush, Hcode.
    + unfold Phone.formatPhoneNumber. cbv zeta. by rewrite Hlen.
Qed.

Lemma initiateSTKPush_succeeds_witness :
  ∃ r,
    Mpesa.initiateSTKPush (Sample.accepting "ws_CO_1") (units "0712345678")
      19500 "ORD-20240101-0001" = inr r
    ∧ Mpesa.checkoutRequestId r = Some "ws_CO_1".
Proof.
  eexists. split.
  - apply initiateSTKPush_succeeds_iff.
    split; [discriminate|]. split; [lia|]. split; [discriminate|].
    split; [by eexists|]. split; [reflexivity|].
    eexists. split; [reflexivity|]. split; reflexivity.
  - reflexivity.
Defined.

(** [querySTKPushStatus] reports success exactly when the gateway's result
    code is the string "0", and failed for every other answer whose
    properties can be read, an empty body included; it loses every failure
    of the token request or of the query, and a body that is [null], in one
    [ErrorResponse] with status 500 and a fixed message.
    [checkPaymentStatus] does not ask the gateway about a paid order of the
    caller: it answers from the stored receipt; for an order that is not
    paid it forwards what [querySTKPushStatus] gives. *)
Theorem checkPaymentStatus_answers
    (g : Polling.gateway) (user : actor) (checkoutRequestId : string)
    (d : db) (k : string) (o : Order.t) :
  checkoutRequestId ≠ "" →
  PaymentController.findOne (Some checkoutRequestId) (orders d) = Some (k, o) →
  Order.user o = id user →
  (Order.paymentStatus o = Payment.paid →
   Polling.checkPaymentStatus g user checkoutRequestId d
   = Json 200
       (Polling.Paid (Order.mpesaReceiptNumber (Order.paymentDetails o))
          (Order.paidAt (Order.paymentDetails o))))
  ∧ (Order.paymentStatus o ≠ Payment.paid →
     (∀ token data,
        Polling.oauth g = inr token →
        Polling.stkQuery g = inr (Polling.Data data) →
        ∃ status,
          Polling.checkPaymentStatus g user checkoutRequestId d
          = Json 200
              (Polling.Queried status (Polling.ResultCode data)
                 (Polling.ResultDesc data))
          ∧ (status = "success" ∨ status = "failed")
          ∧ (status = "success"
             ↔ Polling.ResultCode data = Some (Mpesa.VString "0")))
     ∧ ((∃ e, Polling.oauth g = inl e) ∨ (∃ e, Polling.stkQuery g = inl e)
        ∨ Polling.stkQuery g = inr Polling.Null →
        Polling.checkPaymentStatus g user checkoutRequestId d
        = Next (ErrorResponse "Failed to query payment status" 500))).
Proof.
  intros Hid Hfind Huser. unfold Polling.checkPaymentStatus.
  destruct (String.eqb_spec checkoutRequestId ""); [done|].
  rewrite Hfind, Huser, String.eqb_refl. simpl. split.
  - intros Hpaid. by rewrite bool_decide_eq_true_2.
  - intros Hpaid. rewrite bool_decide_eq_false_2 by done.
    unfold Polling.querySTKPushStatus. split.
    + intros token data -> ->. simpl. eexists. split; [reflexivity|].
      case_bool_decide; split; auto; split; done.
    + intros [[e ->]|[[e He]| He]]; [done|..];
        rewrite He; by destruct (Polling.oauth g).
Qed.

Lemma checkPaymentStatus_witness :
  Polling.checkPaymentStatus (Scenario.answering (Mpesa.VString "0"))
    Sample.alice "ws_CO_1" Scenario.pushed
  = Json 200
      (Polling.Queried "success" (Some (Mpesa.VString "0"))
         (Some "The service request is processed successfully."))
  ∧ Polling.checkPaymentStatus Scenario.silent Sample.alice "ws_CO_1"
      Scenario.pushed
    = Next (ErrorResponse "Failed to query payment status" 500)
  ∧ Polling.checkPaymentStatus Scenario.silent Sample.alice "ws_CO_1"
      Scenario.settled
    = Json 200 (Polling.Paid (Some "QGH7XK2L9P") (Some 600))
  ∧ Polling.checkPaymentStatus Scenario.bodiless Sample.alice "ws_CO_1"
      Scenario.pushed
    = Json 200 (Polling.Queried "failed" None None).
Proof.
  assert (Hpushed : ∃ o,
            PaymentController.findOne (Some "ws_CO_1")
              (orders Scenario.pushed) = Some ("o1", o)
            ∧ Order.user o = id Sample.alice
            ∧ Order.paymentStatus o ≠ Payment.paid)
    by (eexists; split; [vm_compute; reflexivity|]; split;
        [reflexivity|discriminate]).
  destruct Hpushed as (o & Hfind & Huser & Hunpaid).
  assert (Hsettled : ∃ o,
            PaymentController.findOne (Some "ws_CO_1")
              (orders Scenario.settled) = Some ("o1", o)
            ∧ Order.user o = id Sample.alice
            ∧ Order.paymentStatus o = Payment.paid
            ∧ Order.mpesaReceiptNumber (Order.paymentDetails o)
              = Some "QGH7XK2L9P"
            ∧ Order.paidAt (Order.paymentDetails o) = Some 600)
    by (eexists; split; [vm_compute; reflexivity|]; repeat split).
  destruct Hsettled as (o' & Hfind' & Huser' & Hpaid' & Hreceipt & Hat).
  split; [|split; [|split]].
  - destruct (checkPaymentStatus_answers
                (Scenario.answering (Mpesa.VString "0")) Sample.alice
                "ws_CO_1" Scenario.pushed "o1" o ltac:(discriminate)
                Hfind Huser) as [_ Hquery].
    destruct (Hquery Hunpaid) as [Hanswer _].
    destruct (Hanswer _ _ eq_refl eq_refl) as (status & -> & _ & Hiff).
    by rewrite (proj2 Hiff eq_refl).
  - destruct (checkPaymentStatus_answers Scenario.silent Sample.alice
                "ws_CO_1" Scenario.pushed "o1" o ltac:(discriminate)
                Hfind Huser) as [_ Hquery].
    destruct (Hquery Hunpaid) as [_ Hfails].
    apply Hfails. right. left. by eexists.
  - destruct (checkPaymentStatus_answers Scenario.silent Sample.alice
                "ws_CO_1" Scenario.settled "o1" o' ltac:(discriminate)
                Hfind' Huser') as [Hstored _].
    by rewrite (Hstored Hpaid'), Hreceipt, Hat.
  - destruct (checkPaymentStatus_answers Scenario.bodiless Sample.alice
                "ws_CO_1" Scenario.pushed "o1" o ltac:(discriminate)
                Hfind Huser) as [_ Hquery].
    destruct (Hquery Hunpaid) as [Hanswer _].
    destruct (Hanswer _ _ eq_refl eq_refl)
      as (status & -> & [-> | ->] & Hiff); [|done].
    discriminate (proj1 Hiff eq_refl).
Defined.

(** ** What the routes do to the stored orders *)

(** A request leaves a stored order as it is, or writes to it once in one
    of the ways of [order_step], or stores a new order that comes out of
    [Order.create]. *)
Lemma handle_order_cases (d : db) (r : request) (j : string) :
  orders (handle d r) !! j = orders d !! j
  ∨ (∃ o o', orders d !! j = Some o ∧ orders (handle d r) !! j = Some o'
             ∧ order_step o o')
  ∨ (creates j r ∧ ∃ o', orders (handle d r) !! j = Some o' ∧ created o').
Proof.
  destruct r as [f user body|now user k body|now user k reason|g user body
                |now now' body];
    simpl.
  - destruct (OrderController.createOrder f user body d) as [d' rep] eqn:Hrun.
    unfold OrderController.createOrder in Hrun.
    destruct (bool_decide _); [injection Hrun as <- _; by left|].
    destruct (OrderController.reserve _ _ _ _) as [ps [e|[oi st]]];
      [injection Hrun as <- _; by left|].
    destruct (Order.create _ _) as [e|o] eqn:Hcreate;
      [injection Hrun as <- _; by left|].
    injection Hrun as <- <-. simpl.
    pose proof (create_id _ _ _ Hcreate) as Hid.
    destruct (decide (Order._id o = j)) as [Hj|Hj].
    + right. right. split; [congruence|]. exists o.
      rewrite Hj, lookup_insert_eq. split; [done|].
      eexists _, _. exact Hcreate.
    + left. by rewrite lookup_insert_ne.
  - unfold OrderController.updateOrderStatus.
    destruct (OrderController.status body) as [s|]; [|by left].
    destruct (orders d !! k) as [o|] eqn:Hk; [|by left]. simpl.
    destruct (decide (k = j)) as [<-|Hj]; [|left; by rewrite lookup_insert_ne].
    right. left. eexists o, _. rewrite lookup_insert_eq.
    split; [done|]. split; [done|]. constructor.
  - unfold OrderController.cancelOrder.
    destruct (orders d !! k) as [o|] eqn:Hk; [|by left].
    destruct (_ && _); [by left|].
    destruct (Order.cancelOrder _ _ _ o) as [e|o'] eqn:Hcancel; [by left|].
    simpl.
    destruct (decide (k = j)) as [<-|Hj]; [|left; by rewrite lookup_insert_ne].
    right. left. exists o, o'. rewrite lookup_insert_eq.
    split; [done|]. split; [done|]. by econstructor.
  - unfold PaymentController.initiatePayment.
    destruct (PaymentController.phone body) as [phone|]; [|by left].
    destruct (PaymentController.amount body) as [amount|]; [|by left].
    destruct (PaymentController.orderId body) as [k|]; [|by left].
    destruct (_ || _); [by left|].
    destruct (orders d !! k) as [o|] eqn:Hk; [|by left].
    destruct (negb _); [by left|]. case_bool_decide as Hpaid; [by left|].
    destruct (_ >? _); [by left|].
    destruct (Mpesa.initiateSTKPush _ _ _ _); [by left|]. simpl.
    destruct (decide (k = j)) as [<-|Hj]; [|left; by rewrite lookup_insert_ne].
    right. left. eexists o, _. rewrite lookup_insert_eq.
    split; [done|]. split; [done|]. by constructor.
  - unfold PaymentController.mpesaCallback.
    destruct (Mpesa.processCallback body) as [e|result]; [by left|].
    destruct (PaymentController.findOne _ _) as [[k o]|] eqn:Hfind; [|by left].
    apply findOne_lookup in Hfind. simpl.
    destruct (decide (k = j)) as [<-|Hj]; [|left; by rewrite lookup_insert_ne].
    right. left. eexists o, _. rewrite lookup_insert_eq.
    split; [done|]. split; [done|].
    destruct (Mpesa.result_success result); constructor.
Qed.

(** A property of orders that holds of what [Order.create] returns and
    survives every write holds of every stored order, whatever requests
    come. *)
Lemma orders_invariant (P : Order.t → Prop) :
  (∀ o, created o → P o) →
  (∀ o o', order_step o o' → P o → P o') →
  ∀ (later : list request) (d : db),
    (∀ j o, orders d !! j = Some o → P o) →
    ∀ j o, orders (fold_left handle later d) !! j = Some o → P o.
Proof.
  intros Hnew Hstep later.
  induction later as [|r later IH]; intros d Hd j o'; simpl; [apply Hd|].
  apply IH. clear j o' IH. intros j o' Ho'.
  destruct (handle_order_cases d r j)
    as [Hsame|[(o & o2 & Ho & Ho2 & Hst)|(_ & o2 & Ho2 & Hcr)]].
  - rewrite Hsame in Ho'. by apply (Hd j).
  - rewrite Ho2 in Ho'. injection Ho' as <-. apply (Hstep o); [done|].
    by apply (Hd j).
  - rewrite Ho2 in Ho'. injection Ho' as <-. by apply Hnew.
Qed.

(** An order that is stored stays stored, and what is stored under its
    identifier later comes from it by a sequence of writes, as long as no
    order is created under that identifier again. *)
Lemma handle_all_steps (later : list request) : ∀ (d : db) (j : string) (o : Order.t),
  Forall (fun r => ¬ creates j r) later →
  orders d !! j = Some o →
  ∃ o', orders (fold_left handle later d) !! j = Some o' ∧ rtc order_step o o'.
Proof.
  induction later as [|r later IH]; intros d j o Hfresh Ho; simpl.
  - by exists o.
  - apply Forall_cons in Hfresh as [Hr Hfresh].
    destruct (handle_order_cases d r j)
      as [Hsame|[(o1 & o2 & Ho1 & Ho2 & Hst)|(Hcr & _)]]; [| |done].
    + rewrite Ho in Hsame. by apply IH.
    + rewrite Ho in Ho1. injection Ho1 as <-.
      destruct (IH _ _ _ Hfresh Ho2) as (o' & Ho' & Hsteps).
      exists o'. split; [done|]. by eapply rtc_l.
Qed.

Lemma created_fields (o : Order.t) :
  created o →
  ∃ f document,
    Order.create f document = inr o
    ∧ Order._id o = Order.fresh_id f
    ∧ Order.orderStatus o = Order.pending
    ∧ Order.paymentStatus o = Payment.pending
    ∧ Order.paymentDetails o
      = {| Order.mpesaReceiptNumber := None; Order.transactionId := None;
           Order.phoneNumber := None; Order.paidAt := None |}
    ∧ Order.statusHistory o
      = [ {| Order.status := Order.pending;
             Order.timestamp := Order.fresh_now f;
             Order.note := "Order created"; Order.updatedBy := None |} ]
    ∧ Order.cancelReason o = None
    ∧ Order.user o = Order.draft_user document
    ∧ forallb Order.valid_item (Order.items o) = true.
Proof.
  intros (f & dr & Hrun).
  exists f, dr. split; [done|].
  unfold Order.create in Hrun.
  destruct (Order.draft_orderNumber dr) as [number|]; [|done].
  destruct (Order.draft_deliveryFee dr) as [fee|]; [|done].
  destruct (Order.draft_total dr) as [total|]; [|done].
  destruct (negb _); [|done]. simpl in Hrun.
  destruct (forallb Order.valid_item (Order.draft_items dr)) eqn:Hvalid;
    [|done].
  simpl in Hrun. destruct (_ && _); [|done].
  by injection Hrun as <-.
Qed.

Lemma step_history (o o' : Order.t) :
  order_step o o' →
  (Order.statusHistory o `prefix_of` Order.statusHistory o')
  ∧ Order._id o' = Order._id o
  ∧ Order.orderNumber o' = Order.orderNumber o
  ∧ Order.user o' = Order.user o
  ∧ Order.paymentMethod o' = Order.paymentMethod o.
Proof.
  intros [now s note by_ o1|now reason by_ o1 o2 Hcancel|checkout phone o1 _
         |now now' r o1|o1].
  - split; [by eexists|done].
  - unfold Order.cancelOrder in Hcancel.
    destruct (negb _); [done|]. injection Hcancel as <-.
    split; [by eexists|done].
  - done.
  - unfold Order.markAsPaid. cbv zeta. case_bool_decide.
    + split; [by eexists|done].
    + done.
  - done.
Qed.

(** Orders are never deleted, and their history is append-only: once an
    order is stored, whatever requests follow (short of creating an order
    under the same identifier), an order is still stored under its
    identifier, with the same number, owner and payment method, and with a
    status history that extends the one it had; in particular the first
    entry stays. *)
Theorem statusHistory_only_grows
    (later : list request) (d : db) (j : string) (o : Order.t) :
  Forall (fun r => ¬ creates j r) later →
  orders d !! j = Some o →
  ∃ o',
    orders (fold_left handle later d) !! j = Some o'
    ∧ (Order.statusHistory o `prefix_of` Order.statusHistory o')
    ∧ (Order.statusHistory o ≠ [] →
       head (Order.statusHistory o') = head (Order.statusHistory o))
    ∧ Order._id o' = Order._id o
    ∧ Order.orderNumber o' = Order.orderNumber o
    ∧ Order.user o' = Order.user o
    ∧ Order.paymentMethod o' = Order.paymentMethod o.
Proof.
  intros Hfresh Ho.
  destruct (handle_all_steps later d j o Hfresh Ho) as (o' & Ho' & Hsteps).
  exists o'. split; [done|].
  assert (H : (Order.statusHistory o `prefix_of` Order.statusHistory o')
              ∧ Order._id o' = Order._id o
              ∧ Order.orderNumber o' = Order.orderNumber o
              ∧ Order.user o' = Order.user o
              ∧ Order.paymentMethod o' = Order.paymentMethod o).
  { clear Ho Ho' Hfresh. induction Hsteps as [o|o o1 o' Hst _ IH]; [done|].
    destruct (step_history _ _ Hst) as (Hp & E1 & E2 & E3 & E4).
    destruct IH as (Hp' & F1 & F2 & F3 & F4).
    split; [by etrans|]. repeat split; congruence. }
  destruct H as ([k Hk] & Hrest). split; [by exists k|].
  split; [|done]. intros Hne. rewrite Hk.
  by destruct (Order.statusHistory o).
Qed.

Lemma statusHistory_only_grows_witness :
  ∃ o',
    orders
      (fold_left handle
         [ InitiatePayment (Sample.accepting "ws_CO_1") Sample.alice
             Sample.pay;
           MpesaCallback 600 601 (Sample.paid_callback "ws_CO_1");
           UpdateOrderStatus 650 Sample.admin "o1"
             {| OrderController.status := Some Order.shipped;
                OrderController.note := None |} ]
         Sample.shop1) !! "o1" = Some o'
    ∧ length (Order.statusHistory o') = 3%nat
    ∧ Order.status <$> head (Order.statusHistory o') = Some Order.pending.
Proof.
  destruct (statusHistory_only_grows
              [ InitiatePayment (Sample.accepting "ws_CO_1") Sample.alice
                  Sample.pay;
                MpesaCallback 600 601 (Sample.paid_callback "ws_CO_1");
                UpdateOrderStatus 650 Sample.admin "o1"
                  {| OrderController.status := Some Order.shipped;
                     OrderController.note := None |} ]
              Sample.shop1 "o1" Sample.order1
              ltac:(repeat constructor; simpl; tauto) eq_refl)
    as (o' & Ho' & _ & Hhead & _).
  exists o'. split; [exact Ho'|]. split.
  - assert (Hst : Some o' = Some o') by reflexivity.
    rewrite <- Ho' in Hst at 1. vm_compute in Hst. by injection Hst as <-.
  - by rewrite (Hhead ltac:(discriminate)).
Defined.





(** ** Stock *)

Lemma reserve_keeps_stock_nonnegative items : ∀ ps oi st ps' res,
  (∀ k p, ps !! k = Some p → 0 ≤ Product.stock p) →
  OrderController.reserve items ps oi st = (ps', res) →
  ∀ k p, ps' !! k = Some p → 0 ≤ Product.stock p.
Proof.
  induction items as [|item items IH]; intros ps oi st ps' res Hps Hrun.
  - by injection Hrun as <- _.
  - destruct (ps !! OrderController.product item) as [p0|] eqn:Hp0.
    + rewrite (reserve_step _ _ _ _ _ _ Hp0) in Hrun.
      destruct (Z.ltb_spec (Product.stock p0) (OrderController.quantity item)).
      * by injection Hrun as <- _.
      * destruct (Product.prices_valid p0); [|by injection Hrun as <- _].
        revert Hrun. apply IH. intros k p.
        rewrite lookup_insert. destruct (decide _) as [_|_]; [|apply Hps].
        intros [= <-]. simpl. lia.
    + rewrite (reserve_missing _ _ _ _ _ Hp0) in Hrun.
      by injection Hrun as <- _.
Qed.

Lemma units_of_nonnegative (pid : string) (its : list Order.item) :
  forallb Order.valid_item its = true → 0 ≤ units_of pid its.
Proof.
  induction its as [|it its IH]; simpl; [done|].
  intros [[_ Hq%Z.leb_le]%andb_true_iff Hrest]%andb_true_iff.
  specialize (IH Hrest). destruct (String.eqb _ _); lia.
Qed.

Lemma step_items (o o' : Order.t) :
  order_step o o' → Order.items o' = Order.items o.
Proof.
  intros [now s note by_ o1|now reason by_ o1 o2 Hcancel|checkout phone o1 _
         |now now' r o1|o1]; try done.
  - unfold Order.cancelOrder in Hcancel.
    destruct (negb _); [done|]. by injection Hcancel as <-.
  - unfold Order.markAsPaid. cbv zeta. by case_bool_decide.
Qed.

(** Stock is never negative.  If no product has a negative stock and every
    stored order has lines of quantity at least 1 and price at least 0,
    the same is true after any sequence of requests to the routes that
    create, update, cancel and pay orders, also when some of them fail half
    way. *)
Theorem stock_is_never_negative (later : list request) (d : db) :
  (∀ k p, products d !! k = Some p → 0 ≤ Product.stock p) →
  (∀ j o, orders d !! j = Some o →
     forallb Order.valid_item (Order.items o) = true) →
  (∀ k p, products (fold_left handle later d) !! k = Some p →
     0 ≤ Product.stock p)
  ∧ (∀ j o, orders (fold_left handle later d) !! j = Some o →
       forallb Order.valid_item (Order.items o) = true).
Proof.
  intros Hstock Hlines. split; cycle 1.
  { apply (orders_invariant
             (fun o => forallb Order.valid_item (Order.items o) = true));
      [|by intros o o' ->%step_items|done].
    by intros o (f & document & _ & _ & _ & _ & _ & _ & _ & _ & H)
                %created_fields. }
  revert d Hstock Hlines.
  induction later as [|r later IH]; intros d Hstock Hlines; simpl; [done|].
  apply IH.
  - clear IH.
    destruct r as [f user body|now user j body|now user j reason|g user body
                  |now now' body]; simpl.
    + unfold OrderController.createOrder.
      destruct (bool_decide _); [done|].
      destruct (OrderController.reserve _ _ _ _) as [ps res] eqn:Hrun.
      pose proof (reserve_keeps_stock_nonnegative _ _ _ _ _ _ Hstock Hrun).
      destruct res as [e|[oi st]]; [done|].
      by destruct (Order.create _ _).
    + unfold OrderController.updateOrderStatus.
      destruct (OrderController.status body); [|done].
      by destruct (orders d !! j).
    + unfold OrderController.cancelOrder.
      destruct (orders d !! j) as [o|] eqn:Ho; [|done].
      destruct (_ && _); [done|].
      destruct (Order.cancelOrder _ _ _ o) as [e|o'] eqn:Hcancel; [done|].
      simpl. intros k p. rewrite restore_lookup.
      destruct (products d !! k) as [p0|] eqn:Hp0; [|done].
      intros [= <-]. simpl.
      assert (Hitems : Order.items o' = Order.items o)
        by (apply step_items; by econstructor).
      pose proof (units_of_nonnegative k (Order.items o')) as Hu.
      rewrite Hitems in Hu. specialize (Hu (Hlines _ _ Ho)).
      specialize (Hstock _ _ Hp0). rewrite Hitems. lia.
    + unfold PaymentController.initiatePayment.
      destruct (PaymentController.phone body); [|done].
      destruct (PaymentController.amount body); [|done].
      destruct (PaymentController.orderId body) as [j|]; [|done].
      destruct (_ || _); [done|].
      destruct (orders d !! j); [|done].
      destruct (negb _); [done|]. case_bool_decide; [done|].
      destruct (_ >? _); [done|].
      by destruct (Mpesa.initiateSTKPush _ _ _ _).
    + unfold PaymentController.mpesaCallback.
      destruct (Mpesa.processCallback body); [done|].
      by destruct (PaymentController.findOne _ _) as [[? ?]|].
  - apply (orders_invariant
             (fun o => forallb Order.valid_item (Order.items o) = true)
             ltac:(by intros o (f & document & _ & _ & _ & _ & _ & _ & _ & _
                               & H)%created_fields)
             ltac:(intros o o' H%step_items; simpl; by rewrite H)
             [r] d Hlines).
Qed.

Lemma stock_is_never_negative_witness :
  ∃ p,
    products
      (fold_left handle
         [ CreateOrder Sample.first Sample.alice Sample.too_many_desks;
           CreateOrder Sample.first Sample.alice Sample.chairs;
           CancelOrder 700 Sample.alice "o1" None ]
         Sample.shop) !! "p1" = Some p
    ∧ 0 ≤ Product.stock p.
Proof.
  assert (Hstock : ∀ k p, products Sample.shop !! k = Some p →
                     0 ≤ Product.stock p).
  { intros k p. unfold Sample.shop. simpl.
    rewrite !lookup_insert, lookup_empty.
    repeat (destruct (decide _) as [_|_]); intros [= <-]; simpl; lia. }
  assert (Hlines : ∀ j o, orders Sample.shop !! j = Some o →
                     forallb Order.valid_item (Order.items o) = true).
  { intros j o Ho. unfold Sample.shop in Ho. simpl in Ho.
    by rewrite lookup_empty in Ho. }
  assert (Hlook : ∃ p,
            products
              (fold_left handle
                 [ CreateOrder Sample.first Sample.alice Sample.too_many_desks;
                   CreateOrder Sample.first Sample.alice Sample.chairs;
                   CancelOrder 700 Sample.alice "o1" None ]
                 Sample.shop) !! "p1" = Some p)
    by (eexists; vm_compute; reflexivity).
  destruct Hlook as (p & Hp). exists p. split; [exact Hp|].
  exact (proj1 (stock_is_never_negative _ Sample.shop Hstock Hlines) "p1" p Hp).
Defined.

(** ** What [createOrder] leaves behind *)

Lemma taken_lookup (done : list OrderController.line)
    (ps : gmap string Product.t) (pid : string) :
  taken done ps !! pid =
  (fun p => Product.set_stock (Product.stock p - units_ordered pid done) p)
  <$> ps !! pid.
Proof.
  unfold taken. revert ps. induction done as [|l done IH]; intros ps; simpl.
  - destruct (ps !! pid) as [[]|]; simpl; [|done].
    unfold Product.set_stock; simpl. do 2 f_equal. lia.
  - rewrite IH, lookup_alter.
    destruct (String.eqb_spec (OrderController.product l) pid) as [->|Hne].
    + rewrite decide_True by done.
      destruct (ps !! pid) as [p|]; simpl; [|done].
      unfold Product.set_stock; simpl. do 2 f_equal. lia.
    + by rewrite decide_False.
Qed.

Lemma units_agree (pid : string) (new : list Order.item)
    (ls : list OrderController.line) :
  Order.product <$> new = OrderController.product <$> ls →
  Order.quantity <$> new = OrderController.quantity <$> ls →
  units_of pid new = units_ordered pid ls.
Proof.
  revert ls. induction new as [|it new IH]; intros [|l ls]; try done.
  rewrite !fmap_cons. intros [= Hp Hps] [= Hq Hqs]. simpl.
  by rewrite Hp, Hq, (IH ls).
Qed.

(** What a line of the order keeps of the product it names in the given
    collection. *)
Lemma reserve_snapshots items : ∀ ps oi st ps' oi' st',
  OrderController.reserve items ps oi st = (ps', inr (oi', st')) →
  ∃ new,
    oi' = oi ++ new
    ∧ Forall2
        (fun it l =>
           Order.product it = OrderController.product l
           ∧ Order.quantity it = OrderController.quantity l
           ∧ ∃ p, ps !! OrderController.product l = Some p
                  ∧ Order.name it = Product.name p
                  ∧ Order.price it = OrderController.price_of p
                  ∧ Order.image it = OrderController.image_of p)
        new items.
Proof.
  induction items as [|item items IH]; intros ps oi st ps' oi' st' H.
  - injection H as _ <- _. exists []. by rewrite app_nil_r.
  - destruct (ps !! OrderController.product item) as [p|] eqn:Hp.
    + rewrite (reserve_step _ _ _ _ _ _ Hp) in H.
      destruct (Product.stock p <? OrderController.quantity item); [done|].
      destruct (Product.prices_valid p); [|done].
      apply IH in H as (new & -> & Hnew).
      eexists (_ :: new). rewrite <- app_assoc. split; [done|].
      constructor.
      * simpl. repeat split. by exists p.
      * eapply Forall2_impl; [exact Hnew|].
        intros it l (Hprod & Hqty & p1 & Hp1 & Hn & Hpr & Him).
        split; [done|]. split; [done|]. revert Hp1.
        rewrite lookup_insert. destruct (decide _) as [<-|_].
        -- intros [= <-]. by exists p.
        -- intros Hp1. by exists p1.
    + by rewrite (reserve_missing _ _ _ _ _ Hp) in H.
Qed.

(** [createOrder] never creates an order.  Whatever the request, it
    answers no 201 (nor any other [json]) and leaves the order collection as
    it is.  When its loop has gone through every line of the request, the
    stock has been taken: every product has lost the units the request names
    for it and nothing else of it has changed, and each line built for the
    order has the product and quantity of the request's line and the name,
    price ([salePrice || price]) and first image the product had.  The
    request then ends in the validation error of [Order.create], whose
    document has no [orderNumber], and the stock stays taken. *)
Theorem createOrder_takes_the_stock_and_stores_no_order
    (f : Order.fresh) (user : actor) (body : OrderController.create_body)
    (d : db) :
  orders (OrderController.createOrder f user body d).1 = orders d
  ∧ (∀ status o,
       (OrderController.createOrder f user body d).2 ≠ Json status o)
  ∧ (∀ ps orderItems subtotal,
       OrderController.items body ≠ [] →
       OrderController.reserve (OrderController.items body) (products d) [] 0
       = (ps, inr (orderItems, subtotal)) →
       (∃ text,
          OrderController.createOrder f user body d
          = ({| products := ps; orders := orders d |}, Next (Error text)))
       ∧ (∀ pid,
            ps !! pid =
            (fun p =>
               Product.set_stock
                 (Product.stock p
                  - units_ordered pid (OrderController.items body)) p)
            <$> products d !! pid)
       ∧ Forall2
           (fun it l =>
              Order.product it = OrderController.product l
              ∧ Order.quantity it = OrderController.quantity l
              ∧ ∃ p, products d !! OrderController.product l = Some p
                     ∧ Order.name it = Product.name p
                     ∧ Order.price it = OrderController.price_of p
                     ∧ Order.image it = OrderController.image_of p)
           orderItems (OrderController.items body)).
Proof.
  split; [apply createOrder_orders|]. split.
  - intros status o. unfold OrderController.createOrder.
    destruct (bool_decide _); [done|].
    destruct (OrderController.reserve _ _ _ _) as [ps [e|[oi st]]]; [done|].
    by rewrite create_document.
  - intros ps oi st Hne Hloop. unfold OrderController.createOrder.
    rewrite bool_decide_eq_false_2 by done.
    rewrite Hloop, create_document. split; [by eexists|].
    pose proof (reserve_ends _ _ _ _ _ _ _ Hloop) as [-> _].
    split; [intros pid; apply taken_lookup|].
    by apply reserve_snapshots in Hloop as (new & -> & Hnew).
Qed.

Lemma createOrder_takes_witness :
  Product.stock <$> (products Sample.shop !! "p1") = Some 5
  ∧ (∃ text,
       OrderController.createOrder Sample.first Sample.alice Sample.chairs
         Sample.shop
       = ({| products := products Sample.shop1; orders := ∅ |},
          Next (Error text)))
  ∧ Product.stock <$> (products Sample.shop1 !! "p1") = Some (5 - 4).
Proof.
  destruct (createOrder_takes_the_stock_and_stores_no_order Sample.first
              Sample.alice Sample.chairs Sample.shop) as (_ & _ & Htaken).
  destruct (Htaken (products Sample.shop1) (Order.items Sample.order1) 18000
              ltac:(discriminate) eq_refl) as (Hrun & Hstock & _).
  split; [reflexivity|]. split; [exact Hrun|].
  by rewrite Hstock.
Defined.

(** ** Refused requests and callbacks *)

(** A request to update a status, to cancel or to start a payment that is
    answered with an error has written nothing: both collections are as
    they were.  In particular no transaction identifier is recorded when the
    push fails, and no stock comes back when a cancellation is refused. *)
Theorem refused_requests_write_nothing (d d' : db) (e : exn) :
  (∀ now user order_id body,
     OrderController.updateOrderStatus now user order_id body d
     = (d', Next e) → d' = d)
  ∧ (∀ now user order_id reason,
       OrderController.cancelOrder now user order_id reason d
       = (d', Next e) → d' = d)
  ∧ (∀ g user body,
       PaymentController.initiatePayment g user body d
       = (d', Next e) → d' = d).
Proof.
  split; [|split].
  - intros now user k body. unfold OrderController.updateOrderStatus.
    destruct (OrderController.status body); [|by intros [= <-]].
    destruct (orders d !! k); [done|by intros [= <-]].
  - intros now user k reason. unfold OrderController.cancelOrder.
    destruct (orders d !! k); [|by intros [= <-]].
    destruct (_ && _); [by intros [= <-]|].
    destruct (Order.cancelOrder _ _ _ _); [by intros [= <-]|done].
  - intros g user body. unfold PaymentController.initiatePayment.
    destruct (PaymentController.phone body); [|by intros [= <-]].
    destruct (PaymentController.amount body); [|by intros [= <-]].
    destruct (PaymentController.orderId body) as [k|]; [|by intros [= <-]].
    destruct (_ || _); [by intros [= <-]|].
    destruct (orders d !! k); [|by intros [= <-]].
    destruct (negb _); [by intros [= <-]|].
    case_bool_decide; [by intros [= <-]|].
    destruct (_ >? _); [by intros [= <-]|].
    destruct (Mpesa.initiateSTKPush _ _ _ _); [by intros [= <-]|done].
Qed.

Lemma refused_requests_witness :
  (PaymentController.initiatePayment Sample.unreachable Sample.alice
     Sample.pay Sample.shop1).1 = Sample.shop1.
Proof.
  pose proof (refused_requests_write_nothing Sample.shop1
                (PaymentController.initiatePayment Sample.unreachable
                   Sample.alice Sample.pay Sample.shop1).1
                (ErrorResponse
                   "M-Pesa payment failed: timeout of 30000ms exceeded" 400))
    as (_ & _ & H).
  exact (H Sample.unreachable Sample.alice Sample.pay eq_refl).
Defined.

(** What a callback writes.  When the callback is read, and an order has
    its checkout identifier, that order alone is written to.  A successful
    payment makes it paid, with the callback's receipt number, checkout
    identifier and phone in place of the stored ones and the clock reading
    as [paidAt]; a pending order becomes confirmed with one more history
    entry, and an order in any other status, cancelled included, keeps its
    status and history.  A failed payment sets [paymentStatus] to failed,
    also on an order that was paid, and changes nothing else. *)
Theorem mpesaCallback_writes_one_order
    (now now' : Z) (body : Mpesa.callback_data) (d : db)
    (result : Mpesa.callback_result) (k : string) (o : Order.t) :
  Mpesa.processCallback body = inr result →
  PaymentController.findOne (Mpesa.result_checkoutRequestId result) (orders d)
  = Some (k, o) →
  ∃ o',
    PaymentController.mpesaCallback now now' body d
    = ({| products := products d; orders := <[k := o']> (orders d) |},
       PaymentController.Accepted)
    ∧ orders d !! k = Some o
    ∧ (∀ j, j ≠ k →
         orders (PaymentController.mpesaCallback now now' body d).1 !! j
         = orders d !! j)
    ∧ (Mpesa.result_success result = false →
       o' = Order.set_paymentStatus Payment.failed o)
    ∧ (Mpesa.result_success result = true →
       Order.paymentStatus o' = Payment.paid
       ∧ Order.paymentDetails o'
         = {| Order.mpesaReceiptNumber :=
                PaymentController.cast_string
                <$> Mpesa.mpesaReceiptNumber result;
              Order.transactionId := Mpesa.result_checkoutRequestId result;
              Order.phoneNumber :=
                units ∘ PaymentController.cast_string
                <$> Mpesa.phoneNumber result;
              Order.paidAt := Some now |}
       ∧ (Order.orderStatus o = Order.pending →
          Order.orderStatus o' = Order.confirmed
          ∧ Order.statusHistory o'
            = Order.statusHistory o ++
              [ {| Order.status := Order.confirmed; Order.timestamp := now';
                   Order.note := "Payment received and order confirmed";
                   Order.updatedBy := None |} ])
       ∧ (Order.orderStatus o ≠ Order.pending →
          Order.orderStatus o' = Order.orderStatus o
          ∧ Order.statusHistory o' = Order.statusHistory o)).
Proof.
  intros Hread Hfind. unfold PaymentController.mpesaCallback.
  rewrite Hread, Hfind. eexists. split; [reflexivity|].
  split; [by apply findOne_lookup in Hfind|]. simpl.
  split; [by intros j Hj; rewrite lookup_insert_ne|].
  split; [by intros ->|]. intros ->.
  unfold Order.markAsPaid. cbv zeta. simpl.
  case_bool_decide as Hst; simpl; by repeat split.
Qed.

Lemma mpesaCallback_writes_witness :
  ∃ o',
    orders Scenario.settled !! "o1" = Some o'
    ∧ Order.paymentStatus o' = Payment.paid
    ∧ Order.orderStatus o' = Order.confirmed
    ∧ Order.mpesaReceiptNumber (Order.paymentDetails o') = Some "QGH7XK2L9P".
Proof.
  assert (Hfind : ∃ result o,
            Mpesa.processCallback (Sample.paid_callback "ws_CO_1") = inr result
            ∧ PaymentController.findOne (Mpesa.result_checkoutRequestId result)
                (orders Scenario.pushed) = Some ("o1", o)
            ∧ Mpesa.result_success result = true
            ∧ Order.orderStatus o = Order.pending
            ∧ Mpesa.mpesaReceiptNumber result
              = Some (Mpesa.VString "QGH7XK2L9P"))
    by (eexists _, _; split; [reflexivity|]; split;
        [vm_compute; reflexivity|by repeat split]).
  destruct Hfind as (result & o & Hread & Hfind & Hok & Hpending & Hreceipt).
  destruct (mpesaCallback_writes_one_order 600 601 _ Scenario.pushed
              result "o1" o Hread Hfind)
    as (o' & Hrun & _ & _ & _ & Hpaid).
  destruct (Hpaid Hok) as (Hstatus & Hdetails & Hconfirm & _).
  exists o'. split.
  - unfold Scenario.settled. rewrite Hrun. simpl. apply lookup_insert_eq.
  - split; [exact Hstatus|]. split; [exact (proj1 (Hconfirm Hpending))|].
    by rewrite Hdetails, Hreceipt.
Defined.

Lemma findOne_unique (q : option string) (os : gmap string Order.t)
    (k : string) (o : Order.t) :
  os !! k = Some o →
  Order.transactionId (Order.paymentDetails o) = q →
  (∀ j o2, os !! j = Some o2 →
     Order.transactionId (Order.paymentDetails o2) = q → j = k) →
  PaymentController.findOne q os = Some (k, o).
Proof.
  intros Hk Hq Hunique. unfold PaymentController.findOne.
  destruct (List.find _ _) as [[j o2]|] eqn:Hfind.
  - apply find_some in Hfind as [Hin Hp].
    apply list_elem_of_In, elem_of_map_to_list in Hin.
    apply bool_decide_eq_true in Hp. simpl in Hp.
    assert (j = k) as -> by eauto. congruence.
  - pose proof (find_none _ _ Hfind (k, o)) as Hno. simpl in Hno.
    rewrite bool_decide_eq_true_2 in Hno by done.
    discriminate Hno. by apply list_elem_of_In, elem_of_map_to_list.
Qed.

Lemma markAsPaid_again (o : Order.t) (r : Order.receipt) (t1 t1' t2 t2' : Z) :
  Order.markAsPaid t2 t2' r (Order.markAsPaid t1 t1' r o)
  = Order.set_paymentDetails
      {| Order.mpesaReceiptNumber :=
           Order.mpesaReceiptNumber
             (Order.paymentDetails (Order.markAsPaid t1 t1' r o));
         Order.transactionId :=
           Order.transactionId
             (Order.paymentDetails (Order.markAsPaid t1 t1' r o));
         Order.phoneNumber :=
           Order.phoneNumber
             (Order.paymentDetails (Order.markAsPaid t1 t1' r o));
         Order.paidAt := Some t2 |}
      (Order.markAsPaid t1 t1' r o).
Proof.
  pose proof (markAsPaid_leaves_pending o r t1 t1') as Hst.
  unfold Order.markAsPaid at 1. cbv zeta. simpl.
  rewrite bool_decide_eq_false_2 by exact Hst.
  unfold Order.markAsPaid. cbv zeta.
  case_bool_decide; simpl; by rewrite !spread_twice.
Qed.

(** The same successful callback delivered twice.  When one order only has
    the checkout identifier, the second delivery finds the same order and
    changes nothing but its [paidAt]: no second history entry, the same
    status, the same receipt; no other order and no stock is touched by
    either delivery. *)
Theorem mpesaCallback_delivered_twice
    (t1 t1' t2 t2' : Z) (body : Mpesa.callback_data) (d : db)
    (result : Mpesa.callback_result) (k : string) (o : Order.t) :
  Mpesa.processCallback body = inr result →
  Mpesa.result_success result = true →
  orders d !! k = Some o →
  Order.transactionId (Order.paymentDetails o)
  = Mpesa.result_checkoutRequestId result →
  (∀ j o2, orders d !! j = Some o2 →
     Order.transactionId (Order.paymentDetails o2)
     = Mpesa.result_checkoutRequestId result → j = k) →
  let d1 := (PaymentController.mpesaCallback t1 t1' body d).1 in
  let d2 := (PaymentController.mpesaCallback t2 t2' body d1).1 in
  ∃ o1 o2,
    orders d1 !! k = Some o1 ∧ orders d2 !! k = Some o2
    ∧ Order.paymentStatus o2 = Payment.paid
    ∧ Order.statusHistory o2 = Order.statusHistory o1
    ∧ Order.orderStatus o2 = Order.orderStatus o1
    ∧ o2 = Order.set_paymentDetails
             {| Order.mpesaReceiptNumber :=
                  Order.mpesaReceiptNumber (Order.paymentDetails o1);
                Order.transactionId :=
                  Order.transactionId (Order.paymentDetails o1);
                Order.phoneNumber := Order.phoneNumber (Order.paymentDetails o1);
                Order.paidAt := Some t2 |} o1
    ∧ products d2 = products d
    ∧ (∀ j, j ≠ k → orders d2 !! j = orders d !! j).
Proof.
  intros Hread Hok Hk Hq Hunique d1 d2.
  pose proof (findOne_unique _ _ _ _ Hk Hq Hunique) as Hfind.
  set (r := {| Order.receipt_mpesaReceiptNumber :=
                 Order.Present (PaymentController.cast_string
                                <$> Mpesa.mpesaReceiptNumber result);
               Order.receipt_transactionId :=
                 Order.Present (Mpesa.result_checkoutRequestId result);
               Order.receipt_phoneNumber :=
                 Order.Present (units ∘ PaymentController.cast_string
                                <$> Mpesa.phoneNumber result) |}).
  set (o1 := Order.markAsPaid t1 t1' r o).
  assert (Hd1 : d1 = {| products := products d;
                        orders := <[k := o1]> (orders d) |}).
  { unfold d1, PaymentController.mpesaCallback.
    by rewrite Hread, Hfind, Hok. }
  assert (Hq1 : Order.transactionId (Order.paymentDetails o1)
                = Mpesa.result_checkoutRequestId result).
  { unfold o1, Order.markAsPaid. cbv zeta. by case_bool_decide. }
  assert (Hfind1 : PaymentController.findOne
                     (Mpesa.result_checkoutRequestId result) (orders d1)
                   = Some (k, o1)).
  { rewrite Hd1. simpl. apply findOne_unique; [apply lookup_insert_eq|done|].
    intros j o2. destruct (decide (j = k)) as [->|Hj]; [done|].
    rewrite lookup_insert_ne by done. apply Hunique. }
  assert (Hd2 : d2 = {| products := products d;
                        orders := <[k := Order.markAsPaid t2 t2' r o1]>
                                    (orders d1) |}).
  { unfold d2, PaymentController.mpesaCallback.
    rewrite Hread, Hfind1, Hok. by rewrite Hd1. }
  assert (Hagain := markAsPaid_again o r t1 t1' t2 t2'). fold o1 in Hagain.
  assert (Hpaid : Order.paymentStatus o1 = Payment.paid).
  { unfold o1, Order.markAsPaid. cbv zeta. by case_bool_decide. }
  exists o1, (Order.markAsPaid t2 t2' r o1).
  split; [rewrite Hd1; apply lookup_insert_eq|].
  split; [rewrite Hd2; apply lookup_insert_eq|].
  split; [by rewrite Hagain|]. split; [by rewrite Hagain|].
  split; [by rewrite Hagain|]. split; [exact Hagain|].
  split; [by rewrite Hd2|].
  intros j Hj. rewrite Hd2, Hd1. simpl. by rewrite !lookup_insert_ne.
Qed.

Lemma mpesaCallback_delivered_twice_witness :
  ∃ o1 o2,
    orders Scenario.settled !! "o1" = Some o1
    ∧ orders
        (PaymentController.mpesaCallback 800 801
           (Sample.paid_callback "ws_CO_1") Scenario.settled).1 !! "o1"
      = Some o2
    ∧ Order.statusHistory o2 = Order.statusHistory o1
    ∧ Order.paidAt (Order.paymentDetails o2) = Some 800.
Proof.
  set (o := Order.set_paymentDetails
              {| Order.mpesaReceiptNumber := None;
                 Order.transactionId := Some "ws_CO_1";
                 Order.phoneNumber := Some (units "0712345678");
                 Order.paidAt := None |} Sample.order1).
  assert (Hos : orders Scenario.pushed = <["o1" := o]> ∅)
    by (vm_compute; reflexivity).
  assert (Hread : ∃ result,
            Mpesa.processCallback (Sample.paid_callback "ws_CO_1") = inr result
            ∧ Mpesa.result_success result = true
            ∧ Mpesa.result_checkoutRequestId result = Some "ws_CO_1")
    by (eexists; by repeat split).
  destruct Hread as (result & Hread & Hok & Hid).
  assert (Ho : orders Scenario.pushed !! "o1" = Some o)
    by (rewrite Hos; apply lookup_insert_eq).
  assert (Hq : Order.transactionId (Order.paymentDetails o)
               = Mpesa.result_checkoutRequestId result) by (by rewrite Hid).
  assert (Hunique : ∀ j o2, orders Scenario.pushed !! j = Some o2 →
            Order.transactionId (Order.paymentDetails o2)
            = Mpesa.result_checkoutRequestId result → j = "o1").
  { intros j o2 Hj _. destruct (decide (j = "o1")) as [|Hne]; [done|].
    exfalso. revert Hj. rewrite Hos.
    rewrite lookup_insert_ne by done. by rewrite lookup_empty. }
  destruct (mpesaCallback_delivered_twice 600 601 800 801 _ Scenario.pushed
              result "o1" o Hread Hok Ho Hq Hunique)
    as (o1 & o2 & Ho1 & Ho2 & _ & Hhist & _ & Hrepeat & _).
  exists o1, o2. split; [exact Ho1|]. split; [exact Ho2|].
  split; [exact Hhist|]. by rewrite Hrepeat.
Defined.

(** ** The cart *)

(** The hook of the cart, item by item from the front. *)
Lemma keep_latest_cons (it : Cart.item) (its : list Cart.item) :
  Cart.keep_latest [] = []
  ∧ Cart.keep_latest (it :: its)
    = if bool_decide (Cart.product it ∈ Cart.product <$> Cart.keep_latest its)
      then Cart.keep_latest its
      else it :: Cart.keep_latest its.
Proof.
  split; [done|]. unfold Cart.keep_latest.
  set (f := fun (acc : list Cart.item * gset string) (it : Cart.item) =>
              let (uniqueItems, productIds) := acc in
              if bool_decide (Cart.product it ∈ productIds)
              then (uniqueItems, productIds)
              else (it :: uniqueItems, {[Cart.product it]} ∪ productIds)).
  assert (Hstep : ∀ x l, fold_left f (rev (x :: l)) ([], ∅)
                         = f (fold_left f (rev l) ([], ∅)) x)
    by (intros; simpl rev; by rewrite fold_left_app).
  assert (Hset : ∀ l, (fold_left f (rev l) ([], ∅)).2
                      = list_to_set
                          (Cart.product <$> (fold_left f (rev l) ([], ∅)).1)).
  { induction l as [|x l IH]; [done|]. rewrite Hstep.
    destruct (fold_left f (rev l) ([], ∅)) as [u ids]. simpl in *.
    subst ids. by case_bool_decide. }
  rewrite Hstep. specialize (Hset its).
  destruct (fold_left f (rev its) ([], ∅)) as [u ids]. simpl in *. subst ids.
  rewrite (bool_decide_ext _ (Cart.product it ∈ Cart.product <$> u))
    by apply elem_of_list_to_set.
  by case_bool_decide.
Qed.

Lemma keep_latest_products (its : list Cart.item) (p : string) :
  p ∈ Cart.product <$> Cart.keep_latest its ↔ p ∈ Cart.product <$> its.
Proof.
  induction its as [|it its IH]; [done|].
  rewrite (proj2 (keep_latest_cons it its)).
  case_bool_decide as Hin; rewrite !fmap_cons, ?elem_of_cons, IH.
  - split; [auto|]. intros [->|]; [|done]. by apply IH.
  - done.
Qed.

Lemma keep_latest_nodup (its : list Cart.item) :
  NoDup (Cart.product <$> Cart.keep_latest its).
Proof.
  induction its as [|it its IH]; [constructor|].
  rewrite (proj2 (keep_latest_cons it its)).
  case_bool_decide; [done|]. rewrite fmap_cons. by constructor.
Qed.

Lemma keep_latest_fixes (its : list Cart.item) :
  NoDup (Cart.product <$> its) → Cart.keep_latest its = its.
Proof.
  induction its as [|it its IH]; [done|].
  rewrite fmap_cons. intros [Hnotin Hnodup]%NoDup_cons.
  rewrite (proj2 (keep_latest_cons it its)), (IH Hnodup).
  by rewrite bool_decide_eq_false_2.
Qed.

(** The pre-save hook of the cart leaves one item for each product, the
    last one in the array, in the order they had: the products of what it
    keeps are distinct, an item is kept exactly when no later item has its
    product, and a cart whose products are already distinct is left as it
    is (so the hook changes nothing when it runs again). *)
Theorem keep_latest_keeps_the_last_of_each_product (its : list Cart.item) :
  NoDup (Cart.product <$> Cart.keep_latest its)
  ∧ Cart.keep_latest its `sublist_of` its
  ∧ (∀ it, it ∈ Cart.keep_latest its
           ↔ ∃ pre post, its = pre ++ it :: post
                         ∧ Cart.product it ∉ Cart.product <$> post)
  ∧ (NoDup (Cart.product <$> its) → Cart.keep_latest its = its)
  ∧ Cart.keep_latest (Cart.keep_latest its) = Cart.keep_latest its.
Proof.
  split; [apply keep_latest_nodup|].
  split; [|split; [|split; [apply keep_latest_fixes|]]].
  - induction its as [|x its IH]; [done|].
    rewrite (proj2 (keep_latest_cons x its)).
    case_bool_decide; by constructor.
  - induction its as [|x its IH]; intros it.
    + split; [by intros ?%elem_of_nil|].
      intros (pre & post & H & _). by destruct pre.
    + rewrite (proj2 (keep_latest_cons x its)). split.
      * intros Hin.
        assert (Hcases : (it = x ∧ Cart.product x ∉ Cart.product <$> its)
                         ∨ it ∈ Cart.keep_latest its).
        { case_bool_decide as Hx; [by right|].
          apply elem_of_cons in Hin as [->|Hin]; [left|by right].
          split; [done|]. by rewrite <- keep_latest_products. }
        destruct Hcases as [[-> Hx]|Hkept].
        -- by exists [], its.
        -- apply IH in Hkept as (pre & post & -> & Hpost).
           by exists (x :: pre), post.
      * intros (pre & post & Hsplit & Hpost).
        destruct pre as [|y pre]; simpl in Hsplit.
        -- injection Hsplit as <- <-.
           rewrite bool_decide_eq_false_2
             by (by rewrite keep_latest_products).
           apply list_elem_of_here.
        -- injection Hsplit as <- ->.
           assert (it ∈ Cart.keep_latest (pre ++ it :: post))
             by (apply IH; by exists pre, post).
           case_bool_decide; [done|]. by apply list_elem_of_further.
  - apply keep_latest_fixes, keep_latest_nodup.
Qed.

Lemma keep_latest_witness :
  Cart.keep_latest Basket.doubled
  = [Basket.item "i2" "p2" 1; Basket.item "i3" "p1" 5]
  ∧ Cart.keep_latest (Cart.items Basket.saved) = Cart.items Basket.saved.
Proof.
  split; [reflexivity|].
  destruct (keep_latest_keeps_the_last_of_each_product
              (Cart.items Basket.saved)) as (_ & _ & _ & Hfix & _).
  apply Hfix. apply (bool_decide_unpack _). by vm_compute.
Defined.

Lemma total_from (its : list Cart.item) (a : Z) :
  fold_left (fun total item => total + Cart.quantity item) its a
  = a + fold_left (fun total item => total + Cart.quantity item) its 0.
Proof.
  revert a. induction its as [|it its IH]; intros a; simpl; [lia|].
  rewrite (IH (a + _)), (IH (0 + _)). lia.
Qed.

Lemma totalItems_app (c : Cart.t) (l1 l2 : list Cart.item) :
  Cart.totalItems (Cart.set_items (l1 ++ l2) c)
  = Cart.totalItems (Cart.set_items l1 c)
    + Cart.totalItems (Cart.set_items l2 c).
Proof.
  unfold Cart.totalItems. simpl. rewrite fold_left_app. apply total_from.
Qed.

Lemma totalItems_cons (c : Cart.t) (it : Cart.item) (l : list Cart.item) :
  Cart.totalItems (Cart.set_items (it :: l) c)
  = Cart.quantity it + Cart.totalItems (Cart.set_items l c).
Proof. unfold Cart.totalItems. simpl. apply total_from. Qed.

Lemma add_to_existing_found (pid : string) (q : Z) (its its' : list Cart.item) :
  Cart.add_to_existing pid q its = Some its' →
  ∃ pre it post,
    its = pre ++ it :: post ∧ Cart.product it = pid
    ∧ (pid ∉ Cart.product <$> pre)
    ∧ its' = pre ++ Cart.set_quantity (Cart.quantity it + q) it :: post.
Proof.
  revert its'. induction its as [|x its IH]; intros its'; [done|]. simpl.
  destruct (String.eqb_spec (Cart.product x) pid) as [Hx|Hx].
  - intros [= <-]. exists [], x, its. repeat split; [done|].
    by intros ?%elem_of_nil.
  - destruct (Cart.add_to_existing pid q its) as [l|]; [|done].
    intros [= <-]. destruct (IH l eq_refl) as (pre & it & post & -> & Hp & Hpre & ->).
    exists (x :: pre), it, post. repeat split; [done|].
    intros Hin.
    change (pid ∈ Cart.product x :: (Cart.product <$> pre)) in Hin.
    apply elem_of_cons in Hin as [?|?]; [congruence|done].
Qed.

Lemma add_to_existing_absent (pid : string) (q : Z) (its : list Cart.item) :
  Cart.add_to_existing pid q its = None ↔ pid ∉ Cart.product <$> its.
Proof.
  induction its as [|x its IH]; simpl.
  - split; [|done]. intros _ Hin. by apply elem_of_nil in Hin.
  - change (Cart.product <$> x :: its)
      with (Cart.product x :: (Cart.product <$> its)).
    rewrite not_elem_of_cons.
    destruct (String.eqb_spec (Cart.product x) pid) as [Hx|Hx].
    + split; [done|]. intros [? _]. congruence.
    + destruct (Cart.add_to_existing pid q its).
      * split; [done|]. intros [_ H]. by apply IH in H.
      * split; [|done]. intros _. split; [congruence|by apply IH].
Qed.

(** [addItem] on a cart whose products are distinct and whose quantities
    are at least 1, with a quantity of at least 1: the cart is saved, its
    total number of items has grown by the quantity, its products are still
    distinct; a product that was not in the cart gets a new item at the end,
    and a product that was in it keeps its item, with the quantity added to
    the one it had.  A new product with a quantity below 1 is refused by
    the validator. *)
Theorem addItem_adds_the_quantity
    (fresh_id : string) (now saved : Z) (pid : string) (q : Z) (c : Cart.t) :
  NoDup (Cart.product <$> Cart.items c) →
  forallb Cart.valid_item (Cart.items c) = true →
  (1 ≤ q →
   ∃ c',
     Cart.addItem fresh_id now saved pid q c = inr c'
     ∧ Cart.totalItems c' = Cart.totalItems c + q
     ∧ NoDup (Cart.product <$> Cart.items c')
     ∧ forallb Cart.valid_item (Cart.items c') = true
     ∧ Cart.user c' = Cart.user c
     ∧ (pid ∉ Cart.product <$> Cart.items c →
        Cart.items c'
        = Cart.items c ++ [ {| Cart._id := fresh_id; Cart.product := pid;
                               Cart.quantity := q; Cart.addedAt := now |} ])
     ∧ (pid ∈ Cart.product <$> Cart.items c →
        ∃ pre it post,
          Cart.items c = pre ++ it :: post ∧ Cart.product it = pid
          ∧ Cart.items c'
            = pre ++ Cart.set_quantity (Cart.quantity it + q) it :: post))
  ∧ (q < 1 → pid ∉ Cart.product <$> Cart.items c →
     ∃ text, Cart.addItem fresh_id now saved pid q c = inl (Error text)).
Proof.
  intros Hnodup Hvalid. split.
  - intros Hq. unfold Cart.addItem.
    destruct (Cart.add_to_existing pid q (Cart.items c)) as [its|] eqn:Hadd.
    + apply add_to_existing_found in Hadd
        as (pre & it & post & Hc & Hp & Hpre & ->).
      assert (Hproducts : Cart.product <$>
                (pre ++ Cart.set_quantity (Cart.quantity it + q) it :: post)
              = Cart.product <$> Cart.items c)
        by (by rewrite Hc, !fmap_app, !fmap_cons).
      assert (Hvalid' : forallb Cart.valid_item
                (pre ++ Cart.set_quantity (Cart.quantity it + q) it :: post)
              = true).
      { rewrite Hc in Hvalid. rewrite forallb_app in Hvalid |- *.
        simpl in *. unfold Cart.valid_item in *. simpl.
        apply andb_true_iff in Hvalid as [-> [Hit ->]%andb_true_iff].
        apply Z.leb_le in Hit. simpl. rewrite andb_true_r.
        apply Z.leb_le. lia. }
      unfold Cart.save. simpl. rewrite Hvalid'.
      rewrite keep_latest_fixes by (by rewrite Hproducts).
      eexists. split; [reflexivity|]. simpl.
      split.
      { change (Cart.totalItems {| Cart.user := Cart.user c;
                  Cart.items := ?l; Cart.lastModified := saved |})
          with (Cart.totalItems (Cart.set_items l c)).
        replace (Cart.totalItems c)
          with (Cart.totalItems (Cart.set_items (pre ++ it :: post) c))
          by (unfold Cart.totalItems; simpl; by rewrite Hc).
        rewrite !totalItems_app, !totalItems_cons. simpl. lia. }
      split; [by rewrite Hproducts|]. split; [done|]. split; [done|].
      split.
      * intros Hnot. exfalso. apply Hnot. rewrite Hc, fmap_app, fmap_cons.
        rewrite elem_of_app, elem_of_cons. auto.
      * intros _. by exists pre, it, post.
    + apply add_to_existing_absent in Hadd.
      assert (Hnodup' : NoDup (Cart.product <$>
                (Cart.items c ++ [ {| Cart._id := fresh_id;
                   Cart.product := pid; Cart.quantity := q;
                   Cart.addedAt := now |} ]))).
      { rewrite fmap_app. apply NoDup_app. split; [done|].
        split; [|apply NoDup_singleton].
        intros x Hx ->%list_elem_of_singleton. done. }
      unfold Cart.save. simpl. rewrite forallb_app, Hvalid. simpl.
      unfold Cart.valid_item at 1. simpl.
      destruct (Z.leb_spec 1 q); [|lia]. simpl.
      rewrite keep_latest_fixes by done.
      eexists. split; [reflexivity|]. simpl.
      split.
      { change (Cart.totalItems {| Cart.user := Cart.user c;
                  Cart.items := ?l; Cart.lastModified := saved |})
          with (Cart.totalItems (Cart.set_items l c)).
        rewrite totalItems_app, totalItems_cons. unfold Cart.totalItems.
        simpl. lia. }
      split; [done|].
      split; [by rewrite forallb_app, Hvalid; simpl;
                 unfold Cart.valid_item; simpl;
                 destruct (Z.leb_spec 1 q); [|lia]|].
      split; [done|]. split; [done|]. intros Hin. done.
  - intros Hq Habsent. unfold Cart.addItem.
    rewrite (proj2 (add_to_existing_absent pid q (Cart.items c)) Habsent).
    unfold Cart.save. simpl. rewrite forallb_app. simpl.
    unfold Cart.valid_item at 2. simpl.
    destruct (Z.leb_spec 1 q); [lia|]. rewrite !andb_false_r.
    by eexists.
Qed.

Lemma addItem_adds_witness :
  ∃ c',
    Cart.addItem "i3" 70 71 "p1" 3 Basket.saved = inr c'
    ∧ Cart.totalItems c' = Cart.totalItems Basket.saved + 3
    ∧ Cart.items c' = [Basket.item "i1" "p1" 5; Basket.item "i2" "p2" 1].
Proof.
  destruct (addItem_adds_the_quantity "i3" 70 71 "p1" 3 Basket.saved
              ltac:(apply (bool_decide_unpack _); by vm_compute) eq_refl)
    as [Hadds _].
  destruct (Hadds ltac:(lia)) as (c' & Hrun & Htotal & _).
  exists c'. split; [exact Hrun|]. split; [exact Htotal|].
  assert (H : inr c' = Cart.addItem "i3" 70 71 "p1" 3 Basket.saved)
    by (by rewrite Hrun).
  vm_compute in H. by injection H as ->.
Defined.

Lemma set_existing_found (pid : string) (q : Z) (its its' : list Cart.item) :
  Cart.set_existing pid q its = Some its' →
  ∃ pre it post,
    its = pre ++ it :: post ∧ Cart.product it = pid
    ∧ its' = pre ++ Cart.set_quantity q it :: post.
Proof.
  revert its'. induction its as [|x its IH]; intros its'; [done|]. simpl.
  destruct (String.eqb_spec (Cart.product x) pid) as [Hx|Hx].
  - intros [= <-]. by exists [], x, its.
  - destruct (Cart.set_existing pid q its) as [l|]; [|done].
    intros [= <-].
    destruct (IH l eq_refl) as (pre & it & post & -> & Hp & ->).
    by exists (x :: pre), it, post.
Qed.

Lemma set_existing_absent (pid : string) (q : Z) (its : list Cart.item) :
  Cart.set_existing pid q its = None ↔ pid ∉ Cart.product <$> its.
Proof.
  induction its as [|x its IH]; simpl.
  - split; [|done]. intros _ Hin. by apply elem_of_nil in Hin.
  - change (Cart.product <$> x :: its)
      with (Cart.product x :: (Cart.product <$> its)).
    rewrite not_elem_of_cons.
    destruct (String.eqb_spec (Cart.product x) pid) as [Hx|Hx].
    + split; [done|]. intros [? _]. congruence.
    + destruct (Cart.set_existing pid q its).
      * split; [done|]. intros [_ H]. by apply IH in H.
      * split; [|done]. intros _. split; [congruence|by apply IH].
Qed.

Lemma filter_other_products (pid : string) (its : list Cart.item) :
  let kept :=
    List.filter (fun it => negb (String.eqb (Cart.product it) pid)) its in
  (pid ∉ Cart.product <$> kept)
  ∧ (NoDup (Cart.product <$> its) → NoDup (Cart.product <$> kept))
  ∧ (forallb Cart.valid_item its = true → forallb Cart.valid_item kept = true)
  ∧ (∀ p, p ∈ Cart.product <$> kept → p ∈ Cart.product <$> its).
Proof.
  induction its as [|x its (IH1 & IH2 & IH3 & IH4)]; simpl.
  - repeat split; try done. by intros ?%elem_of_nil.
  - destruct (String.eqb_spec (Cart.product x) pid) as [Hx|Hx]; simpl.
    + split; [done|]. split; [|split].
      * rewrite ?fmap_cons. intros [_ ?]%NoDup_cons. auto.
      * intros [_ ?]%andb_true_iff. auto.
      * intros p Hp. rewrite ?fmap_cons. apply list_elem_of_further. auto.
    + rewrite ?fmap_cons. split; [|split; [|split]].
      * rewrite not_elem_of_cons. split; [congruence|done].
      * intros [Hnotin Hnodup]%NoDup_cons. apply NoDup_cons. split; [|auto].
        intros Hin. apply Hnotin. auto.
      * intros [-> ?]%andb_true_iff. auto.
      * intros p. rewrite !elem_of_cons. intros [->|?]; auto.
Qed.

(** The other methods of the cart, on a cart whose products are distinct
    and whose quantities are at least 1.  [removeItem] saves the cart
    without the item of the product and with the other items as they were;
    [updateItemQuantity] throws [Item not found in cart] for a product that
    is not in the cart, is [removeItem] for a quantity of 0 or less, and
    otherwise saves the cart with that quantity on the item of the product;
    [clearCart] saves an empty cart.  What each of them saves has distinct
    products and quantities of at least 1 again. *)
Theorem cart_methods_keep_the_cart_well_formed (c : Cart.t) :
  NoDup (Cart.product <$> Cart.items c) →
  forallb Cart.valid_item (Cart.items c) = true →
  let well_formed (c' : Cart.t) :=
    NoDup (Cart.product <$> Cart.items c')
    ∧ forallb Cart.valid_item (Cart.items c') = true
    ∧ Cart.user c' = Cart.user c in
  (∀ saved pid,
     ∃ c', Cart.removeItem saved pid c = inr c'
           ∧ Cart.items c'
             = List.filter
                 (fun it => negb (String.eqb (Cart.product it) pid))
                 (Cart.items c)
           ∧ (pid ∉ Cart.product <$> Cart.items c')
           ∧ well_formed c')
  ∧ (∀ saved pid q,
       pid ∉ Cart.product <$> Cart.items c →
       Cart.updateItemQuantity saved pid q c
       = inl (Error "Item not found in cart"))
  ∧ (∀ saved pid q,
       pid ∈ Cart.product <$> Cart.items c → q ≤ 0 →
       Cart.updateItemQuantity saved pid q c = Cart.removeItem saved pid c)
  ∧ (∀ saved pid q,
       pid ∈ Cart.product <$> Cart.items c → 1 ≤ q →
       ∃ c' pre it post,
         Cart.updateItemQuantity saved pid q c = inr c'
         ∧ Cart.items c = pre ++ it :: post ∧ Cart.product it = pid
         ∧ Cart.items c' = pre ++ Cart.set_quantity q it :: post
         ∧ well_formed c')
  ∧ (∀ saved,
       Cart.clearCart saved c
       = inr {| Cart.user := Cart.user c; Cart.items := [];
                Cart.lastModified := saved |}).
Proof.
  intros Hnodup Hvalid well_formed.
  split; [|split; [|split; [|split]]].
  - intros saved pid.
    destruct (filter_other_products pid (Cart.items c))
      as (Hgone & Hnd & Hv & _).
    unfold Cart.removeItem, Cart.save. simpl.
    rewrite (Hv Hvalid), (keep_latest_fixes _ (Hnd Hnodup)).
    eexists. split; [reflexivity|]. simpl.
    split; [done|]. split; [done|]. split; [auto|]. by split; [auto|].
  - intros saved pid q Habsent. unfold Cart.updateItemQuantity.
    by rewrite (proj2 (set_existing_absent pid q (Cart.items c)) Habsent).
  - intros saved pid q Hin Hq. unfold Cart.updateItemQuantity.
    destruct (Cart.set_existing pid q (Cart.items c)) eqn:Hset.
    + by destruct (Z.leb_spec q 0); [|lia].
    + by apply set_existing_absent in Hset.
  - intros saved pid q Hin Hq. unfold Cart.updateItemQuantity.
    destruct (Cart.set_existing pid q (Cart.items c)) as [its|] eqn:Hset;
      [|by apply set_existing_absent in Hset].
    apply set_existing_found in Hset as (pre & it & post & Hc & Hp & ->).
    destruct (Z.leb_spec q 0); [lia|].
    assert (Hproducts : Cart.product <$> (pre ++ Cart.set_quantity q it :: post)
                        = Cart.product <$> Cart.items c)
      by (by rewrite Hc, !fmap_app, !fmap_cons).
    assert (Hvalid' : forallb Cart.valid_item
                        (pre ++ Cart.set_quantity q it :: post) = true).
    { rewrite Hc in Hvalid. rewrite forallb_app in Hvalid |- *.
      simpl in *. unfold Cart.valid_item in *. simpl.
      apply andb_true_iff in Hvalid as [-> [_ ->]%andb_true_iff].
      simpl. rewrite andb_true_r. apply Z.leb_le. lia. }
    unfold Cart.save. simpl. rewrite Hvalid'.
    rewrite keep_latest_fixes by (by rewrite Hproducts).
    eexists _, pre, it, post. split; [reflexivity|].
    split; [done|]. split; [done|]. split; [done|].
    split; [by cbn [Cart.items]; rewrite Hproducts|]. by split.
  - done.
Qed.

Lemma cart_methods_witness :
  (∃ c', Cart.removeItem 80 "p1" Basket.saved = inr c'
         ∧ Cart.items c' = [Basket.item "i2" "p2" 1])
  ∧ Cart.updateItemQuantity 80 "p7" 2 Basket.saved
    = inl (Error "Item not found in cart")
  ∧ Cart.updateItemQuantity 80 "p1" 0 Basket.saved
    = Cart.removeItem 80 "p1" Basket.saved.
Proof.
  pose proof (cart_methods_keep_the_cart_well_formed Basket.saved
                ltac:(apply (bool_decide_unpack _); by vm_compute) eq_refl)
    as (Hremove & Hmissing & Hzero & _).
  split; [|split].
  - destruct (Hremove 80 "p1") as (c' & Hrun & Hitems & _).
    exists c'. split; [exact Hrun|]. by rewrite Hitems.
  - apply Hmissing. apply (bool_decide_unpack _). by vm_compute.
  - apply Hzero; [|lia]. apply (bool_decide_unpack _). by vm_compute.
Defined.

(** ** From the cart to the order *)

Lemma cart_sums (ps : gmap string Product.t) (oits : list Order.item)
    (cits : list Cart.item) :
  Forall2
    (fun it c =>
       Order.quantity it = Cart.quantity c
       ∧ ∃ p, ps !! Cart.product c = Some p
              ∧ Order.price it = OrderController.price_of p)
    oits cits →
  ∀ a b,
    fold_left
      (fun (acc : Z * Z) it =>
         match ps !! Cart.product it with
         | Some p =>
             (acc.1 + OrderController.price_of p * Cart.quantity it,
              acc.2 + Cart.quantity it)
         | None => acc
         end)
      cits (a, b)
    = (a + sum_items oits,
       b + fold_left (fun total item => total + Cart.quantity item) cits 0).
Proof.
  induction 1 as [|it c oits cits (Hq & p & Hp & Hprice) _ IH]; intros a b.
  - simpl. f_equal; lia.
  - simpl. rewrite Hp. simpl. rewrite IH, Hprice, Hq.
    rewrite (total_from cits (0 + _)). f_equal; lia.
Qed.

(** The subtotal the cart shows is the subtotal [createOrder] computes.
    When the loop of [createOrder] has gone through the lines of a cart,
    the subtotal of the document it hands to [Order.create] is the
    [subtotal] that [calculateTotals] computed for the cart from the product
    collection before the request, the total of the document is that
    subtotal plus the delivery fee, and the [totalItems] of
    [calculateTotals] is the cart's [totalItems]. *)
Theorem cart_subtotal_is_the_order_subtotal
    (user : actor) (body : OrderController.create_body) (d : db)
    (ps : gmap string Product.t) (orderItems : list Order.item)
    (subtotal : Z) (c : Cart.t) :
  OrderController.items body = Cart.lines c →
  OrderController.reserve (OrderController.items body) (products d) [] 0
  = (ps, inr (orderItems, subtotal)) →
  let document := OrderController.document user body orderItems subtotal in
  Cart.subtotal (Cart.calculateTotals (products d) c)
  = Order.draft_subtotal document
  ∧ Order.draft_total document
    = (fun fee => Cart.subtotal (Cart.calculateTotals (products d) c) + fee)
      <$> Order.draft_deliveryFee document
  ∧ Cart.totals_totalItems (Cart.calculateTotals (products d) c)
    = Cart.totalItems c.
Proof.
  intros Hlines Hloop.
  pose proof (reserve_ends _ _ _ _ _ _ _ Hloop) as (_ & new' & Hoi & Hst & _).
  apply reserve_snapshots in Hloop as (new & -> & Hsnap).
  simpl in Hoi. subst new'.
  rewrite Hlines in Hsnap. unfold Cart.lines in Hsnap.
  apply Forall2_fmap_r in Hsnap.
  assert (Hsums := cart_sums (products d) new (Cart.items c)).
  unfold Cart.calculateTotals. simpl. rewrite Hsums.
  - simpl. unfold Cart.totalItems. rewrite Hst. repeat split; lia.
  - eapply Forall2_impl; [exact Hsnap|]. simpl.
    intros it ci (_ & Hq & p & Hp & _ & Hprice & _). split; [done|].
    by exists p.
Qed.

Lemma cart_subtotal_witness :
  Cart.subtotal (Cart.calculateTotals (products Sample.shop) Basket.saved)
  = 18900
  ∧ Order.draft_total
      (OrderController.document Sample.alice
         {| OrderController.customer_city := units "Thika";
            OrderController.items := Cart.lines Basket.saved;
            OrderController.paymentMethod := None |}
         [] 18900)
    = Some (18900 + 500).
Proof.
  assert (Hloop : ∃ ps orderItems,
            OrderController.reserve (Cart.lines Basket.saved)
              (products Sample.shop) [] 0
            = (ps, inr (orderItems, 18900)))
    by (eexists _, _; reflexivity).
  destruct Hloop as (ps & orderItems & Hloop).
  destruct (cart_subtotal_is_the_order_subtotal Sample.alice
              {| OrderController.customer_city := units "Thika";
                 OrderController.items := Cart.lines Basket.saved;
                 OrderController.paymentMethod := None |}
              Sample.shop ps orderItems 18900 Basket.saved eq_refl Hloop)
    as (Hsub & Htotal & _).
  split; [exact Hsub|]. rewrite Hsub in Htotal. exact Htotal.
Defined.

Lemma validateCart_lists (ps : gmap string Product.t) (its : list Cart.item) :
  ∀ inv val,
    fold_left
      (fun (acc : list (Cart.reason * Cart.item) * list Cart.item) it =>
         match Cart.judge ps it with
         | Some why => (acc.1 ++ [(why, it)], acc.2)
         | None => (acc.1, acc.2 ++ [it])
         end)
      its (inv, val)
    = (inv ++ omap (fun it => (fun why => (why, it)) <$> Cart.judge ps it) its,
       val ++ List.filter
                (fun it => bool_decide (Cart.judge ps it = None)) its).
Proof.
  induction its as [|it its IH]; intros inv val.
  - simpl. by rewrite !app_nil_r.
  - simpl (omap _ (_ :: _)). simpl (List.filter _ (_ :: _)).
    cbn [fold_left].
    destruct (Cart.judge ps it) as [why|]; cbn [fst snd]; rewrite IH; simpl.
    + by rewrite <- app_assoc.
    + by rewrite <- app_assoc.
Qed.

Lemma judge_valid (ps : gmap string Product.t) (it : Cart.item) :
  1 ≤ Cart.quantity it →
  Cart.judge ps it ≠ Some Cart.OutOfStock
  ∧ (Cart.judge ps it = None
     ↔ ∃ p, ps !! Cart.product it = Some p
            ∧ Cart.quantity it ≤ Product.stock p).
Proof.
  intros Hq. unfold Cart.judge.
  destruct (ps !! Cart.product it) as [p|].
  - destruct (Z.ltb_spec (Product.stock p) (Cart.quantity it)).
    + split; [done|]. split; [done|]. intros (p' & [= <-] & ?). lia.
    + destruct (Z.eqb_spec (Product.stock p) 0); [lia|].
      split; [done|]. split; [|done]. intros _. by exists p.
  - split; [done|]. split; [done|]. by intros (p & ? & _).
Qed.

Lemma reserve_distinct_products ls : ∀ ps oi st,
  NoDup (OrderController.product <$> ls) →
  (∃ built, (OrderController.reserve ls ps oi st).2 = inr built)
  ↔ Forall
      (fun l => ∃ p, ps !! OrderController.product l = Some p
                     ∧ OrderController.quantity l ≤ Product.stock p
                     ∧ Product.prices_valid p = true) ls.
Proof.
  induction ls as [|l ls IH]; intros ps oi st Hnodup.
  - split; [done|]. intros _. by eexists.
  - rewrite fmap_cons in Hnodup. apply NoDup_cons in Hnodup as [Hl Hnodup].
    rewrite Forall_cons.
    destruct (ps !! OrderController.product l) as [p|] eqn:Hp.
    + rewrite (reserve_step _ _ _ _ _ _ Hp).
      destruct (Z.ltb_spec (Product.stock p) (OrderController.quantity l)).
      * split; [by intros [? ?]|]. intros [(p' & [= <-] & ? & _) _]. lia.
      * destruct (Product.prices_valid p) eqn:Hv.
        2:{ split; [by intros [? ?]|].
            intros [(p' & [= <-] & _ & Hv') _]. congruence. }
        rewrite (IH _ _ _ Hnodup).
        assert (Hsame : ∀ l', l' ∈ ls →
                  <[OrderController.product l :=
                      Product.set_stock
                        (Product.stock p - OrderController.quantity l) p]> ps
                  !! OrderController.product l'
                  = ps !! OrderController.product l').
        { intros l' Hl'. apply lookup_insert_ne. intros Heq. apply Hl.
          rewrite Heq. by apply list_elem_of_fmap_2. }
        split.
        -- intros Hall. split; [by exists p|].
           apply Forall_forall. intros l' Hl'.
           rewrite Forall_forall in Hall. specialize (Hall l' Hl').
           by rewrite (Hsame l' Hl') in Hall.
        -- intros [_ Hall]. apply Forall_forall. intros l' Hl'.
           rewrite Forall_forall in Hall. specialize (Hall l' Hl').
           by rewrite (Hsame l' Hl').
    + rewrite (reserve_missing _ _ _ _ _ Hp).
      split; [by intros [? ?]|]. by intros [(p' & ? & _) _].
Qed.

(** [validateCart] and [createOrder] agree on the stock.  For a cart whose
    products are distinct and whose quantities are at least 1,
    [validateCart] calls the cart valid exactly when every product exists
    with a stock that covers the quantity, and the loop of [createOrder]
    goes through the lines of the cart exactly when [validateCart] calls the
    cart valid and the products of the cart pass the validators of their
    prices: a product that does not pass them stops the loop in
    [updateStock], whatever [validateCart] says.  The reason [Out of stock]
    is never given for such a cart: a product without stock is reported as
    [Only 0 items available]. *)
Theorem validateCart_agrees_with_createOrder
    (ps : gmap string Product.t) (c : Cart.t) :
  NoDup (Cart.product <$> Cart.items c) →
  forallb Cart.valid_item (Cart.items c) = true →
  ((∃ built, (OrderController.reserve (Cart.lines c) ps [] 0).2 = inr built)
   ↔ Cart.isValid (Cart.validateCart ps c) = true
     ∧ Forall
         (fun it => ∀ p, ps !! Cart.product it = Some p →
                         Product.prices_valid p = true)
         (Cart.items c))
  ∧ (Cart.isValid (Cart.validateCart ps c) = true
     ↔ Forall
         (fun it => ∃ p, ps !! Cart.product it = Some p
                         ∧ Cart.quantity it ≤ Product.stock p)
         (Cart.items c))
  ∧ Forall (fun wi => wi.1 ≠ Cart.OutOfStock)
      (Cart.invalidItems (Cart.validateCart ps c))
  ∧ Cart.validItems (Cart.validateCart ps c)
    = List.filter
        (fun it =>
           match ps !! Cart.product it with
           | Some p => Cart.quantity it <=? Product.stock p
           | None => false
           end)
        (Cart.items c).
Proof.
  intros Hnodup Hvalid.
  assert (Hq : Forall (fun it => 1 ≤ Cart.quantity it) (Cart.items c)).
  { apply Forall_forall. intros it Hit.
    rewrite forallb_forall in Hvalid.
    apply Z.leb_le, Hvalid. by apply list_elem_of_In. }
  assert (Hiff : Cart.isValid (Cart.validateCart ps c) = true
                 ↔ Forall
                     (fun it => ∃ p, ps !! Cart.product it = Some p
                                     ∧ Cart.quantity it ≤ Product.stock p)
                     (Cart.items c)).
  { unfold Cart.validateCart. simpl. rewrite validateCart_lists. simpl.
    rewrite Nat.eqb_eq, length_zero_iff_nil. clear Hnodup Hvalid.
    induction Hq as [|it its Hit _ IH]; simpl; [done|].
    destruct (judge_valid ps it Hit) as [_ Hnone].
    rewrite Forall_cons, <- Hnone.
    destruct (Cart.judge ps it); simpl.
    - split; [done|]. by intros [? _].
    - rewrite IH. split; [by split|]. by intros [_ ?]. }
  split; [|split; [done|split]].
  - rewrite Hiff, reserve_distinct_products
      by (unfold Cart.lines; by rewrite <- list_fmap_compose).
    unfold Cart.lines. rewrite Forall_fmap, <- Forall_and.
    apply Forall_iff. intros it. simpl. split.
    + intros (p & Hp & Hle & Hv). split; [by exists p|].
      intros p' Hp'. congruence.
    + intros [(p & Hp & Hle) Hv]. exists p. auto.
  - unfold Cart.validateCart. simpl. rewrite validateCart_lists. simpl.
    clear Hiff Hnodup Hvalid.
    induction Hq as [|it its Hit _ IH]; simpl; [done|].
    destruct (judge_valid ps it Hit) as [Hout _].
    destruct (Cart.judge ps it) as [why|]; simpl; [|done].
    constructor; [|done]. simpl. congruence.
  - unfold Cart.validateCart. simpl. rewrite validateCart_lists. simpl.
    clear Hiff Hnodup Hvalid.
    induction Hq as [|it its Hit _ IH]; simpl; [done|].
    rewrite IH. clear IH.
    assert (Hsame : bool_decide (Cart.judge ps it = None)
                    = match ps !! Cart.product it with
                      | Some p => Cart.quantity it <=? Product.stock p
                      | None => false
                      end).
    { unfold Cart.judge. destruct (ps !! Cart.product it) as [p|]; [|done].
      destruct (Z.ltb_spec (Product.stock p) (Cart.quantity it)),
        (Z.leb_spec (Cart.quantity it) (Product.stock p)); try lia; [done|].
      by destruct (Z.eqb_spec (Product.stock p) 0); [lia|]. }
    by rewrite Hsame.
Qed.

Lemma validateCart_agrees_witness :
  Cart.isValid (Cart.validateCart (products Sample.shop) Basket.saved) = true
  ∧ Cart.isValid (Cart.validateCart (products Sample.shop1) Basket.saved)
    = false
  ∧ Cart.isValid
      (Cart.validateCart (<["p3" := Sample.repriced]> ∅) Basket.bed) = true
  ∧ ¬ ∃ built,
        (OrderController.reserve (Cart.lines Basket.bed)
           (<["p3" := Sample.repriced]> ∅) [] 0).2 = inr built.
Proof.
  split; [|split; [|split]].
  - apply (proj1 (validateCart_agrees_with_createOrder (products Sample.shop)
                    Basket.saved
                    ltac:(apply (bool_decide_unpack _); by vm_compute)
                    eq_refl)).
    by eexists.
  - destruct (Cart.isValid _) eqn:Hvalid; [|done]. exfalso.
    destruct (validateCart_agrees_with_createOrder (products Sample.shop1)
                Basket.saved
                ltac:(apply (bool_decide_unpack _); by vm_compute)
                eq_refl) as (_ & Hstock & _).
    apply Hstock in Hvalid. apply Forall_cons in Hvalid as [(p & Hp & Hle) _].
    vm_compute in Hp. injection Hp as <-. simpl in Hle. lia.
  - reflexivity.
  - intros Hgoes.
    destruct (validateCart_agrees_with_createOrder
                (<["p3" := Sample.repriced]> ∅) Basket.bed
                ltac:(apply (bool_decide_unpack _); by vm_compute)
                eq_refl) as (Hloop & _).
    apply Hloop in Hgoes as [_ Hprices].
    apply Forall_cons in Hprices as [Hbed _].
    discriminate (Hbed Sample.repriced ltac:(apply lookup_insert_eq)).
Defined.

(** ** Phone numbers for display *)

Lemma forallb_take {A} (f : A → bool) (n : nat) (l : list A) :
  forallb f l = true → forallb f (take n l) = true.
Proof.
  revert n. induction l as [|a l IH]; intros [|n]; simpl; try done.
  intros [-> H]%andb_true_iff. by apply IH.
Qed.

Lemma clean_is_digits (phone : ustring) :
  forallb (fun c => is_digit c || Phone.removed c) phone = true →
  Phone.clean phone = List.filter is_digit phone.
Proof.
  unfold Phone.clean. induction phone as [|c phone IH]; [done|]. simpl.
  intros [Hc Hrest]%andb_true_iff. rewrite (IH Hrest).
  destruct (is_digit c) eqn:Hd.
  - by rewrite (digit_not_removed c Hd).
  - simpl in Hc. by rewrite Hc.
Qed.

Lemma clean_display (phone : ustring) :
  Phone.clean (formatPhoneDisplay phone) = List.filter is_digit phone.
Proof.
  unfold formatPhoneDisplay. cbv zeta.
  set (c := List.filter is_digit phone).
  assert (Hc : forallb is_digit c = true) by apply List.forallb_filter.
  assert (Hparts : ∀ a b, Phone.clean (substring a b c) = substring a b c).
  { intros a b. apply clean_fixes_digits, forallb_take.
    by apply forallb_drop. }
  assert (Hdrop : ∀ a, Phone.clean (drop a c) = drop a c)
    by (intros a; by apply clean_fixes_digits, forallb_drop).
  assert (Happ : ∀ l1 l2, Phone.clean (l1 ++ l2)
                          = Phone.clean l1 ++ Phone.clean l2)
    by (intros; apply List.filter_app).
  assert (Hcut : ∀ (n m : nat) (l : ustring),
             take m (drop n l) ++ drop (n + m) l = drop n l)
    by (intros n m l; by rewrite <- drop_drop, take_drop).
  destruct (startsWith (units "254") c) eqn:H254.
  - rewrite !Happ, !Hparts, Hdrop.
    change (Phone.clean (units "+254 ")) with (units "254").
    change (Phone.clean (units " ")) with (@nil N).
    rewrite !app_nil_l. unfold substring.
    change (6 - 3)%nat with 3%nat. change (9 - 6)%nat with 3%nat.
    rewrite (Hcut 6%nat 3%nat c : take 3 (drop 6 c) ++ drop 9 c = _).
    rewrite (Hcut 3%nat 3%nat c : take 3 (drop 3 c) ++ drop 6 c = _).
    symmetry. exact (startsWith_split _ _ H254).
  - destruct (startsWith (units "0") c) eqn:H0; [|by apply clean_fixes_digits].
    rewrite !Happ, !Hparts, Hdrop.
    change (Phone.clean (units " ")) with (@nil N).
    rewrite !app_nil_l. unfold substring.
    change (4 - 0)%nat with 4%nat. change (7 - 4)%nat with 3%nat.
    rewrite (Hcut 4%nat 3%nat c : take 3 (drop 4 c) ++ drop 7 c = _).
    rewrite (Hcut 0%nat 4%nat c : take 4 (drop 0 c) ++ drop 4 c = _).
    by rewrite drop_0.
Qed.

Lemma normalize_twice (phone : ustring) :
  Phone.normalize (Phone.normalize phone) = Phone.normalize phone.
Proof.
  pose proof (normalize_prefix phone) as Hpre.
  pose proof (normalize_none_removed phone) as Hclean.
  set (n := Phone.normalize phone) in *.
  apply startsWith_split in Hpre.
  unfold Phone.normalize. rewrite (clean_fixes n Hclean).
  rewrite Hpre. reflexivity.
Qed.

Lemma formatPhoneNumber_result (phone r : ustring) :
  Phone.formatPhoneNumber phone = inr r →
  r = Phone.normalize phone ∧ length r = 12%nat.
Proof.
  unfold Phone.formatPhoneNumber. cbv zeta.
  destruct (Nat.eqb_spec (length (Phone.normalize phone)) 12) as [Hlen|];
    [|done].
  by intros [= <-].
Qed.

(** A phone number written for display is read back as the same number:
    for an input of digits, white space, hyphens and plus signs,
    [formatPhoneNumber] gives on [formatPhoneDisplay phone] what it gives on
    [phone]; so a number in the gateway's form, shown as
    [+254 712 345 678], is formatted back to itself. *)
Theorem formatPhoneDisplay_is_read_back (phone : ustring) :
  forallb (fun c => is_digit c || Phone.removed c) phone = true →
  Phone.formatPhoneNumber (formatPhoneDisplay phone)
  = Phone.formatPhoneNumber phone
  ∧ (∀ r, Phone.formatPhoneNumber phone = inr r →
          Phone.formatPhoneNumber (formatPhoneDisplay r) = inr r
          ∧ formatPhoneDisplay r
            = units "+254 " ++ substring 3 6 r ++ units " "
              ++ substring 6 9 r ++ units " " ++ drop 9 r).
Proof.
  intros Hphone.
  assert (Hsame : Phone.formatPhoneNumber (formatPhoneDisplay phone)
                  = Phone.formatPhoneNumber phone).
  { unfold Phone.formatPhoneNumber, Phone.normalize.
    by rewrite clean_display, (clean_is_digits phone Hphone). }
  split; [exact Hsame|]. intros r [Hr Hlen]%formatPhoneNumber_result.
  assert (Hdigits : forallb is_digit r = true)
    by (rewrite Hr; by apply normalize_digits).
  assert (Hpre : startsWith (units "254") r = true)
    by (rewrite Hr; apply normalize_prefix).
  split.
  - transitivity (Phone.formatPhoneNumber r).
    + unfold Phone.formatPhoneNumber, Phone.normalize.
      by rewrite clean_display, (filter_digits_keeps r Hdigits),
        (clean_fixes_digits r Hdigits).
    + unfold Phone.formatPhoneNumber. cbv zeta.
      rewrite Hr, normalize_twice, <- Hr, Hlen. reflexivity.
  - unfold formatPhoneDisplay. cbv zeta.
    by rewrite (filter_digits_keeps r Hdigits), Hpre.
Qed.

Lemma formatPhoneDisplay_witness :
  formatPhoneDisplay (units "254712345678") = units "+254 712 345 678"
  ∧ Phone.formatPhoneNumber (formatPhoneDisplay (units "0712-345678"))
    = inr (units "254712345678").
Proof.
  destruct (formatPhoneDisplay_is_read_back (units "0712-345678") eq_refl)
    as [Hsame Hback].
  split.
  - destruct (Hback (units "254712345678") eq_refl) as [_ Hshape].
    by rewrite Hshape.
  - by rewrite Hsame.
Defined.
